(** * Logistics dashboard: the aggregation engine

    A shallow embedding of the data-processing code of the dashboard
    component (the week-key normaliser [getWeekNumber], the per-source
    aggregators [processProductData], [processSalesData],
    [processPurchaseData], [processClockData] and the composer
    [calculateMetrics]), in its two variants: the component with the error
    boundary ([Module Dashboard]) and the plain component
    ([Module DashboardPlain]); of the data the charts derive from the
    result ([Module Charts]); and of the loading of the four tables
    ([Module Loader]).

    Conventions of the embedding.
    - A JavaScript number is a [num]: an exact rational, [NaN] or a signed
      infinity.  Binary64 rounding, overflow and the negative zero are not
      represented; division by zero and failed parses produce [Inf] and
      [NaN] as in the language.
    - An object used as a dictionary is an [obj]: its own properties in
      creation order.  A read or a write whose key comes from the data (a
      product name, a store name) also meets the members of
      [Object.prototype] ([lookup], [assign]); a week key and an own key
      are never the name of such a member.  A sale whose store is named
      after a member of [Object.prototype] writes its cases on that
      member: these writes, and what a later read would inherit from
      them, are not represented.
    - A [Date] is its time value in milliseconds, or [None] for an invalid
      date.  The host time zone is UTC, so local and UTC fields agree.
    - [console] output is not represented; a thrown error is a result.
    - A request and a parse are what they come to: a rejection, or a
      response with its parsed rows and parse errors.  The state of the
      component is passed explicitly. *)

From Stdlib Require Import ZArith QArith List String Ascii Bool Lia Lqa.
From Stdlib Require Import Permutation Sorted DecimalString DecimalZ DecimalPos.
Import ListNotations.

Local Open Scope string_scope.
Local Open Scope Z_scope.

(** ** ECMAScript values *)

Module JS.

Inductive num : Type :=
| NaN
| Inf (negative : bool)
| Fin (q : Q).

Inductive value : Type :=
| VUndef
| VNull
| VBool (b : bool)
| VNum (n : num)
| VStr (s : string).

Definition zero : num := Fin 0.
Definition of_Z (z : Z) : num := Fin (inject_Z z).

Definition q_is_zero (q : Q) : bool := (Qnum q =? 0).
Definition q_is_neg (q : Q) : bool := (Qnum q <? 0).

Definition isNaN (n : num) : bool :=
  match n with NaN => true | _ => false end.

Definition neg (n : num) : num :=
  match n with
  | NaN => NaN
  | Inf s => Inf (negb s)
  | Fin q => Fin (- q)
  end.

(** [a + b] on numbers. *)
Definition add (a b : num) : num :=
  match a, b with
  | NaN, _ | _, NaN => NaN
  | Inf s, Inf s' => if Bool.eqb s s' then Inf s else NaN
  | Inf s, Fin _ | Fin _, Inf s => Inf s
  | Fin x, Fin y => Fin (x + y)
  end.

(** [a - b] on numbers. *)
Definition sub (a b : num) : num := add a (neg b).

(** [a / b] on numbers; a finite number over zero is an infinity, zero over
    zero is [NaN]. *)
Definition div (a b : num) : num :=
  match a, b with
  | NaN, _ | _, NaN => NaN
  | Inf _, Inf _ => NaN
  | Inf s, Fin y => Inf (xorb s (q_is_neg y))
  | Fin _, Inf _ => Fin 0
  | Fin x, Fin y =>
      if q_is_zero y then (if q_is_zero x then NaN else Inf (q_is_neg x))
      else Fin (x / y)
  end.

(** [a < b]; false as soon as one side is [NaN]. *)
Definition ltb (a b : num) : bool :=
  match a, b with
  | NaN, _ | _, NaN => false
  | Inf s, Inf s' => s && negb s'
  | Inf s, Fin _ => s
  | Fin _, Inf s => negb s
  | Fin x, Fin y => negb (Qle_bool y x)
  end.

Definition gtb (a b : num) : bool := ltb b a.

(** [a <= b]; false as soon as one side is [NaN]. *)
Definition leb (a b : num) : bool :=
  match a, b with
  | NaN, _ | _, NaN => false
  | Inf s, Inf s' => s || negb s'
  | Inf s, Fin _ => s
  | Fin _, Inf s => negb s
  | Fin x, Fin y => Qle_bool x y
  end.

(** ToBoolean on a number: zero and [NaN] are falsy. *)
Definition num_truthy (n : num) : bool :=
  match n with
  | NaN => false
  | Inf _ => true
  | Fin q => negb (q_is_zero q)
  end.

Definition str_truthy (s : string) : bool :=
  match s with EmptyString => false | _ => true end.

(** ToBoolean. *)
Definition truthy (v : value) : bool :=
  match v with
  | VUndef | VNull => false
  | VBool b => b
  | VNum n => num_truthy n
  | VStr s => str_truthy s
  end.

(** [a || b]. *)
Definition or (a b : value) : value := if truthy a then a else b.

(** *** Characters and digits *)

(** The white space of the ASCII range: tab, line feed, vertical tab, form
    feed, carriage return and space. *)
Definition is_ws (c : ascii) : bool :=
  let n := nat_of_ascii c in
  ((9 <=? n) && (n <=? 13))%nat || (n =? 32)%nat.

(** The value of [c] as a digit of a radix up to 36, if it is one. *)
Definition digit_val (c : ascii) : option Z :=
  let n := Z.of_nat (nat_of_ascii c) in
  if (48 <=? n) && (n <=? 57) then Some (n - 48)
  else if (97 <=? n) && (n <=? 122) then Some (n - 87)
  else if (65 <=? n) && (n <=? 90) then Some (n - 55)
  else None.

Definition radix_digit (radix : Z) (c : ascii) : option Z :=
  match digit_val c with
  | Some d => if d <? radix then Some d else None
  | None => None
  end.

(** Reads the longest prefix of digits of [radix], most significant first:
    the number of digits read, their value from [acc], and the rest. *)
Fixpoint read_digits (radix : Z) (s : string) (count : nat) (acc : Z)
  : nat * Z * string :=
  match s with
  | EmptyString => (count, acc, EmptyString)
  | String c s' =>
      match radix_digit radix c with
      | Some d => read_digits radix s' (S count) (acc * radix + d)
      | None => (count, acc, s)
      end
  end.

Fixpoint trim_start (s : string) : string :=
  match s with
  | String c s' => if is_ws c then trim_start s' else s
  | EmptyString => EmptyString
  end.

Fixpoint rev_string (s acc : string) : string :=
  match s with
  | EmptyString => acc
  | String c s' => rev_string s' (String c acc)
  end.

Definition trim_end (s : string) : string :=
  rev_string (trim_start (rev_string s "")) "".

Definition trim (s : string) : string := trim_end (trim_start s).

(** *** Number to string *)

Definition string_of_Z (z : Z) : string :=
  NilEmpty.string_of_int (Z.to_int z).

Definition digit_char (d : Z) : ascii := ascii_of_nat (Z.to_nat (48 + d)).

(** The decimal digits of [r / d] after the point, for [0 <= r < d]; the
    expansion stops when it is exact, and after [fuel] digits at the
    latest. *)
Fixpoint frac_digits (fuel : nat) (r d : Z) : string :=
  match fuel with
  | O => EmptyString
  | S fuel' =>
      if r =? 0 then EmptyString
      else String (digit_char (10 * r / d)) (frac_digits fuel' (10 * r mod d) d)
  end.

(** Number::toString for the radix 10: an integer prints as its digits, any
    other rational in positional notation (no exponent form). *)
Definition num_to_string (n : num) : string :=
  match n with
  | NaN => "NaN"
  | Inf false => "Infinity"
  | Inf true => "-Infinity"
  | Fin q =>
      let n := Qnum q in
      let d := Z.pos (Qden q) in
      if n mod d =? 0 then string_of_Z (n / d)
      else
        let a := Z.abs n in
        (if n <? 0 then "-" else "") ++ string_of_Z (a / d) ++ "."
          ++ frac_digits 21 (a mod d) d
  end.

(** ToString on a primitive value. *)
Definition to_string (v : value) : string :=
  match v with
  | VUndef => "undefined"
  | VNull => "null"
  | VBool true => "true"
  | VBool false => "false"
  | VNum n => num_to_string n
  | VStr s => s
  end.

(** *** String to number *)

Definition read_sign (s : string) : bool * string :=
  match s with
  | String "-" s' => (true, s')
  | String "+" s' => (false, s')
  | _ => (false, s)
  end.

Definition signed (negative : bool) (z : Z) : Z :=
  if negative then - z else z.

(** What follows a leading [0x] or [0X], if [s] starts with one. *)
Definition hex_prefix (s : string) : option string :=
  match s with
  | String "0" (String x s') =>
      if Ascii.eqb x "x" || Ascii.eqb x "X" then Some s' else None
  | _ => None
  end.

(** [parseInt(string, radix)], the radix being 10, 16 or left out
    ([None]). *)
Definition parseInt_string (input : string) (radix : option Z) : num :=
  let '(negative, s) := read_sign (trim_start input) in
  let strip := match radix with Some 10 => false | _ => true end in
  let '(r, digits) :=
    match (if strip then hex_prefix s else None) with
    | Some s' => (16, s')
    | None => (match radix with Some r => r | None => 10 end, s)
    end in
  match read_digits r digits O 0 with
  | (O, _, _) => NaN
  | (_, z, _) => of_Z (signed negative z)
  end.

Definition parseInt (v : value) (radix : option Z) : num :=
  parseInt_string (to_string v) radix.

Definition starts_with (p s : string) : bool :=
  String.eqb (substring 0 (String.length p) s) p.

Definition drop (n : nat) (s : string) : string :=
  substring n (String.length s - n) s.

(** [m * 10^e] as a rational. *)
Definition scale10 (m e : Z) : Q :=
  if 0 <=? e then inject_Z (m * 10 ^ e)
  else Qmake m (Z.to_pos (10 ^ (- e))).

(** An exponent part [e], [e+] or [e-] followed by digits, if [s] starts
    with one: its value and the rest. *)
Definition read_exponent (s : string) : Z * string :=
  match s with
  | String c s' =>
      if Ascii.eqb c "e" || Ascii.eqb c "E" then
        let '(negative, s1) := read_sign s' in
        match read_digits 10 s1 O 0 with
        | (O, _, _) => (0, s)
        | (_, e, rest) => (signed negative e, rest)
        end
      else (0, s)
  | EmptyString => (0, s)
  end.

(** The longest prefix of [s] that is a StrDecimalLiteral, with its value
    and the rest; [None] when no prefix is one. *)
Definition read_decimal (s : string) : option (num * string) :=
  let '(negative, s0) := read_sign s in
  if starts_with "Infinity" s0 then Some (Inf negative, drop 8 s0)
  else
    let '(ni, int_part, s1) := read_digits 10 s0 O 0 in
    let '(nf, mant, s2) :=
      match s1 with
      | String "." s' =>
          let '(nf, m, rest) := read_digits 10 s' O int_part in
          match ni, nf with
          | O, O => (O, int_part, s1)
          | _, _ => (nf, m, rest)
          end
      | _ => (O, int_part, s1)
      end in
    match ni, nf with
    | O, O => None
    | _, _ =>
        let '(e, s3) := read_exponent s2 in
        Some (Fin (scale10 (signed negative mant) (e - Z.of_nat nf)), s3)
    end.

(** [parseFloat(string)]. *)
Definition parseFloat_string (input : string) : num :=
  match read_decimal (trim_start input) with
  | Some (n, _) => n
  | None => NaN
  end.

Definition parseFloat (v : value) : num := parseFloat_string (to_string v).

(** StringToNumber: the whole trimmed string is a numeric literal. *)
Definition string_to_number (input : string) : num :=
  let s := trim input in
  match s with
  | EmptyString => zero
  | String "0" (String x s') =>
      let radix :=
        if Ascii.eqb x "x" || Ascii.eqb x "X" then Some 16
        else if Ascii.eqb x "o" || Ascii.eqb x "O" then Some 8
        else if Ascii.eqb x "b" || Ascii.eqb x "B" then Some 2
        else None in
      match radix with
      | Some r =>
          match read_digits r s' O 0 with
          | (S _, z, EmptyString) => of_Z z
          | _ => NaN
          end
      | None =>
          match read_decimal s with
          | Some (n, EmptyString) => n
          | _ => NaN
          end
      end
  | _ =>
      match read_decimal s with
      | Some (n, EmptyString) => n
      | _ => NaN
      end
  end.

(** ToNumber on a primitive value. *)
Definition to_number (v : value) : num :=
  match v with
  | VUndef => NaN
  | VNull => zero
  | VBool true => of_Z 1
  | VBool false => zero
  | VNum n => n
  | VStr s => string_to_number s
  end.

(** *** Strings *)

(** Puts [c] in front of the first piece. *)
Definition prepend (c : ascii) (pieces : list string) : list string :=
  match pieces with
  | piece :: rest => String c piece :: rest
  | [] => [String c EmptyString]
  end.

(** [s.split(/[-/]/)]: never empty; the pieces between the separators. *)
Fixpoint split_chars (sep : ascii -> bool) (s : string) : list string :=
  match s with
  | EmptyString => [EmptyString]
  | String c s' =>
      if sep c then EmptyString :: split_chars sep s'
      else prepend c (split_chars sep s')
  end.

Definition dash_or_slash (c : ascii) : bool :=
  Ascii.eqb c "-" || Ascii.eqb c "/".

(** [s.split('-W')]. *)
Fixpoint split_dashW (s : string) : list string :=
  match s with
  | EmptyString => [EmptyString]
  | String c s' =>
      match s' with
      | String c' s'' =>
          if Ascii.eqb c "-" && Ascii.eqb c' "W"
          then EmptyString :: split_dashW s''
          else prepend c (split_dashW s')
      | EmptyString => prepend c (split_dashW s')
      end
  end.

(** [s.padStart(2, '0')]. *)
Definition padStart2 (s : string) : string :=
  match String.length s with
  | O => "00"
  | S O => "0" ++ s
  | _ => s
  end.

(** *** Objects used as dictionaries *)

Definition obj (V : Type) : Type := list (string * V).

(** The own property [k] of [o], as [Object.keys] and [hasOwnProperty] see
    it; [None] when [o] has no such property.  It is what [o[k]] reads
    when [k] is not the name of a member of [Object.prototype]. *)
Fixpoint get {V : Type} (o : obj V) (k : string) : option V :=
  match o with
  | [] => None
  | (k', v) :: o' => if String.eqb k' k then Some v else get o' k
  end.

(** The own property [k] of [o] set to [v]: an existing property keeps its
    place, a new one is created last.  It is what [o[k] = v] does when [k]
    is not ["__proto__"]. *)
Fixpoint set {V : Type} (o : obj V) (k : string) (v : V) : obj V :=
  match o with
  | [] => [(k, v)]
  | (k', v') :: o' =>
      if String.eqb k' k then (k', v) :: o' else (k', v') :: set o' k v
  end.

(** The names of the members of [Object.prototype], which every object
    written [{}] inherits. *)
Definition prototype_members : list string :=
  [ "constructor"; "__defineGetter__"; "__defineSetter__"; "hasOwnProperty";
    "__lookupGetter__"; "__lookupSetter__"; "isPrototypeOf";
    "propertyIsEnumerable"; "toString"; "valueOf"; "__proto__";
    "toLocaleString" ].

Definition inherited (k : string) : bool :=
  existsb (String.eqb k) prototype_members.

(** What [o[k]] finds on an object written [{}]: an own property, else a
    member of [Object.prototype] (a function, or [Object.prototype] itself
    for ["__proto__"]), else [undefined]. *)
Inductive found (V : Type) : Type :=
| Own (v : V)
| Inherited
| Missing.
Arguments Own {V} v.
Arguments Inherited {V}.
Arguments Missing {V}.

Definition lookup {V : Type} (o : obj V) (k : string) : found V :=
  match get o k with
  | Some v => Own v
  | None => if inherited k then Inherited else Missing
  end.

(** Truthiness of what was found: a function and an object are truthy,
    [undefined] is not. *)
Definition found_truthy {V : Type} (is_truthy : V -> bool) (f : found V) : bool :=
  match f with
  | Own v => is_truthy v
  | Inherited => true
  | Missing => false
  end.

(** [ToNumber] of what was found: a function, [Object.prototype] and
    [undefined] all give [NaN]. *)
Definition found_number {V : Type} (number : V -> num) (f : found V) : num :=
  match f with
  | Own v => number v
  | Inherited | Missing => NaN
  end.

(** [o[k] = v] for a primitive [v]: the setter of ["__proto__"] ignores a
    value that is neither an object nor [null], so no property is
    created. *)
Definition assign {V : Type} (o : obj V) (k : string) (v : V) : obj V :=
  if String.eqb k "__proto__" then o else set o k v.

(** A property key that is an array index: the canonical decimal string of
    an integer below 2^32 - 1. *)
Definition array_index (k : string) : option Z :=
  match read_digits 10 k O 0 with
  | (S _, z, EmptyString) =>
      if String.eqb (string_of_Z z) k && (z <=? 4294967294) then Some z
      else None
  | _ => None
  end.

Definition is_index {V : Type} (p : string * V) : bool :=
  match array_index (fst p) with Some _ => true | None => false end.

Definition index_of (k : string) : Z :=
  match array_index k with Some z => z | None => 0 end.

Fixpoint insert_index {V : Type} (p : string * V) (l : obj V) : obj V :=
  match l with
  | [] => [p]
  | p' :: l' =>
      if index_of (fst p') <? index_of (fst p) then p' :: insert_index p l'
      else p :: l
  end.

(** OrdinaryOwnPropertyKeys: the array indices in ascending order, then the
    other keys in creation order. *)
Definition own_entries {V : Type} (o : obj V) : obj V :=
  (fold_right insert_index [] (filter is_index o)
     ++ filter (fun p => negb (is_index p)) o)%list.

Definition keys {V : Type} (o : obj V) : list string := map fst (own_entries o).
Definition values {V : Type} (o : obj V) : list V := map snd (own_entries o).

(** *** Arrays *)

(** [[...new Set(l)]]: the first occurrence of each string, in order. *)
Fixpoint uniq (l : list string) : list string :=
  match l with
  | [] => []
  | x :: l' => x :: filter (fun y => negb (String.eqb x y)) (uniq l')
  end.

(** [x] goes after every element it compares greater than. *)
Fixpoint insert {A : Type} (cmp : A -> A -> num) (x : A) (l : list A) : list A :=
  match l with
  | [] => [x]
  | y :: l' => if gtb (cmp x y) zero then y :: insert cmp x l' else x :: l
  end.

(** [l.sort(cmp)]: the stable sort; a comparison that is not positive
    ([NaN] included) leaves the earlier element first. *)
Definition sort {A : Type} (cmp : A -> A -> num) (l : list A) : list A :=
  fold_right (insert cmp) [] l.

(** [l.find(p)]. *)
Definition find {A : Type} (p : A -> bool) (l : list A) : option A :=
  List.find p l.

(** *** Dates *)

(** The time value of a date, [None] for an invalid date. *)
Definition Date : Type := option Z.

Definition msPerDay : Z := 86400000.
Definition msPerWeek : Z := 7 * msPerDay.
Definition maxTime : Z := 8640000000000000.

(** The day number of the civil date [y]-[m]-[d], [m] from 1 to 12, counted
    from 1970-01-01. *)
Definition days_from_civil (y m d : Z) : Z :=
  let y' := if m <=? 2 then y - 1 else y in
  let era := y' / 400 in
  let yoe := y' - era * 400 in
  let mp := if 2 <? m then m - 3 else m + 9 in
  let doy := (153 * mp + 2) / 5 + d - 1 in
  let doe := yoe * 365 + yoe / 4 - yoe / 100 + doy in
  era * 146097 + doe - 719468.

(** The civil date (year, month from 1, day) of a day number. *)
Definition civil_from_days (n : Z) : Z * Z * Z :=
  let z := n + 719468 in
  let era := z / 146097 in
  let doe := z - era * 146097 in
  let yoe := (doe - doe / 1460 + doe / 36524 - doe / 146096) / 365 in
  let doy := doe - (365 * yoe + yoe / 4 - yoe / 100) in
  let mp := (5 * doy + 2) / 153 in
  let d := doy - (153 * mp + 2) / 5 + 1 in
  let m := if mp <? 10 then mp + 3 else mp - 9 in
  let y := yoe + era * 400 in
  (if m <=? 2 then y + 1 else y, m, d).

Definition Day (t : Z) : Z := t / msPerDay.
Definition YearFromTime (t : Z) : Z := fst (fst (civil_from_days (Day t))).
(** 0 is Sunday. *)
Definition WeekDay (t : Z) : Z := (Day t + 4) mod 7.

(** MakeDay on integers; [month] counts from 0 and may lie outside a year,
    [date] may lie outside the month: both carry over. *)
Definition MakeDay (year month date : Z) : Z :=
  let ym := year + month / 12 in
  let mn := month mod 12 in
  days_from_civil ym (mn + 1) 1 + date - 1.

Definition TimeClip (t : Z) : Date :=
  if Z.abs t <=? maxTime then Some t else None.

(** ToIntegerOrInfinity on a finite number. *)
Definition truncate (q : Q) : Z := Z.quot (Qnum q) (Z.pos (Qden q)).

(** [new Date(year, month, date)]: the local midnight of that day. *)
Definition Date_ymd (year month date : num) : Date :=
  match year, month, date with
  | Fin y, Fin m, Fin d =>
      let yi := truncate y in
      let yr := if (0 <=? yi) && (yi <=? 99) then 1900 + yi else yi in
      TimeClip (MakeDay yr (truncate m) (truncate d) * msPerDay)
  | _, _, _ => None
  end.

(** [new Date(v)] for a primitive [v] that is not a string. *)
Definition Date_of_value (v : value) : Date :=
  match to_number v with
  | Fin q => TimeClip (truncate q)
  | _ => None
  end.

(** [d.getFullYear()]. *)
Definition getFullYear (d : Date) : num :=
  match d with
  | Some t => of_Z (YearFromTime t)
  | None => NaN
  end.

End JS.

(** ** The date library

    The functions the component imports from date-fns.  Date arithmetic
    inside the library is exact: the range limit of time values applies
    where a date is constructed, not to the intermediate dates of
    [getISOWeek]. *)

Module DateFns.
Import JS.

(** [isValid(d)]. *)
Definition isValid (d : Date) : bool :=
  match d with Some _ => true | None => false end.

(** [getYear(d)]: the calendar year, [d.getFullYear()]. *)
Definition getYear (d : Date) : num := getFullYear d.

(** The Monday, at midnight, of the week of [t]. *)
Definition startOfISOWeek (t : Z) : Z :=
  let day := WeekDay t in
  let diff := (if day <? 1 then 7 else 0) + day - 1 in
  (Day t - diff) * msPerDay.

Definition fourthOfJanuary (year : Z) : Z := MakeDay year 0 4 * msPerDay.

(** [getISOWeekYear(d)]: the year whose first ISO week, the week of its
    4th of January, starts on or before [t], and whose successor's does
    not. *)
Definition getISOWeekYear (t : Z) : Z :=
  let year := YearFromTime t in
  let startOfNextYear := startOfISOWeek (fourthOfJanuary (year + 1)) in
  let startOfThisYear := startOfISOWeek (fourthOfJanuary year) in
  if startOfNextYear <=? t then year + 1
  else if startOfThisYear <=? t then year
  else year - 1.

Definition startOfISOWeekYear (t : Z) : Z :=
  startOfISOWeek (fourthOfJanuary (getISOWeekYear t)).

(** [Math.round(a / b)] for a positive [b]. *)
Definition round_div (a b : Z) : Z := (2 * a + b) / (2 * b).

Definition isoWeekOfTime (t : Z) : Z :=
  round_div (startOfISOWeek t - startOfISOWeekYear t) msPerWeek + 1.

(** [getISOWeek(d)]. *)
Definition getISOWeek (d : Date) : num :=
  match d with
  | Some t => of_Z (isoWeekOfTime t)
  | None => NaN
  end.

(** *** A reference [parseISO] for strings without a time part *)

(** Exactly [n] decimal digits at the start of [s]. *)
Fixpoint take_digits (n : nat) (s : string) (acc : Z) : option (Z * string) :=
  match n with
  | O => Some (acc, s)
  | S n' =>
      match s with
      | String c s' =>
          match radix_digit 10 c with
          | Some d => take_digits n' s' (acc * 10 + d)
          | None => None
          end
      | EmptyString => None
      end
  end.

(** The year of a date string and what follows it: four digits, a sign and
    six digits, or, when nothing follows, a century of two digits or of a
    sign and four digits. *)
Definition parseYear (s : string) : option (Z * string) :=
  match take_digits 4 s 0 with
  | Some r => Some r
  | None =>
      let '(negative, s') := read_sign s in
      let has_sign := negb (String.eqb s s') in
      match (if has_sign then take_digits 6 s' 0 else None) with
      | Some (y, rest) => Some (signed negative y, rest)
      | None =>
          match take_digits (if has_sign then 4 else 2) s' 0 with
          | Some (c, EmptyString) => Some (signed negative c * 100, EmptyString)
          | _ => None
          end
      end
  end.

Definition isLeapYearIndex (year : Z) : bool :=
  (Z.rem year 400 =? 0) || ((Z.rem year 4 =? 0) && negb (Z.rem year 100 =? 0)).

Definition daysInMonth (year month : Z) : Z :=
  if month =? 1 then (if isLeapYearIndex year then 29 else 28)
  else if (month =? 3) || (month =? 5) || (month =? 8) || (month =? 10) then 30
  else 31.

Definition validateDate (year month date : Z) : bool :=
  (0 <=? month) && (month <=? 11) && (1 <=? date)
    && (date <=? daysInMonth year month).

Definition validateDayOfYearDate (year dayOfYear : Z) : bool :=
  (1 <=? dayOfYear) && (dayOfYear <=? (if isLeapYearIndex year then 366 else 365)).

Definition validateWeekDate (week day : Z) : bool :=
  (1 <=? week) && (week <=? 53) && (0 <=? day) && (day <=? 6).

Definition dayOfISOWeekYear (isoWeekYear week day : Z) : Z :=
  let t := fourthOfJanuary isoWeekYear in
  let wd := WeekDay t in
  let fourthOfJanuaryDay := if wd =? 0 then 7 else wd in
  let diff := (week - 1) * 7 + day + 1 - fourthOfJanuaryDay in
  (Day t + diff) * msPerDay.

Definition calendar_date (year month day : Z) : Date :=
  if validateDate year month day then TimeClip (MakeDay year month day * msPerDay)
  else None.

(** The date after the year: nothing, [MM], [MM-DD], [MMDD], [DDD], [Www],
    [Www-D] or [WwwD], each after an optional dash. *)
Definition parseDate (rest : string) (year : Z) : Date :=
  let s := match rest with String "-" s' => s' | _ => rest end in
  let optional_dash s := match s with String "-" s' => s' | _ => s end in
  match take_digits 3 s 0 with
  | Some (dayOfYear, EmptyString) =>
      if validateDayOfYearDate year dayOfYear
      then TimeClip (MakeDay year 0 dayOfYear * msPerDay) else None
  | _ =>
      match take_digits 2 s 0 with
      | Some (m, EmptyString) => calendar_date year (m - 1) 1
      | Some (m, s1) =>
          match take_digits 2 (optional_dash s1) 0 with
          | Some (d, EmptyString) => calendar_date year (m - 1) d
          | _ => None
          end
      | None =>
          match s with
          | EmptyString => calendar_date year 0 1
          | String "W" s1 =>
              match take_digits 2 s1 0 with
              | Some (w, EmptyString) =>
                  if validateWeekDate w 0
                  then TimeClip (dayOfISOWeekYear year w 0) else None
              | Some (w, s2) =>
                  match take_digits 1 (optional_dash s2) 0 with
                  | Some (d, EmptyString) =>
                      if validateWeekDate w (d - 1)
                      then TimeClip (dayOfISOWeekYear year w (d - 1)) else None
                  | _ => None
                  end
              | None => None
              end
          | _ => None
          end
      end
  end.

Definition has_time_part (s : string) : bool :=
  existsb
    (fun c => Ascii.eqb c "T" || Ascii.eqb c " " || Ascii.eqb c ":"
              || Ascii.eqb c "Z" || Ascii.eqb c "z")
    (list_ascii_of_string s).

(** [parseISO(s)] on a string without a time part: the local midnight of
    the date it writes, an invalid date when it is not an ISO 8601 date.
    A string with a time part is outside this reference and is given an
    invalid date. *)
Definition parseISO_date (s : string) : Date :=
  if has_time_part s then None
  else match parseYear s with
       | Some (year, rest) => parseDate rest year
       | None => None
       end.

(** [Date.parse] of the language on its own date format, [YYYY-MM-DD],
    [YYYY-MM] and [YYYY]; what an engine makes of any other string is left
    to it, and this reference gives an invalid date. *)
Definition Date_parse_iso (s : string) : Date :=
  match take_digits 4 s 0 with
  | Some (year, EmptyString) => calendar_date year 0 1
  | Some (year, String "-" s1) =>
      match take_digits 2 s1 0 with
      | Some (m, EmptyString) => calendar_date year (m - 1) 1
      | Some (m, String "-" s2) =>
          match take_digits 2 s2 0 with
          | Some (d, EmptyString) => calendar_date year (m - 1) d
          | _ => None
          end
      | _ => None
      end
  | _ => None
  end.

End DateFns.

(** ** The host: string-to-date conversions *)

(** The two conversions whose code is outside the repository: date-fns's
    [parseISO] and the engine's [new Date(string)]. *)
Class Host : Type := {
  parseISO : string -> JS.Date;
  Date_parse : string -> JS.Date
}.

Definition reference_host : Host := {|
  parseISO := DateFns.parseISO_date;
  Date_parse := DateFns.Date_parse_iso
|}.

(** ** Rows and results shared by the two variants *)

Module Row.
Import JS.

(** A parsed row of a table: its fields by header name. *)
Definition record : Type := obj value.

(** [r[k]] and [r.k]. *)
Definition field (r : record) (k : string) : value :=
  match get r k with Some v => v | None => VUndef end.

(** [o[k]] read as a number, at a week key or an own key: [undefined]
    reads as [NaN]. *)
Definition read (o : obj num) (k : string) : num :=
  match get o k with Some v => v | None => NaN end.

(** [o[k] || 0], at a week key or an own key. *)
Definition get_or_zero (o : obj num) (k : string) : num :=
  match get o k with
  | Some v => if num_truthy v then v else zero
  | None => zero
  end.

(** [if (!o[k]) o[k] = 0; o[k] += x]. *)
Definition accumulate (o : obj num) (k : string) (x : num) : obj num :=
  let o' := if num_truthy (read o k) then o else set o k zero in
  set o' k (add (read o' k) x).

(** [if (!o[store]) o[store] = {}; if (!o[store][k]) o[store][k] = 0;
    o[store][k] += x].  When [store] is the name of a member of
    [Object.prototype] that [o] does not own, [o[store]] is that member:
    it is truthy, so no property is created on [o], and the two writes go
    to the member. *)
Definition accumulate_in (o : obj (obj num)) (store k : string) (x : num)
  : obj (obj num) :=
  match lookup o store with
  | Own inner => set o store (accumulate inner k x)
  | Inherited => o
  | Missing => set o store (accumulate [] k x)
  end.

(** [`${year}-W${week.toString().padStart(2, '0')}`]. *)
Definition weekKey (year week : num) : string :=
  num_to_string year ++ "-W" ++ padStart2 (num_to_string week).

(** [===] on primitive values. *)
Definition strict_eqb (a b : value) : bool :=
  match a, b with
  | VUndef, VUndef | VNull, VNull => true
  | VBool x, VBool y => Bool.eqb x y
  | VStr x, VStr y => String.eqb x y
  | VNum (Fin x), VNum (Fin y) => Qeq_bool x y
  | VNum (Inf x), VNum (Inf y) => Bool.eqb x y
  | _, _ => false
  end.

Definition piece (l : list string) (i : nat) : value :=
  match nth_error l i with Some s => VStr s | None => VUndef end.

(** The comparison both variants sort the week keys with. *)
Definition compareWeeks (a b : string) : num :=
  let yearA := piece (split_dashW a) 0 in
  let weekA := piece (split_dashW a) 1 in
  let yearB := piece (split_dashW b) 0 in
  let weekB := piece (split_dashW b) 1 in
  if negb (strict_eqb yearA yearB)
  then sub (parseInt yearA None) (parseInt yearB None)
  else sub (parseInt weekA None) (parseInt weekB None).

(** [Object.values(inner).reduce((sum, cases) => sum + cases, 0)]. *)
Definition sum_values (inner : obj num) : num :=
  fold_left add (values inner) zero.

(** [storeTotal[store] = ...] for each key of [salesByStoreAndWeek]. *)
Definition storeTotals (salesByStoreAndWeek : obj (obj num)) : obj num :=
  fold_left
    (fun storeTotal store =>
       set storeTotal store
         (sum_values (match get salesByStoreAndWeek store with
                      | Some inner => inner
                      | None => []
                      end)))
    (keys salesByStoreAndWeek) [].

(** [(a, b) => storeTotal[b] - storeTotal[a]]. *)
Definition compareStores (storeTotal : obj num) (a b : string) : num :=
  sub (read storeTotal b) (read storeTotal a).

(** [salesByStoreAndWeek[store]?.[week] || 0]. *)
Definition storeWeekCases (salesByStoreAndWeek : obj (obj num))
  (store week : string) : num :=
  match get salesByStoreAndWeek store with
  | Some inner => get_or_zero inner week
  | None => zero
  end.

Record storeWeek : Type := {
  sw_week : string;
  sw_cases : num;
  sw_store : string
}.

(** [allWeeks.forEach(week => allStores.forEach(store => allStoreData.push(...)))]. *)
Definition buildAllStoreData (salesByStoreAndWeek : obj (obj num))
  (allWeeks allStores : list string) : list storeWeek :=
  flat_map
    (fun week =>
       map (fun store =>
              {| sw_week := week;
                 sw_cases := storeWeekCases salesByStoreAndWeek store week;
                 sw_store := store |})
           allStores)
    allWeeks.

Inductive result (A : Type) : Type :=
| Returned (a : A)
| Threw (message : string).
Arguments Returned {A} a.
Arguments Threw {A} message.

End Row.

(** ** The component with the error boundary *)

Module Dashboard.
Import JS DateFns Row.

Record weekMetrics : Type := {
  week : string;
  receivedCases : num;
  shippedCases : num;
  laborHours : num;
  totalCasesPerLaborHour : num
}.

Record weeklyData : Type := {
  wd_week : string;
  received : num;
  shipped : num;
  wd_laborHours : num;
  wd_totalCasesPerLaborHour : num
}.

Record storeTotalEntry : Type := {
  store : string;
  total : option num
}.

Record sales : Type := {
  salesByWeek : obj num;
  salesByStoreAndWeek : obj (obj num)
}.

Record metrics : Type := {
  casesPerLaborHour : list weekMetrics;
  salesAndPOByWeek : list weeklyData;
  topStoresByWeek : list storeTotalEntry;
  allStoreData : list storeWeek;
  allStores : list string;
  weeks : list string
}.

Section WithHost.
Context {host : Host}.

(** The three dates tried for a string of three pieces. *)
Definition potentialDates (p0 p1 p2 : string) : list Date :=
  [ Date_ymd (string_to_number p2) (sub (string_to_number p0) (of_Z 1))
      (string_to_number p1);
    Date_ymd (string_to_number p2) (sub (string_to_number p1) (of_Z 1))
      (string_to_number p0);
    Date_parse (p2 ++ "-" ++ p0 ++ "-" ++ p1) ].

(** The date [getWeekNumber] settles on; the outer [None] is [undefined]. *)
Definition parsedDate (dateStr : value) : option Date :=
  match dateStr with
  | VStr s =>
      let date := parseISO s in
      if negb (isValid date) then
        match split_chars dash_or_slash s with
        | [p0; p1; p2] => find isValid (potentialDates p0 p1 p2)
        | _ => Some date
        end
      else Some date
  | _ => Some (Date_of_value dateStr)
  end.

(** [getWeekNumber(dateStr)]; [None] is the [null] of the [catch]. *)
Definition getWeekNumber (dateStr : value) : option string :=
  match parsedDate dateStr with
  | None => None
  | Some date =>
      if negb (isValid date) then None
      else Some (weekKey (getYear date) (getISOWeek date))
  end.

Definition productName (product : record) : value :=
  or (or (or (field product "Product Name") (field product "ProductName"))
         (field product "Name"))
     (field product "Product").

Definition unitsPerCaseOf (product : record) : num :=
  parseInt
    (or (or (or (field product "Units Per Case") (field product "UnitsPerCase"))
            (field product "Units"))
        (VStr "1"))
    (Some 10).

Definition addProduct (productMap : obj num) (product : record) : obj num :=
  let unitsPerCase := unitsPerCaseOf product in
  if truthy (productName product) && negb (isNaN unitsPerCase)
     && gtb unitsPerCase zero
  then assign productMap (to_string (productName product)) unitsPerCase
  else productMap.

Definition processProductData (products : list record) : obj num :=
  fold_left addProduct products [].

Definition orderProduct (order : record) : value :=
  or (or (field order "Product") (field order "Product Name"))
     (field order "ProductName").

Definition orderQuantity (order : record) : num :=
  parseInt (or (or (field order "Quantity") (field order "Qty")) (VNum zero))
    (Some 10).

Definition orderCustomer (order : record) : value :=
  or (or (or (field order "Customer") (field order "Store"))
         (field order "Client"))
     (VStr "Unknown").

Definition orderDeliveryDate (order : record) : value :=
  or (or (field order "Delivery Date") (field order "DeliveryDate"))
     (field order "Date").

(** The week and the cases of a row, given its product, quantity and date;
    [None] when the row is skipped.  [productMap[product]] is read with
    the members of [Object.prototype]: a product that is not an own key of
    the index and is named after one of them is truthy, and the quantity
    divided by it is [NaN]. *)
Definition weekAndCases (productMap : obj num) (product : value)
  (quantity : num) (date : value) : option (string * num) :=
  if negb (truthy product) || negb (num_truthy quantity)
     || negb (truthy date) || isNaN quantity || leb quantity zero
  then None
  else
    let unitsPerCase := lookup productMap (to_string product) in
    if negb (found_truthy num_truthy unitsPerCase) then None
    else
      let cases := div quantity (found_number (fun u => u) unitsPerCase) in
      match getWeekNumber date with
      | None => None
      | Some week =>
          if negb (str_truthy week) then None else Some (week, cases)
      end.

Definition addSalesOrder (productMap : obj num) (acc : sales) (order : record)
  : sales :=
  match weekAndCases productMap (orderProduct order) (orderQuantity order)
          (orderDeliveryDate order) with
  | None => acc
  | Some (week, cases) =>
      {| salesByWeek := accumulate (salesByWeek acc) week cases;
         salesByStoreAndWeek :=
           accumulate_in (salesByStoreAndWeek acc)
             (to_string (orderCustomer order)) week cases |}
  end.

Definition processSalesData (salesOrders : list record) (productMap : obj num)
  : sales :=
  fold_left (addSalesOrder productMap) salesOrders
    {| salesByWeek := []; salesByStoreAndWeek := [] |}.

Definition poProduct (po : record) : value :=
  or (or (field po "Product Name") (field po "Product"))
     (field po "ProductName").

Definition poQuantity (po : record) : num :=
  parseInt
    (or (or (or (field po "Purchase Quantity") (field po "Quantity"))
            (field po "Qty"))
        (VNum zero))
    (Some 10).

Definition poDate (po : record) : value :=
  or (or (field po "Purchase Order Date") (field po "PODate"))
     (field po "Date").

Definition addPurchaseOrder (productMap : obj num) (poByWeek : obj num)
  (po : record) : obj num :=
  match weekAndCases productMap (poProduct po) (poQuantity po) (poDate po) with
  | None => poByWeek
  | Some (week, cases) => accumulate poByWeek week cases
  end.

Definition processPurchaseData (purchaseOrders : list record)
  (productMap : obj num) : obj num :=
  fold_left (addPurchaseOrder productMap) purchaseOrders [].

Definition clockDateIn (clock : record) : value :=
  or (or (field clock "Date In") (field clock "DateIn")) (field clock "Date").

Definition clockHours (clock : record) : num :=
  parseFloat
    (or (or (or (field clock "Total Less Break") (field clock "TotalLessBreak"))
            (field clock "Hours"))
        (VNum zero)).

Definition addClock (laborHoursByWeek : obj num) (clock : record) : obj num :=
  let dateIn := clockDateIn clock in
  let laborHours := clockHours clock in
  if negb (truthy dateIn) || isNaN laborHours || leb laborHours zero
  then laborHoursByWeek
  else
    match getWeekNumber dateIn with
    | None => laborHoursByWeek
    | Some week =>
        if negb (str_truthy week) then laborHoursByWeek
        else accumulate laborHoursByWeek week laborHours
    end.

Definition processClockData (clocks : list record) : obj num :=
  fold_left addClock clocks [].

(** The weeks of the three aggregates, each once, in chronological order. *)
Definition allWeeksOf (salesByWeek poByWeek laborHoursByWeek : obj num)
  : list string :=
  sort compareWeeks
    (uniq (keys salesByWeek ++ keys poByWeek ++ keys laborHoursByWeek)%list).

Definition metricsOfWeek (salesByWeek poByWeek laborHoursByWeek : obj num)
  (week : string) : weekMetrics :=
  let receivedCases := get_or_zero poByWeek week in
  let shippedCases := get_or_zero salesByWeek week in
  let laborHours := get_or_zero laborHoursByWeek week in
  {| week := week;
     receivedCases := receivedCases;
     shippedCases := shippedCases;
     laborHours := laborHours;
     totalCasesPerLaborHour :=
       if gtb laborHours zero
       then div (add receivedCases shippedCases) laborHours
       else zero |}.

Definition buildCasesPerLaborHour (salesByWeek poByWeek laborHoursByWeek : obj num)
  (allWeeks : list string) : obj weekMetrics :=
  fold_left
    (fun byWeek week =>
       set byWeek week (metricsOfWeek salesByWeek poByWeek laborHoursByWeek week))
    allWeeks [].

Definition formatWeek (salesByWeek poByWeek laborHoursByWeek : obj num)
  (casesPerLaborHourByWeek : obj weekMetrics) (week : string) : weeklyData :=
  {| wd_week := week;
     received := get_or_zero poByWeek week;
     shipped := get_or_zero salesByWeek week;
     wd_laborHours := get_or_zero laborHoursByWeek week;
     wd_totalCasesPerLaborHour :=
       match get casesPerLaborHourByWeek week with
       | Some m =>
           if num_truthy (totalCasesPerLaborHour m)
           then totalCasesPerLaborHour m else zero
       | None => zero
       end |}.

Definition calculateMetrics (products salesOrders purchaseOrders clocks : list record)
  : result metrics :=
  let productMap := processProductData products in
  if (List.length (keys productMap) =? 0)%nat
  then Threw "No valid products found"
  else
    let s := processSalesData salesOrders productMap in
    let poByWeek := processPurchaseData purchaseOrders productMap in
    let laborHoursByWeek := processClockData clocks in
    let allWeeks := allWeeksOf (salesByWeek s) poByWeek laborHoursByWeek in
    if (List.length allWeeks =? 0)%nat
    then Threw "No valid data weeks found"
    else
      let casesPerLaborHourByWeek :=
        buildCasesPerLaborHour (salesByWeek s) poByWeek laborHoursByWeek allWeeks in
      let formattedWeeklyData :=
        map (formatWeek (salesByWeek s) poByWeek laborHoursByWeek
               casesPerLaborHourByWeek) allWeeks in
      let storeTotal := storeTotals (salesByStoreAndWeek s) in
      let allStores := sort (compareStores storeTotal) (keys storeTotal) in
      let topStores := firstn 10 allStores in
      let topStoresData :=
        map (fun store => {| store := store; total := get storeTotal store |})
          topStores in
      Returned
        {| casesPerLaborHour := values casesPerLaborHourByWeek;
           salesAndPOByWeek := formattedWeeklyData;
           topStoresByWeek := topStoresData;
           allStoreData :=
             buildAllStoreData (salesByStoreAndWeek s) allWeeks allStores;
           allStores := allStores;
           weeks := allWeeks |}.

End WithHost.

End Dashboard.

(** ** The plain component *)

Module DashboardPlain.
Import JS DateFns Row.

(** [a + b] on primitive values: concatenation as soon as one side is a
    string. *)
Definition plus (a b : value) : value :=
  match a, b with
  | VStr _, _ | _, VStr _ => VStr (to_string a ++ to_string b)
  | _, _ => VNum (add (to_number a) (to_number b))
  end.

Definition fieldOf (o : obj value) (k : string) : value :=
  match get o k with Some v => v | None => VUndef end.

Record weekMetrics : Type := {
  week : string;
  receivedCases : num;
  shippedCases : num;
  laborHours : value;
  totalCasesPerLaborHour : num
}.

Record weeklyData : Type := {
  wd_week : string;
  received : num;
  shipped : num;
  wd_laborHours : value;
  wd_totalCasesPerLaborHour : num
}.

Record storeData : Type := {
  store : string;
  data : list storeWeek;
  total : option num
}.

Record sales : Type := {
  salesByWeek : obj num;
  salesByStoreAndWeek : obj (obj num)
}.

Record metrics : Type := {
  casesPerLaborHour : list weekMetrics;
  salesAndPOByWeek : list weeklyData;
  topStoresByWeek : list (option storeData);
  allStoresByWeek : list (option storeData);
  allStoreData : list storeWeek;
  weeks : list string
}.

Section WithHost.
Context {host : Host}.

(** [getWeekNumber(dateStr)].  Nothing in the [try] block throws on a
    primitive value, so the ['Unknown'] of the [catch] is never returned:
    an invalid date goes through [getISOWeek] and [getYear] as [NaN]. *)
Definition getWeekNumber (dateStr : value) : string :=
  let date :=
    match dateStr with
    | VStr s => parseISO s
    | _ => Date_of_value dateStr
    end in
  weekKey (getYear date) (getISOWeek date).

Definition addProduct (productMap : obj value) (product : record) : obj value :=
  if truthy (field product "Product Name")
  then assign productMap (to_string (field product "Product Name"))
         (or (field product "Units Per Case") (VNum (of_Z 1)))
  else productMap.

(** The week and the cases of a sales or purchase row; [None] when the row
    is skipped.  [productMap[product]] is read with the members of
    [Object.prototype], as in the other component. *)
Definition weekAndCases (productMap : obj value) (product quantity date : value)
  : option (string * num) :=
  if negb (truthy product)
     || negb (found_truthy truthy (lookup productMap (to_string product)))
  then None
  else
    let unitsPerCase :=
      if found_truthy truthy (lookup productMap (to_string product))
      then lookup productMap (to_string product)
      else Own (VNum (of_Z 1)) in
    let cases := div (to_number quantity) (found_number to_number unitsPerCase) in
    if negb (truthy date) then None
    else
      let week := getWeekNumber date in
      if String.eqb week "Unknown" then None else Some (week, cases).

Definition addSalesOrder (productMap : obj value) (acc : sales) (order : record)
  : sales :=
  let customer := or (field order "Customer") (VStr "Unknown") in
  match weekAndCases productMap (field order "Product")
          (or (field order "Quantity") (VNum zero))
          (field order "Delivery Date") with
  | None => acc
  | Some (week, cases) =>
      {| salesByWeek := accumulate (salesByWeek acc) week cases;
         salesByStoreAndWeek :=
           accumulate_in (salesByStoreAndWeek acc) (to_string customer) week cases |}
  end.

Definition addPurchaseOrder (productMap : obj value) (poByWeek : obj num)
  (po : record) : obj num :=
  match weekAndCases productMap (field po "Product Name")
          (or (field po "Purchase Quantity") (VNum zero))
          (field po "Purchase Order Date") with
  | None => poByWeek
  | Some (week, cases) => accumulate poByWeek week cases
  end.

Definition addClock (laborHoursByWeek : obj value) (clock : record) : obj value :=
  if negb (truthy (field clock "Date In")) then laborHoursByWeek
  else
    let week := getWeekNumber (field clock "Date In") in
    if String.eqb week "Unknown" then laborHoursByWeek
    else
      let laborHours := or (field clock "Total Less Break") (VNum zero) in
      let o :=
        if truthy (fieldOf laborHoursByWeek week) then laborHoursByWeek
        else set laborHoursByWeek week (VNum zero) in
      set o week (plus (fieldOf o week) laborHours).

Definition metricsOfWeek (salesByWeek poByWeek : obj num)
  (laborHoursByWeek : obj value) (week : string) : weekMetrics :=
  let receivedCases := get_or_zero poByWeek week in
  let shippedCases := get_or_zero salesByWeek week in
  let laborHours := or (fieldOf laborHoursByWeek week) (VNum zero) in
  {| week := week;
     receivedCases := receivedCases;
     shippedCases := shippedCases;
     laborHours := laborHours;
     totalCasesPerLaborHour :=
       if gtb (to_number laborHours) zero
       then div (add receivedCases shippedCases) (to_number laborHours)
       else zero |}.

Definition formatWeek (salesByWeek poByWeek : obj num)
  (laborHoursByWeek : obj value) (casesPerLaborHourByWeek : obj weekMetrics)
  (week : string) : weeklyData :=
  {| wd_week := week;
     received := get_or_zero poByWeek week;
     shipped := get_or_zero salesByWeek week;
     wd_laborHours := or (fieldOf laborHoursByWeek week) (VNum zero);
     wd_totalCasesPerLaborHour :=
       match get casesPerLaborHourByWeek week with
       | Some m =>
           if num_truthy (totalCasesPerLaborHour m)
           then totalCasesPerLaborHour m else zero
       | None => zero
       end |}.

(** [storeDataMap[store] = { store, data: weeklyData, total }] for each key
    of [salesByStoreAndWeek]. *)
Definition buildStoreDataMap (salesByStoreAndWeek : obj (obj num))
  (storeTotal : obj num) (allWeeks : list string) : obj storeData :=
  fold_left
    (fun storeDataMap store =>
       set storeDataMap store
         {| store := store;
            data :=
              map (fun week =>
                     {| sw_week := week;
                        sw_cases := storeWeekCases salesByStoreAndWeek store week;
                        sw_store := store |})
                  allWeeks;
            total := get storeTotal store |})
    (keys salesByStoreAndWeek) [].

Definition calculateMetrics (products salesOrders purchaseOrders clocks : list record)
  : metrics :=
  let productMap := fold_left addProduct products [] in
  let s :=
    fold_left (addSalesOrder productMap) salesOrders
      {| salesByWeek := []; salesByStoreAndWeek := [] |} in
  let poByWeek := fold_left (addPurchaseOrder productMap) purchaseOrders [] in
  let laborHoursByWeek := fold_left addClock clocks [] in
  let allWeeks :=
    sort compareWeeks (uniq (keys (salesByWeek s) ++ keys poByWeek)%list) in
  let casesPerLaborHourByWeek :=
    fold_left
      (fun byWeek week =>
         set byWeek week
           (metricsOfWeek (salesByWeek s) poByWeek laborHoursByWeek week))
      allWeeks [] in
  let formattedWeeklyData :=
    map (formatWeek (salesByWeek s) poByWeek laborHoursByWeek
           casesPerLaborHourByWeek) allWeeks in
  let storeTotal := storeTotals (salesByStoreAndWeek s) in
  let storeDataMap :=
    buildStoreDataMap (salesByStoreAndWeek s) storeTotal allWeeks in
  let topStores :=
    firstn 10 (sort (compareStores storeTotal) (keys storeTotal)) in
  let allStores := sort (compareStores storeTotal) (keys storeTotal) in
  {| casesPerLaborHour := values casesPerLaborHourByWeek;
     salesAndPOByWeek := formattedWeeklyData;
     topStoresByWeek := map (get storeDataMap) topStores;
     allStoresByWeek := map (get storeDataMap) allStores;
     allStoreData := buildAllStoreData (salesByStoreAndWeek s) allWeeks allStores;
     weeks := allWeeks |}.

End WithHost.

End DashboardPlain.

(** ** Vocabulary of the statements *)

Module Spec.
Import JS Row.

Definition decimal_radix (radix : option Z) : Prop :=
  radix = None \/ radix = Some 10.

Fixpoint free_of (c : ascii) (s : string) : bool :=
  match s with
  | EmptyString => true
  | String c' s' => negb (Ascii.eqb c' c) && free_of c s'
  end.

(** The sign of a decimal writing. *)
Definition sign_string (negative : bool) : string :=
  if negative then "-" else "".

(** [a] may stay before [b] under the comparison [cmp]: [cmp a b] is not
    positive. *)
Definition precedes {A : Type} (cmp : A -> A -> num) (a b : A) : Prop :=
  gtb (cmp a b) zero = false.

Definition finite (n : num) : Prop := exists q : Q, n = Fin q.

(** A positive number: a positive rational or the positive infinity. *)
Definition positive (n : num) : Prop :=
  match n with
  | Fin q => (0 < q)%Q
  | Inf negative => negative = false
  | NaN => False
  end.

(** A key as [weekKey] writes it from an integer year and week. *)
Definition week_key (k : string) : Prop :=
  exists y w : Z, k = weekKey (of_Z y) (of_Z w).

(** The year and the week of a key, read the way [compareWeeks] reads
    them. *)
Definition key_year (k : string) : num := parseInt (piece (split_dashW k) 0) None.
Definition key_week (k : string) : num := parseInt (piece (split_dashW k) 1) None.

(** [a] is not after [b] in the order of (year, week) as integers. *)
Definition week_le (a b : string) : Prop :=
  exists ya wa yb wb : Z,
    key_year a = of_Z ya /\ key_week a = of_Z wa
    /\ key_year b = of_Z yb /\ key_week b = of_Z wb
    /\ (ya < yb \/ (ya = yb /\ wa <= wb)).

(** The days [first], [first + 1], ... ([count] of them). *)
Fixpoint days_from (first : Z) (count : nat) : list Z :=
  match count with
  | O => []
  | S count' => first :: days_from (first + 1) count'
  end.

(** The civil date of day [n] is a date of the calendar and counts back to
    [n]. *)
Definition civil_round_trip (n : Z) : bool :=
  let '(y, m, d) := civil_from_days n in
  (days_from_civil y m d =? n) && (1 <=? m) && (m <=? 12) && (1 <=? d)
  && (d <=? DateFns.daysInMonth y (m - 1)).

(** Day [n + 1] is the next day of the month, the first of the next month
    or the first of January of the next year. *)
Definition next_day_follows (n : Z) : bool :=
  let '(y, m, d) := civil_from_days n in
  let '(y', m', d') := civil_from_days (n + 1) in
  ((y' =? y) && (m' =? m) && (d' =? d + 1))
  || ((y' =? y) && (m' =? m + 1) && (d' =? 1) && (d =? DateFns.daysInMonth y (m - 1)))
  || ((y' =? y + 1) && (m' =? 1) && (d' =? 1) && (m =? 12) && (d =? 31)).

(** The ISO week of day [n] is from 1 to 53, and from a Sunday to the
    Monday after it the week goes up by one or starts again at 1. *)
Definition iso_week_steps (n : Z) : bool :=
  let w := DateFns.isoWeekOfTime (n * msPerDay) in
  let w' := DateFns.isoWeekOfTime ((n + 1) * msPerDay) in
  (1 <=? w) && (w <=? 53)
  && (if WeekDay (n * msPerDay) =? 0
      then (w' =? w + 1) || ((w' =? 1) && (52 <=? w))
      else w' =? w).

(** The weeks of a store, none when the store is unknown. *)
Definition inner_of (o : obj (obj num)) (store : string) : obj num :=
  match get o store with Some inner => inner | None => [] end.

(** Every value of the dictionary satisfies [P]. *)
Definition all_values {V : Type} (P : V -> Prop) (o : obj V) : Prop :=
  Forall (fun p => P (snd p)) o.

Definition all_keys {V : Type} (P : string -> Prop) (o : obj V) : Prop :=
  Forall (fun p => P (fst p)) o.

(** A total of cases: a rational, or [NaN] after a row whose product is
    read from [Object.prototype]. *)
Definition cases_value (n : num) : Prop := n = NaN \/ finite n.

(** The week totals of sales and purchases: week keys, each once, with
    totals of cases. *)
Definition week_totals (o : obj num) : Prop :=
  all_keys week_key o /\ all_values cases_value o /\ NoDup (map fst o).

(** The hours per week: week keys, each once, with positive totals. *)
Definition week_hours (o : obj num) : Prop :=
  all_keys week_key o /\ all_values positive o /\ NoDup (map fst o).

(** The totals by store and week: each store once, with totals of
    cases. *)
Definition store_totals (o : obj (obj num)) : Prop :=
  all_values (all_values cases_value) o /\ NoDup (map fst o).

End Spec.

(** ** Rows that pass validation, and the wording of the specification *)

Module Statements.
Import JS DateFns Row Spec.

(** The two sources whose quantities are converted to cases. *)
Inductive source : Type := SalesOrders | PurchaseOrders.

(** A positive integer, as a units-per-case entry of the index is. *)
Definition positive_integer (n : num) : Prop :=
  exists z : Z, 0 < z /\ n = of_Z z.


(** None of the three store-name fields of a sales row has a value. *)
Definition store_absent (order : record) : Prop :=
  truthy (field order "Customer") = false
  /\ truthy (field order "Store") = false
  /\ truthy (field order "Client") = false.



(** [a]'s total is at least [b]'s. *)
Definition total_ge (storeTotal : obj num) (a b : string) : Prop :=
  exists qa qb : Q,
    read storeTotal a = Fin qa /\ read storeTotal b = Fin qb /\ (qb <= qa)%Q.

(** The read of [k] on [o] gives a member of [Object.prototype]. *)
Definition reads_prototype {V : Type} (o : obj V) (k : string) : bool :=
  match lookup o k with
  | Inherited => true
  | _ => false
  end.

(** No row reads its units per case from [Object.prototype]: the product
    it names is an own key of the index, or is not the name of a
    member. *)
Definition own_products (productMap : obj num) (product_of : record -> value)
  (rows : list record) : Prop :=
  Forall (fun row => reads_prototype productMap (to_string (product_of row)) = false)
    rows.

(** No sales row names its store after a member of [Object.prototype], so
    no row writes on such a member. *)
Definition own_customers (salesOrders : list record) : Prop :=
  Forall (fun order =>
            inherited (to_string (Dashboard.orderCustomer order)) = false)
    salesOrders.


(** The sales and purchase rows meet no member of [Object.prototype]. *)
Definition ordinary_rows (productMap : obj num)
  (salesOrders purchaseOrders : list record) : Prop :=
  own_products productMap Dashboard.orderProduct salesOrders
  /\ own_customers salesOrders
  /\ own_products productMap Dashboard.poProduct purchaseOrders.


Section WithHost.
Context {host : Host}.

Definition rowProduct (src : source) (row : record) : value :=
  match src with
  | SalesOrders => Dashboard.orderProduct row
  | PurchaseOrders => Dashboard.poProduct row
  end.

Definition rowQuantity (src : source) (row : record) : num :=
  match src with
  | SalesOrders => Dashboard.orderQuantity row
  | PurchaseOrders => Dashboard.poQuantity row
  end.

Definition rowDate (src : source) (row : record) : value :=
  match src with
  | SalesOrders => Dashboard.orderDeliveryDate row
  | PurchaseOrders => Dashboard.poDate row
  end.

(** The field value the quantity of a row is parsed from. *)
Definition rowQuantityField (src : source) (row : record) : value :=
  match src with
  | SalesOrders => or (or (field row "Quantity") (field row "Qty")) (VNum zero)
  | PurchaseOrders =>
      or (or (or (field row "Purchase Quantity") (field row "Quantity"))
             (field row "Qty"))
         (VNum zero)
  end.

(** The week totals of a source after one more of its rows. *)
Definition weekTotalsAfter (src : source) (productMap : obj num)
  (totals : obj num) (stores : obj (obj num)) (row : record) : obj num :=
  match src with
  | SalesOrders =>
      Dashboard.salesByWeek
        (Dashboard.addSalesOrder productMap
           {| Dashboard.salesByWeek := totals;
              Dashboard.salesByStoreAndWeek := stores |} row)
  | PurchaseOrders => Dashboard.addPurchaseOrder productMap totals row
  end.

(** The aggregates [calculateMetrics] composes. *)
Definition salesTotals (products salesOrders : list record) : obj num :=
  Dashboard.salesByWeek
    (Dashboard.processSalesData salesOrders (Dashboard.processProductData products)).

Definition storeWeekTotals (products salesOrders : list record) : obj (obj num) :=
  Dashboard.salesByStoreAndWeek
    (Dashboard.processSalesData salesOrders (Dashboard.processProductData products)).

Definition purchaseTotals (products purchaseOrders : list record) : obj num :=
  Dashboard.processPurchaseData purchaseOrders
    (Dashboard.processProductData products).

Definition laborTotals (clocks : list record) : obj num :=
  Dashboard.processClockData clocks.


(** The row passes validation: it names a product of the index, whose
    units per case are [u]; its quantity, as [parseInt] has read it, is
    the number [q], above zero; its date is present and normalises to
    [week]. *)
Definition passes_validation (productMap : obj num) (product : value)
  (quantity : num) (date : value) (q u : Q) (week : string) : Prop :=
  truthy product = true
  /\ quantity = Fin q /\ (0 < q)%Q
  /\ get productMap (to_string product) = Some (Fin u) /\ (0 < u)%Q
  /\ truthy date = true
  /\ Dashboard.getWeekNumber date = Some week.

(** The row is accepted, as the code checks it: it names a product that
    is an own key of the index, with [u] units per case; the integer that
    [parseInt(..., 10)] reads at the head of its quantity is [n], above
    zero; its date is present and normalises to [week]. *)
Definition accepted (productMap : obj num) (src : source) (row : record)
  (n u : Z) (week : string) : Prop :=
  truthy (rowProduct src row) = true
  /\ parseInt (rowQuantityField src row) (Some 10) = of_Z n /\ 0 < n
  /\ get productMap (to_string (rowProduct src row)) = Some (of_Z u) /\ 0 < u
  /\ truthy (rowDate src row) = true
  /\ Dashboard.getWeekNumber (rowDate src row) = Some week.

(** The week entry obeys the efficiency rule, and its ratio is a
    rational. *)
Definition efficiency_rule (e : Dashboard.weekMetrics) : Prop :=
  (gtb (Dashboard.laborHours e) zero = true ->
   Dashboard.totalCasesPerLaborHour e
   = div (add (Dashboard.receivedCases e) (Dashboard.shippedCases e))
       (Dashboard.laborHours e))
  /\ (Dashboard.laborHours e = zero -> Dashboard.totalCasesPerLaborHour e = zero)
  /\ (gtb (Dashboard.laborHours e) zero = true \/ Dashboard.laborHours e = zero)
  /\ finite (Dashboard.totalCasesPerLaborHour e).

(** The catalog row can be indexed: it has a name and its units per case,
    the default included, parse to a positive integer. *)
Definition indexable (product : record) : Prop :=
  truthy (Dashboard.productName product) = true
  /\ positive_integer (Dashboard.unitsPerCaseOf product).

End WithHost.

(** *** Sample tables *)

Definition widget (units : Z) : record :=
  [("Product Name", VStr "Widget"); ("Units Per Case", VNum (of_Z units))].

Definition saleTo (customer : string) (quantity : Z) (date : string) : record :=
  [("Product", VStr "Widget"); ("Quantity", VNum (of_Z quantity));
   ("Customer", VStr customer); ("Delivery Date", VStr date)].

(** A sale whose quantity is not an integer. *)
Definition fractionalSale (quantity : Q) (date : string) : record :=
  [("Product", VStr "Widget"); ("Quantity", VNum (Fin quantity));
   ("Customer", VStr "Acme"); ("Delivery Date", VStr date)].

Definition anonymousSale (quantity : Z) (date : string) : record :=
  [("Product", VStr "Widget"); ("Quantity", VNum (of_Z quantity));
   ("Delivery Date", VStr date)].

Definition purchase (quantity : Z) (date : string) : record :=
  [("Product Name", VStr "Widget"); ("Purchase Quantity", VNum (of_Z quantity));
   ("Purchase Order Date", VStr date)].

Definition clockIn (date : string) (hours : Z) : record :=
  [("Date In", VStr date); ("Total Less Break", VNum (of_Z hours))].

(** An index with one product of 12 units per case. *)
Definition dozen : obj num := [("Widget", of_Z 12)].

(** Two stores that each sell in one of two weeks. *)
Definition twoStores : list record :=
  [saleTo "Acme" 50 "2024-01-08"; saleTo "Bolt" 30 "2024-01-15"].



(** A catalog row named after the accessor of [Object.prototype]. *)
Definition protoNamed : record :=
  [("Product Name", VStr "__proto__"); ("Units Per Case", VNum (of_Z 12))].


End Statements.

(** ** The contributions of the rows *)

Module Coverage.
Import JS DateFns Row Spec Statements.

(** Equal as numbers: the same rational or the same infinity. *)
Definition num_eq (a b : num) : Prop :=
  match a, b with
  | Fin x, Fin y => (x == y)%Q
  | Inf s, Inf s' => s = s'
  | _, _ => False
  end.

(** A rational above zero. *)
Definition positive_rational (n : num) : Prop :=
  exists q : Q, n = Fin q /\ (0 < q)%Q.

(** The number of characters [-] and [/] of a string. *)
Fixpoint separators (s : string) : nat :=
  match s with
  | EmptyString => O
  | String c s' => ((if dash_or_slash c then 1 else 0) + separators s')%nat
  end.

(** What a row adds to the bucket of [week]: its amount when the row is
    accepted for that week, nothing otherwise. *)
Definition weekShare (week : string) (c : option (string * num)) : list num :=
  match c with
  | Some (w, x) => if String.eqb w week then [x] else []
  | None => []
  end.

(** A bucket that received the amounts [cs], in that order: absent when
    there are none, else their sum from 0. *)
Definition sum_or_absent (cs : list num) : option num :=
  match cs with
  | [] => None
  | _ => Some (fold_left add cs zero)
  end.

(** The bucket as the next accumulation reads it: [o[k] || 0]. *)
Definition value_or_zero (bucket : option num) : num :=
  match bucket with
  | Some v => if num_truthy v then v else zero
  | None => zero
  end.

(** An entry of the efficiency series and an entry of the volume series
    that describe the same week with the same figures. *)
Definition same_week_entry (a : Dashboard.weekMetrics) (b : Dashboard.weeklyData)
  : Prop :=
  Dashboard.week a = Dashboard.wd_week b
  /\ Dashboard.receivedCases a = Dashboard.received b
  /\ Dashboard.shippedCases a = Dashboard.shipped b
  /\ Dashboard.laborHours a = Dashboard.wd_laborHours b
  /\ num_eq (Dashboard.totalCasesPerLaborHour a)
       (Dashboard.wd_totalCasesPerLaborHour b).

Section WithHost.
Context {host : Host}.

(** The week and the cases a sales row adds, if it is not skipped. *)
Definition salesContribution (productMap : obj num) (order : record)
  : option (string * num) :=
  Dashboard.weekAndCases productMap (Dashboard.orderProduct order)
    (Dashboard.orderQuantity order) (Dashboard.orderDeliveryDate order).

Definition purchaseContribution (productMap : obj num) (po : record)
  : option (string * num) :=
  Dashboard.weekAndCases productMap (Dashboard.poProduct po)
    (Dashboard.poQuantity po) (Dashboard.poDate po).

(** The week and the hours a clock row adds, if it is not skipped. *)
Definition clockContribution (clock : record) : option (string * num) :=
  if negb (truthy (Dashboard.clockDateIn clock))
     || isNaN (Dashboard.clockHours clock)
     || leb (Dashboard.clockHours clock) zero
  then None
  else
    match Dashboard.getWeekNumber (Dashboard.clockDateIn clock) with
    | None => None
    | Some week =>
        if negb (str_truthy week) then None
        else Some (week, Dashboard.clockHours clock)
    end.

(** No row of the three tables is accepted. *)
Definition no_row_counts (productMap : obj num)
  (salesOrders purchaseOrders clocks : list record) : Prop :=
  (forall r, In r salesOrders -> salesContribution productMap r = None)
  /\ (forall r, In r purchaseOrders -> purchaseContribution productMap r = None)
  /\ (forall r, In r clocks -> clockContribution r = None).

(** Some row of the three tables is accepted. *)
Definition some_row_counts (productMap : obj num)
  (salesOrders purchaseOrders clocks : list record) : Prop :=
  (exists r, In r salesOrders /\ salesContribution productMap r <> None)
  \/ (exists r, In r purchaseOrders /\ purchaseContribution productMap r <> None)
  \/ (exists r, In r clocks /\ clockContribution r <> None).

(** What a sales row adds to the bucket of [week] of [store]. *)
Definition storeWeekShare (productMap : obj num) (store week : string)
  (order : record) : list num :=
  if String.eqb (to_string (Dashboard.orderCustomer order)) store
  then weekShare week (salesContribution productMap order)
  else [].

End WithHost.

End Coverage.

(** ** The charts *)

Module Charts.
Import JS Row.


(** [l.map((x, index) => f(index, x))], the indices counted from [i]. *)
Fixpoint mapWithIndex {A B : Type} (f : nat -> A -> B) (i : nat) (l : list A)
  : list B :=
  match l with
  | [] => []
  | x :: l' => f i x :: mapWithIndex f (S i) l'
  end.

(** An entry of the weekly series as the object the charts receive. *)
Definition rowObject (w : Dashboard.weeklyData) : obj value :=
  [ ("week", VStr (Dashboard.wd_week w));
    ("received", VNum (Dashboard.received w));
    ("shipped", VNum (Dashboard.shipped w));
    ("laborHours", VNum (Dashboard.wd_laborHours w));
    ("totalCasesPerLaborHour", VNum (Dashboard.wd_totalCasesPerLaborHour w)) ].

Definition plainRowObject (w : DashboardPlain.weeklyData) : obj value :=
  [ ("week", VStr (DashboardPlain.wd_week w));
    ("received", VNum (DashboardPlain.received w));
    ("shipped", VNum (DashboardPlain.shipped w));
    ("laborHours", DashboardPlain.wd_laborHours w);
    ("totalCasesPerLaborHour",
     VNum (DashboardPlain.wd_totalCasesPerLaborHour w)) ].

(** [{ cumulativeReceived: 0, cumulativeShipped: 0 }]. *)
Definition beforeFirstWeek : obj value :=
  [("cumulativeReceived", VNum zero); ("cumulativeShipped", VNum zero)].

(** The callback of [data.map((week, index, array) => ...)]: [array] is
    the series the chart received, and [index - 1] is one of its indices
    whenever [index > 0]. *)
Definition cumulativeRow (array : list (obj value)) (index : nat)
  (week : obj value) : obj value :=
  let prevData :=
    if (0 <? index)%nat then nth (index - 1) array [] else beforeFirstWeek in
  set
    (set week "cumulativeReceived"
       (DashboardPlain.plus
          (or (field prevData "cumulativeReceived") (VNum zero))
          (field week "received")))
    "cumulativeShipped"
    (DashboardPlain.plus
       (or (field prevData "cumulativeShipped") (VNum zero))
       (field week "shipped")).

(** [cumulativeData] of [CumulativeVolumeChart], and the [data] of the
    chart of the plain component. *)
Definition cumulativeData (data : list (obj value)) : list (obj value) :=
  mapWithIndex (cumulativeRow data) 0 data.




End Charts.

(** ** Loading the four tables *)

Module Loader.
Import JS Row.

(** An entry of [results.errors]. *)
Record parseError : Type := {
  type : string;
  message : string
}.

(** What [Papa.parse] calls back with: [complete(results)] or
    [error(error)]. *)
Inductive parsed : Type :=
| Complete (data : list record) (errors : list parseError)
| Failed (reason : string).

(** What [fetch] and [response.text()] come to: a rejection, or a response
    whose status is written the way the template literal prints it. *)
Inductive fetched : Type :=
| Rejected (reason : string)
| Response (ok : bool) (status statusText : string) (body : parsed).

Inductive table : Type := Products | Sales | Purchases | Clocks.

Definition nameOf (t : table) : string :=
  match t with
  | Products => "products"
  | Sales => "salesOrders"
  | Purchases => "purchaseOrders"
  | Clocks => "clocks"
  end.

Definition DATA_URLS (t : table) : string :=
  match t with
  | Products => "/data/Products2.csv"
  | Sales => "/data/SalesOrder.csv"
  | Purchases => "/data/PO.csv"
  | Clocks => "/data/Clocks.csv"
  end.

Definition isFatal (e : parseError) : bool := String.eqb (type e) "Fatal".

(** [fetchCSVData(url)]: the rows, or the message of the error thrown. *)
Definition fetchCSVData (url : string) (f : fetched) : result (list record) :=
  match f with
  | Rejected reason => Threw reason
  | Response ok status statusText body =>
      if negb ok
      then Threw ("Failed to fetch " ++ url ++ ": " ++ status ++ " " ++ statusText)
      else
        match body with
        | Failed reason => Threw reason
        | Complete data errors =>
            match filter isFatal errors with
            | e :: _ => Threw ("Error parsing CSV: " ++ message e)
            | [] => Returned data
            end
        end
  end.

Record progress : Type := {
  products : bool;
  salesOrders : bool;
  purchaseOrders : bool;
  clocks : bool
}.

Record loadingState : Type := {
  loading : bool;
  error : option string;
  dataProgress : progress
}.

Definition initialState : loadingState :=
  {| loading := true;
     error := None;
     dataProgress :=
       {| products := false; salesOrders := false;
          purchaseOrders := false; clocks := false |} |}.

(** [{ ...dataProgress, [name]: true }]. *)
Definition loaded (t : table) (p : progress) : progress :=
  match t with
  | Products =>
      {| products := true; salesOrders := salesOrders p;
         purchaseOrders := purchaseOrders p; clocks := clocks p |}
  | Sales =>
      {| products := products p; salesOrders := true;
         purchaseOrders := purchaseOrders p; clocks := clocks p |}
  | Purchases =>
      {| products := products p; salesOrders := salesOrders p;
         purchaseOrders := true; clocks := clocks p |}
  | Clocks =>
      {| products := products p; salesOrders := salesOrders p;
         purchaseOrders := purchaseOrders p; clocks := true |}
  end.

(** [loadCSV(name, url)]: the loading state after it, and the rows or
    [null]. *)
Definition loadCSV (t : table) (f : fetched) (st : loadingState)
  : loadingState * option (list record) :=
  match fetchCSVData (DATA_URLS t) f with
  | Returned csvData =>
      ({| loading := loading st;
          error := error st;
          dataProgress := loaded t (dataProgress st) |},
       Some csvData)
  | Threw reason =>
      ({| loading := loading st;
          error := Some ("Error loading " ++ nameOf t ++ " data: " ++ reason);
          dataProgress := dataProgress st |},
       None)
  end.

(** What the four requests come to. *)
Definition fetches : Type := table -> fetched.

Section WithHost.
Context {host : Host}.

(** [loadData()]: the loading state when it ends and the processed data
    it sets, if any.  The three requests made together settle in the order
    [arrival]; their results are read by position. *)
Definition loadData (fs : fetches) (arrival : list table) (st : loadingState)
  : loadingState * option Dashboard.metrics :=
  let st0 :=
    {| loading := true; error := None; dataProgress := dataProgress st |} in
  let (st1, products) := loadCSV Products (fs Products) st0 in
  match products with
  | None => (st1, None)
  | Some products =>
      let st2 :=
        fold_left (fun s t => fst (loadCSV t (fs t) s)) arrival st1 in
      match snd (loadCSV Sales (fs Sales) st1),
            snd (loadCSV Purchases (fs Purchases) st1),
            snd (loadCSV Clocks (fs Clocks) st1) with
      | Some salesOrders, Some purchaseOrders, Some clocks =>
          match Dashboard.calculateMetrics products salesOrders purchaseOrders
                  clocks with
          | Returned result =>
              ({| loading := false; error := error st2;
                  dataProgress := dataProgress st2 |},
               Some result)
          | Threw reason =>
              ({| loading := false;
                  error := Some ("Error processing data: " ++ reason);
                  dataProgress := dataProgress st2 |},
               None)
          end
      | _, _, _ => (st2, None)
      end
  end.

End WithHost.

(** What the component renders: the spinner (with the progress of the
    state), the error with its text, or the dashboard. *)
Inductive screen : Type :=
| LoadingScreen
| ErrorScreen (reason : string)
| DashboardScreen.

Definition render (st : loadingState) : screen :=
  if loading st then LoadingScreen
  else
    match error st with
    | Some reason =>
        if str_truthy reason then ErrorScreen reason else DashboardScreen
    | None => DashboardScreen
    end.

(** *** The plain component *)

(** [parseCSVFile(file)]. *)
Definition parseCSVFile (p : parsed) : result (list record) :=
  match p with
  | Failed reason => Threw reason
  | Complete data errors =>
      match errors with
      | e :: _ => Threw ("Error parsing CSV: " ++ message e)
      | [] => Returned data
      end
  end.

Record plainState : Type := {
  plain_loading : bool;
  plain_error : option string
}.

Section WithHost.
Context {host : Host}.

(** [processData()]: the four files are parsed one after the other. *)
Definition processData (files : table -> parsed)
  : plainState * option DashboardPlain.metrics :=
  let failed reason :=
    ({| plain_loading := false;
        plain_error := Some ("Error loading data: " ++ reason) |}, None) in
  match parseCSVFile (files Products) with
  | Threw reason => failed reason
  | Returned products =>
      match parseCSVFile (files Sales) with
      | Threw reason => failed reason
      | Returned salesOrders =>
          match parseCSVFile (files Purchases) with
          | Threw reason => failed reason
          | Returned purchaseOrders =>
              match parseCSVFile (files Clocks) with
              | Threw reason => failed reason
              | Returned clocks =>
                  ({| plain_loading := false; plain_error := None |},
                   Some (DashboardPlain.calculateMetrics products salesOrders
                           purchaseOrders clocks))
              end
          end
      end
  end.

End WithHost.

Definition plainRender (st : plainState) : screen :=
  if plain_loading st then LoadingScreen
  else
    match plain_error st with
    | Some reason =>
        if str_truthy reason then ErrorScreen reason else DashboardScreen
    | None => DashboardScreen
    end.

End Loader.

(** ** Sample inputs of the further properties *)

Module Examples.
Import JS Row Statements.

(** One product, two stores, one purchase and one day of work. *)
Definition smallProducts : list record := [widget 10].
Definition smallPurchases : list record := [purchase 50 "2024-01-08"].
Definition smallClocks : list record := [clockIn "2024-01-08" 8].

(** A sale of no units. *)
Definition emptySale : record := saleTo "Acme" 0 "2024-01-08".

(** A sale of a product that no catalog row names, but that is the name
    of a member of [Object.prototype]. *)
Definition memberSale : record :=
  [("Product", VStr "toString"); ("Quantity", VNum (of_Z 5));
   ("Customer", VStr "Acme"); ("Delivery Date", VStr "2024-01-08")].

(** A sale to a store named after a member of [Object.prototype]. *)
Definition memberStoreSale : record :=
  [("Product", VStr "Widget"); ("Quantity", VNum (of_Z 20));
   ("Customer", VStr "constructor"); ("Delivery Date", VStr "2024-01-08")].

(** A clock row whose hours are a text. *)
Definition textHours : record :=
  [("Date In", VStr "2024-01-08"); ("Total Less Break", VStr "8:30")].

(** The four tables of the small example, all fetched. *)
Definition allLoaded : Loader.fetches :=
  fun t =>
    Loader.Response true "200" "OK"
      (Loader.Complete
         match t with
         | Loader.Products => smallProducts
         | Loader.Sales => twoStores
         | Loader.Purchases => smallPurchases
         | Loader.Clocks => smallClocks
         end
         []).

(** The same, the sales table missing on the server. *)
Definition salesMissing : Loader.fetches :=
  fun t =>
    match t with
    | Loader.Sales =>
        Loader.Response false "404" "Not Found" (Loader.Complete [] [])
    | _ => allLoaded t
    end.

End Examples.

(** * Properties *)

(** ** Numbers and their decimal writing *)

Module JSFacts.
Import JS Spec.

Lemma read_digits_uint_pos (d : Decimal.uint) : forall c acc,
  read_digits 10 (NilEmpty.string_of_uint d) c (Z.pos acc)
  = ((c + String.length (NilEmpty.string_of_uint d))%nat,
     Z.pos (Pos.of_uint_acc d acc), "").
Proof.
  induction d; intros c acc;
    cbn [NilEmpty.string_of_uint read_digits String.length Pos.of_uint_acc];
    try (rewrite Nat.add_0_r; reflexivity);
    match goal with
    | |- context [radix_digit 10 ?ch] =>
        let v := eval vm_compute in (radix_digit 10 ch) in
        change (radix_digit 10 ch) with v; cbv iota
    end;
    match goal with
    | |- read_digits 10 _ _ ?a = (_, Z.pos ?p, _) =>
        match p with
        | Pos.of_uint_acc _ ?q => replace a with (Z.pos q) by lia
        end
    end;
    rewrite IHd; rewrite Nat.add_succ_r; reflexivity.
Qed.

Lemma read_digits_uint (d : Decimal.uint) : forall c,
  read_digits 10 (NilEmpty.string_of_uint d) c 0
  = ((c + String.length (NilEmpty.string_of_uint d))%nat, Z.of_uint d, "").
Proof.
  unfold Z.of_uint.
  induction d; intros c;
    cbn [NilEmpty.string_of_uint read_digits String.length Pos.of_uint];
    try (rewrite Nat.add_0_r; reflexivity);
    match goal with
    | |- context [radix_digit 10 ?ch] =>
        let v := eval vm_compute in (radix_digit 10 ch) in
        change (radix_digit 10 ch) with v; cbv iota
    end;
    cbn [Z.mul Z.add];
    first [ rewrite IHd | rewrite read_digits_uint_pos ];
    rewrite Nat.add_succ_r; reflexivity.
Qed.

Lemma uint_string_trim d :
  trim_start (NilEmpty.string_of_uint d) = NilEmpty.string_of_uint d.
Proof. destruct d; reflexivity. Qed.

Lemma uint_string_sign d :
  read_sign (NilEmpty.string_of_uint d) = (false, NilEmpty.string_of_uint d).
Proof. destruct d; reflexivity. Qed.

Lemma uint_string_hex d : hex_prefix (NilEmpty.string_of_uint d) = None.
Proof.
  destruct d as [|d|d|d|d|d|d|d|d|d|d]; try reflexivity; destruct d; reflexivity.
Qed.

Lemma uint_string_length d :
  d <> Decimal.Nil -> String.length (NilEmpty.string_of_uint d) <> O.
Proof. destruct d; cbn; congruence. Qed.

Lemma uint_string_free_W d : free_of "W" (NilEmpty.string_of_uint d) = true.
Proof. induction d; cbn; auto. Qed.

Lemma parseInt_uint d radix negative :
  decimal_radix radix -> d <> Decimal.Nil ->
  parseInt_string (sign_string negative ++ NilEmpty.string_of_uint d) radix
  = of_Z (signed negative (Z.of_uint d)).
Proof.
  intros Hr Hd. unfold parseInt_string.
  assert (Hs : read_sign (trim_start (sign_string negative ++ NilEmpty.string_of_uint d))
               = (negative, NilEmpty.string_of_uint d)).
  { destruct negative; cbn; [reflexivity|].
    rewrite uint_string_trim. apply uint_string_sign. }
  rewrite Hs.
  assert (Hx : (if match radix with Some 10 => false | _ => true end
                then hex_prefix (NilEmpty.string_of_uint d) else None) = None).
  { rewrite uint_string_hex.
    now destruct (match radix with Some 10 => false | _ => true end). }
  rewrite Hx.
  replace (match radix with Some r => r | None => 10 end) with 10
    by (destruct Hr; subst; reflexivity).
  rewrite read_digits_uint. cbn [Nat.add].
  destruct (String.length (NilEmpty.string_of_uint d)) eqn:E; [|reflexivity].
  exfalso. revert E. now apply uint_string_length.
Qed.

Lemma string_of_Z_cases z :
  exists negative d, d <> Decimal.Nil
    /\ string_of_Z z = sign_string negative ++ NilEmpty.string_of_uint d
    /\ z = signed negative (Z.of_uint d).
Proof.
  unfold string_of_Z.
  destruct z as [|p|p]; cbn [Z.to_int NilEmpty.string_of_int].
  - exists false, Decimal.zero. repeat split. discriminate.
  - exists false, (Pos.to_uint p). split; [apply Unsigned.to_uint_nonnil|].
    split; [reflexivity|].
    cbn [signed]. unfold Z.of_uint. now rewrite Unsigned.of_to.
  - exists true, (Pos.to_uint p). split; [apply Unsigned.to_uint_nonnil|].
    split; [reflexivity|].
    cbn [signed]. unfold Z.of_uint. now rewrite Unsigned.of_to.
Qed.

Lemma padStart2_cases z :
  exists negative d, d <> Decimal.Nil
    /\ padStart2 (string_of_Z z) = sign_string negative ++ NilEmpty.string_of_uint d
    /\ z = signed negative (Z.of_uint d).
Proof.
  destruct (string_of_Z_cases z) as (n & d & Hd & E & Hz).
  rewrite E. unfold padStart2. destruct n; cbn [append sign_string].
  - exists true, d. split; [exact Hd|]. split; [|exact Hz].
    destruct d; try congruence; reflexivity.
  - destruct (String.length (NilEmpty.string_of_uint d)) as [|[|n]] eqn:El.
    + exfalso. revert El. now apply uint_string_length.
    + exists false, (Decimal.D0 d). split; [discriminate|].
      split; [reflexivity|exact Hz].
    + exists false, d. split; [exact Hd|]. split; [reflexivity|exact Hz].
Qed.

(** [parseInt] reads back what [toString] writes. *)
Lemma parseInt_string_of_Z z radix :
  decimal_radix radix -> parseInt_string (string_of_Z z) radix = of_Z z.
Proof.
  intros Hr. destruct (string_of_Z_cases z) as (n & d & Hd & -> & Hz).
  rewrite parseInt_uint by assumption. now rewrite <- Hz.
Qed.

Lemma parseInt_padStart2 z radix :
  decimal_radix radix -> parseInt_string (padStart2 (string_of_Z z)) radix = of_Z z.
Proof.
  intros Hr. destruct (padStart2_cases z) as (n & d & Hd & -> & Hz).
  rewrite parseInt_uint by assumption. now rewrite <- Hz.
Qed.

Lemma of_Z_inj a b : of_Z a = of_Z b -> a = b.
Proof. unfold of_Z, inject_Z. congruence. Qed.

Lemma string_of_Z_inj a b : string_of_Z a = string_of_Z b -> a = b.
Proof.
  intros E. apply of_Z_inj.
  rewrite <- (parseInt_string_of_Z a None), <- (parseInt_string_of_Z b None), E
    by (now left).
  reflexivity.
Qed.

Lemma sign_string_free_W negative d :
  free_of "W" (sign_string negative ++ NilEmpty.string_of_uint d) = true.
Proof. destruct negative; cbn; apply uint_string_free_W. Qed.

Lemma string_of_Z_free_W z : free_of "W" (string_of_Z z) = true.
Proof.
  destruct (string_of_Z_cases z) as (n & d & _ & -> & _).
  apply sign_string_free_W.
Qed.

Lemma padStart2_free_W z : free_of "W" (padStart2 (string_of_Z z)) = true.
Proof.
  destruct (padStart2_cases z) as (n & d & _ & -> & _).
  apply sign_string_free_W.
Qed.

Lemma num_to_string_of_Z z : num_to_string (of_Z z) = string_of_Z z.
Proof.
  unfold num_to_string, of_Z, inject_Z. cbn [Qnum Qden].
  rewrite Z.mod_1_r, Z.div_1_r. reflexivity.
Qed.

(** [parseInt] gives an integer or [NaN]. *)
Lemma parseInt_string_cases s radix :
  parseInt_string s radix = NaN \/ exists z, parseInt_string s radix = of_Z z.
Proof.
  unfold parseInt_string.
  destruct (read_sign (trim_start s)) as [negative s1].
  destruct (match (if match radix with Some 10 => false | _ => true end
                   then hex_prefix s1 else None) with
            | Some s' => (16, s')
            | None => (match radix with Some r => r | None => 10 end, s1)
            end) as [r digits].
  destruct (read_digits r digits 0 0) as [[[|n] z] rest]; eauto.
Qed.

(** From 1 January 2000 to 1 January 2050 the day numbers and the civil
    dates agree, day after day. *)
Lemma calendar_2000_2050 :
  forallb (fun n => civil_round_trip n && next_day_follows n)
    (days_from (days_from_civil 2000 1 1) (Z.to_nat 18263)) = true
  /\ civil_from_days (days_from_civil 2000 1 1 + 18263) = (2050, 1, 1)
  /\ WeekDay (days_from_civil 2024 1 8 * msPerDay) = 1.
Proof. vm_compute. repeat split. Qed.

(** From 1 January 2020 to 1 January 2030 the ISO weeks run from 1 to 53
    and change on Mondays. *)
Lemma iso_weeks_2020_2030 :
  forallb iso_week_steps (days_from (days_from_civil 2020 1 1) (Z.to_nat 3653))
  = true
  /\ civil_from_days (days_from_civil 2020 1 1 + 3653) = (2030, 1, 1).
Proof. vm_compute. repeat split. Qed.

End JSFacts.

(** ** Dictionaries *)

Module ObjFacts.
Import JS Spec.

Section Obj.
Context {V : Type}.
Implicit Types (o : obj V) (k : string) (v : V).

Lemma get_set_same o k v : get (set o k v) k = Some v.
Proof.
  induction o as [|[k' v'] o IH]; cbn.
  - now rewrite String.eqb_refl.
  - destruct (String.eqb k' k) eqn:E; cbn; rewrite E; auto.
Qed.

Lemma get_set_other o k k' v : k <> k' -> get (set o k v) k' = get o k'.
Proof.
  intros Hk. induction o as [|[k1 v1] o IH]; cbn.
  - destruct (String.eqb_spec k k'); congruence.
  - destruct (String.eqb_spec k1 k) as [->|]; cbn.
    + destruct (String.eqb_spec k k'); congruence.
    + now rewrite IH.
Qed.

Lemma get_Some_In o k v : get o k = Some v -> In (k, v) o.
Proof.
  induction o as [|[k1 v1] o IH]; cbn; [discriminate|].
  destruct (String.eqb_spec k1 k) as [->|]; intros E.
  - left. congruence.
  - right. auto.
Qed.

Lemma get_None_iff o k : get o k = None <-> ~ In k (map fst o).
Proof.
  induction o as [|[k1 v1] o IH]; cbn.
  - tauto.
  - destruct (String.eqb_spec k1 k) as [->|]; split; intros H.
    + discriminate.
    + exfalso. apply H. now left.
    + intros [|]; [congruence|]. now apply IH.
    + apply IH. tauto.
Qed.

Lemma get_In_iff o k : In k (map fst o) <-> exists v, get o k = Some v.
Proof.
  destruct (get o k) eqn:E.
  - split; [eauto|]. intros _. apply get_Some_In in E.
    apply in_map_iff. now exists (k, v).
  - apply get_None_iff in E. split; [tauto|]. intros [v Hv]. discriminate.
Qed.

Lemma set_fst_old o k v : In k (map fst o) -> map fst (set o k v) = map fst o.
Proof.
  induction o as [|[k1 v1] o IH]; cbn; [tauto|].
  destruct (String.eqb_spec k1 k) as [->|]; cbn; [reflexivity|].
  intros [|]; [congruence|]. f_equal. auto.
Qed.

Lemma set_new o k v : ~ In k (map fst o) -> set o k v = (o ++ [(k, v)])%list.
Proof.
  induction o as [|[k1 v1] o IH]; cbn; [reflexivity|].
  destruct (String.eqb_spec k1 k) as [->|]; intros H.
  - exfalso. apply H. now left.
  - f_equal. apply IH. tauto.
Qed.

Lemma In_set_fst o k v k' : In k' (map fst (set o k v)) <-> k' = k \/ In k' (map fst o).
Proof.
  destruct (in_dec string_dec k (map fst o)) as [Hin|Hin].
  - rewrite set_fst_old by assumption. split; [tauto|]. intros [->|]; assumption.
  - rewrite set_new by assumption. rewrite map_app, in_app_iff. cbn.
    split; intros; intuition congruence.
Qed.

Lemma set_NoDup o k v : NoDup (map fst o) -> NoDup (map fst (set o k v)).
Proof.
  intros Hn. destruct (in_dec string_dec k (map fst o)) as [Hin|Hin].
  - now rewrite set_fst_old.
  - rewrite set_new by assumption. rewrite map_app. cbn.
    apply NoDup_app; [assumption|repeat constructor; cbn; tauto|].
    intros x Hx [<-|[]]. contradiction.
Qed.

(** What [set] puts in the dictionary is the new value or an old one. *)
Lemma set_all_values (P : V -> Prop) o k v :
  P v -> all_values P o -> all_values P (set o k v).
Proof.
  intros Hv. unfold all_values.
  induction o as [|[k1 v1] o IH]; cbn; intros Ho.
  - repeat constructor. exact Hv.
  - inversion Ho; subst. destruct (String.eqb k1 k); constructor; auto.
Qed.

Lemma set_all_keys (P : string -> Prop) o k v :
  P k -> all_keys P o -> all_keys P (set o k v).
Proof.
  intros Hk. unfold all_keys.
  induction o as [|[k1 v1] o IH]; cbn; intros Ho.
  - repeat constructor. exact Hk.
  - inversion Ho; subst. destruct (String.eqb k1 k); constructor; auto.
Qed.

Lemma get_all_values (P : V -> Prop) o k v :
  all_values P o -> get o k = Some v -> P v.
Proof.
  intros Ho E. apply get_Some_In in E.
  unfold all_values in Ho. rewrite Forall_forall in Ho. exact (Ho _ E).
Qed.

Lemma insert_index_perm (p : string * V) (l : obj V) : Permutation (insert_index p l) (p :: l).
Proof.
  induction l as [|q l IH]; cbn; [reflexivity|].
  destruct (index_of (fst q) <? index_of (fst p)); [|reflexivity].
  rewrite IH. apply perm_swap.
Qed.

Lemma sorted_index_perm (l : obj V) : Permutation (fold_right insert_index [] l) l.
Proof.
  induction l as [|q l IH]; cbn; [reflexivity|].
  rewrite insert_index_perm. now constructor.
Qed.

Lemma filter_split_perm (f : string * V -> bool) (l : obj V) :
  Permutation (filter f l ++ filter (fun p => negb (f p)) l) l.
Proof.
  induction l as [|q l IH]; cbn; [reflexivity|].
  destruct (f q); cbn.
  - now constructor.
  - rewrite <- Permutation_middle. now constructor.
Qed.

(** The enumeration of a dictionary reorders its properties, no more. *)
Lemma own_entries_perm o : Permutation (own_entries o) o.
Proof.
  unfold own_entries. rewrite sorted_index_perm. apply filter_split_perm.
Qed.

Lemma keys_perm o : Permutation (keys o) (map fst o).
Proof. unfold keys. apply Permutation_map, own_entries_perm. Qed.

Lemma In_keys o k : In k (keys o) <-> In k (map fst o).
Proof.
  split; apply Permutation_in; [|symmetry]; apply keys_perm.
Qed.


Lemma values_all (P : V -> Prop) o : all_values P o -> Forall P (values o).
Proof.
  unfold all_values, values. intros H.
  apply Forall_map.
  eapply Permutation_Forall; [symmetry; apply own_entries_perm|exact H].
Qed.

(** Without array indices among the keys, the enumeration is the creation
    order. *)
Lemma own_entries_plain o :
  Forall (fun p => array_index (fst p) = None) o -> own_entries o = o.
Proof.
  intros H. unfold own_entries.
  assert (Hi : forall p : string * V, array_index (fst p) = None -> is_index p = false).
  { intros p E. unfold is_index. now rewrite E. }
  assert (E1 : filter is_index o = []).
  { induction H as [|p l Hp _ IH]; cbn [filter]; [reflexivity|].
    now rewrite (Hi p Hp). }
  assert (E2 : filter (fun p => negb (is_index p)) o = o).
  { clear E1. induction H as [|p l Hp _ IH]; cbn [filter]; [reflexivity|].
    rewrite (Hi p Hp). cbn [negb]. now rewrite IH. }
  now rewrite E1, E2.
Qed.

(** *** Reads and writes that meet [Object.prototype] *)

Lemma assign_all_values (P : V -> Prop) o k v :
  P v -> all_values P o -> all_values P (assign o k v).
Proof.
  intros Hv Ho. unfold assign. destruct (String.eqb k "__proto__"); [exact Ho|].
  now apply set_all_values.
Qed.

Lemma assign_NoDup o k v : NoDup (map fst o) -> NoDup (map fst (assign o k v)).
Proof.
  intros H. unfold assign. destruct (String.eqb k "__proto__"); [exact H|].
  now apply set_NoDup.
Qed.

Lemma In_assign_fst o k v k' :
  In k' (map fst (assign o k v))
  <-> (k' = k /\ k <> "__proto__") \/ In k' (map fst o).
Proof.
  unfold assign. destruct (String.eqb_spec k "__proto__") as [E|E].
  - split; [now right|]. intros [[_ H]|H]; [contradiction|exact H].
  - rewrite In_set_fst. split.
    + intros [H|H]; [left; now split|now right].
    + intros [[H _]|H]; [now left|now right].
Qed.

Lemma lookup_Own o k v : lookup o k = Own v <-> get o k = Some v.
Proof.
  unfold lookup. destruct (get o k) as [u|].
  - split; intros [= ->]; reflexivity.
  - destruct (inherited k); split; discriminate.
Qed.

Lemma lookup_plain o k :
  inherited k = false ->
  lookup o k = match get o k with Some v => Own v | None => Missing end.
Proof. intros H. unfold lookup. now rewrite H. Qed.

End Obj.

End ObjFacts.

(** ** Sorting and sets of strings *)

Module ArrayFacts.
Import JS Spec.

Lemma uniq_In l x : In x (uniq l) <-> In x l.
Proof.
  induction l as [|y l IH]; cbn; [tauto|].
  rewrite filter_In, IH.
  destruct (String.eqb_spec y x) as [->|]; cbn; intuition congruence.
Qed.

Lemma uniq_NoDup l : NoDup (uniq l).
Proof.
  induction l as [|y l IH]; cbn; constructor.
  - rewrite filter_In. rewrite String.eqb_refl. cbn. intros [_ H]. discriminate.
  - now apply NoDup_filter.
Qed.

Section Sort.
Context {A : Type} (cmp : A -> A -> num).

Lemma insert_perm x l : Permutation (insert cmp x l) (x :: l).
Proof.
  induction l as [|y l IH]; cbn [insert]; [reflexivity|].
  destruct (gtb (cmp x y) zero); [|reflexivity].
  rewrite IH. apply perm_swap.
Qed.

Lemma sort_cons x l : sort cmp (x :: l) = insert cmp x (sort cmp l).
Proof. reflexivity. Qed.

Lemma sort_perm l : Permutation (sort cmp l) l.
Proof.
  induction l as [|y l IH]; [reflexivity|].
  rewrite sort_cons, insert_perm. now constructor.
Qed.

Lemma sort_In l x : In x (sort cmp l) <-> In x l.
Proof. split; apply Permutation_in; [|symmetry]; apply sort_perm. Qed.

Lemma sort_NoDup l : NoDup l -> NoDup (sort cmp l).
Proof. apply Permutation_NoDup. symmetry. apply sort_perm. Qed.

Lemma sort_length l : List.length (sort cmp l) = List.length l.
Proof. apply Permutation_length, sort_perm. Qed.

(** On elements where the comparison is asymmetric and transitive, the
    sort leaves every element before the ones it may precede. *)
Section Sorted.
Variable P : A -> Prop.
Hypothesis asym : forall a b, P a -> P b ->
  gtb (cmp a b) zero = true -> precedes cmp b a.
Hypothesis trans : forall a b c, P a -> P b -> P c ->
  precedes cmp a b -> precedes cmp b c -> precedes cmp a c.

Lemma insert_sorted x l :
  P x -> Forall P l -> StronglySorted (precedes cmp) l ->
  StronglySorted (precedes cmp) (insert cmp x l).
Proof.
  intros Hx Hl Hs. induction l as [|y l IH]; cbn [insert].
  - repeat constructor.
  - inversion Hl as [|? ? Hy Hl']; subst.
    apply StronglySorted_inv in Hs as [Hs Hy_le].
    destruct (gtb (cmp x y) zero) eqn:E.
    + constructor; [auto|].
      eapply Permutation_Forall; [symmetry; apply insert_perm|].
      constructor; [now apply asym|assumption].
    + constructor; [now constructor|].
      constructor; [exact E|].
      rewrite Forall_forall in *. intros z Hz.
      apply (trans x y z); auto.
Qed.

Lemma sort_sorted l : Forall P l -> StronglySorted (precedes cmp) (sort cmp l).
Proof.
  induction 1 as [|x l Hx Hl IH]; [constructor|].
  rewrite sort_cons. apply insert_sorted; auto.
  eapply Permutation_Forall; [symmetry; apply sort_perm|assumption].
Qed.

End Sorted.



End Sort.

End ArrayFacts.

(** ** Week keys and accumulation *)

Module RowFacts.
Import JS Row Spec JSFacts ObjFacts.

Lemma set_set {V : Type} (o : obj V) k v1 v2 : set (set o k v1) k v2 = set o k v2.
Proof.
  induction o as [|[k' v'] o IH]; cbn.
  - now rewrite String.eqb_refl.
  - destruct (String.eqb k' k) eqn:E; cbn; rewrite E; [reflexivity|].
    now rewrite IH.
Qed.

(** The two statements of an accumulation come to one assignment. *)
Lemma accumulate_eq o k x :
  accumulate o k x = set o k (add (get_or_zero o k) x).
Proof.
  unfold accumulate, get_or_zero, read.
  destruct (get o k) as [v|] eqn:E.
  - destruct (num_truthy v) eqn:Ev.
    + now rewrite E.
    + rewrite get_set_same. apply set_set.
  - cbn [num_truthy]. rewrite get_set_same. apply set_set.
Qed.

Lemma accumulate_get_same o k x :
  get (accumulate o k x) k = Some (add (get_or_zero o k) x).
Proof. rewrite accumulate_eq. apply get_set_same. Qed.

Lemma accumulate_get_other o k k' x :
  k <> k' -> get (accumulate o k x) k' = get o k'.
Proof. intros H. rewrite accumulate_eq. now apply get_set_other. Qed.

Lemma accumulate_fst o k x k' :
  In k' (map fst (accumulate o k x)) <-> k' = k \/ In k' (map fst o).
Proof. rewrite accumulate_eq. apply In_set_fst. Qed.

Lemma accumulate_NoDup o k x :
  NoDup (map fst o) -> NoDup (map fst (accumulate o k x)).
Proof. rewrite accumulate_eq. apply set_NoDup. Qed.

Lemma accumulate_all_keys (P : string -> Prop) o k x :
  P k -> all_keys P o -> all_keys P (accumulate o k x).
Proof. rewrite accumulate_eq. apply set_all_keys. Qed.

Lemma accumulate_all_values (P : num -> Prop) o k x :
  P (add (get_or_zero o k) x) -> all_values P o ->
  all_values P (accumulate o k x).
Proof. rewrite accumulate_eq. apply set_all_values. Qed.

Lemma finite_cases_value (o : obj num) :
  all_values finite o -> all_values cases_value o.
Proof.
  intros H. eapply Forall_impl; [|exact H]. intros p Hp. now right.
Qed.

(** A total that is [NaN] reads as 0. *)
Lemma get_or_zero_finite o k :
  all_values cases_value o -> finite (get_or_zero o k).
Proof.
  intros H. unfold get_or_zero. destruct (get o k) as [v|] eqn:E.
  - destruct (get_all_values cases_value o k v H E) as [->|Hv].
    + now exists 0%Q.
    + destruct (num_truthy v); [exact Hv|now exists 0%Q].
  - now exists 0%Q.
Qed.

Lemma add_finite a b : finite a -> finite b -> finite (add a b).
Proof. intros [x ->] [y ->]. now exists (x + y)%Q. Qed.

Lemma add_cases_value a b : finite a -> cases_value b -> cases_value (add a b).
Proof.
  intros [x ->] [->|[y ->]]; [now left|]. right. now exists (x + y)%Q.
Qed.

(** *** The form of a week key *)

Lemma weekKey_of_Z y w :
  weekKey (of_Z y) (of_Z w)
  = string_of_Z y ++ "-W" ++ padStart2 (string_of_Z w).
Proof. unfold weekKey. now rewrite !num_to_string_of_Z. Qed.

Lemma weekKey_truthy year week : str_truthy (weekKey year week) = true.
Proof. unfold weekKey. now destruct (num_to_string year). Qed.

Lemma read_digits_rest a t : forall c acc,
  snd (read_digits 10 (a ++ String "-" t) c acc) <> "".
Proof.
  induction a as [|ch a IH]; intros c acc; cbn [append read_digits].
  - now vm_compute.
  - destruct (radix_digit 10 ch); [apply IH|]. cbn. discriminate.
Qed.

(** A week key is never an array index: it is enumerated in creation
    order. *)
Lemma weekKey_not_index year week : array_index (weekKey year week) = None.
Proof.
  unfold array_index, weekKey.
  pose proof (read_digits_rest (num_to_string year)
                (String "W" (padStart2 (num_to_string week))) 0%nat 0) as H.
  change ("-W" ++ padStart2 (num_to_string week))
    with (String "-" (String "W" (padStart2 (num_to_string week)))).
  destruct (read_digits 10 _ 0 0) as [[[|n] z] [|ch rest]]; try reflexivity.
  now cbn in H.
Qed.

Lemma split_free s : free_of "W" s = true -> split_dashW s = [s].
Proof.
  induction s as [|c s IH]; [reflexivity|].
  cbn [free_of]. intros H. apply andb_prop in H as [_ Hs].
  cbn [split_dashW]. destruct s as [|c' s'].
  - reflexivity.
  - cbn [free_of] in Hs. apply andb_prop in Hs as [Hc' Hs'].
    apply negb_true_iff in Hc'. rewrite Hc', andb_false_r.
    rewrite IH; [reflexivity|]. cbn [free_of]. now rewrite Hc', Hs'.
Qed.

Lemma split_key a b :
  free_of "W" a = true -> free_of "W" b = true ->
  split_dashW (a ++ "-W" ++ b) = [a; b].
Proof.
  intros Ha Hb. induction a as [|c a IH].
  - cbn. now rewrite split_free.
  - cbn [free_of] in Ha. apply andb_prop in Ha as [_ Ha].
    specialize (IH Ha).
    destruct a as [|c' a'].
    + change ("" ++ "-W" ++ b) with (String "-" (String "W" b)) in IH.
      change (String c "" ++ "-W" ++ b) with (String c (String "-" (String "W" b))).
      cbn [split_dashW] in *.
      change (Ascii.eqb "-" "W") with false. rewrite andb_false_r.
      cbn [split_dashW] in IH. now rewrite IH.
    + change (String c' a' ++ "-W" ++ b) with (String c' (a' ++ "-W" ++ b)) in IH.
      change (String c (String c' a') ++ "-W" ++ b)
        with (String c (String c' (a' ++ "-W" ++ b))).
      cbn [free_of] in Ha. apply andb_prop in Ha as [Hc' _].
      apply negb_true_iff in Hc'.
      remember (String c' (a' ++ "-W" ++ b)) as rest eqn:Er.
      cbn [split_dashW]. rewrite Er at 1. rewrite Hc', andb_false_r.
      now rewrite IH.
Qed.

Lemma split_weekKey y w :
  split_dashW (weekKey (of_Z y) (of_Z w))
  = [string_of_Z y; padStart2 (string_of_Z w)].
Proof.
  rewrite weekKey_of_Z.
  apply split_key; [apply string_of_Z_free_W|apply padStart2_free_W].
Qed.

Lemma key_year_weekKey y w : key_year (weekKey (of_Z y) (of_Z w)) = of_Z y.
Proof.
  unfold key_year. rewrite split_weekKey. cbn [piece nth_error].
  unfold parseInt. cbn [to_string]. apply parseInt_string_of_Z. now left.
Qed.

Lemma key_week_weekKey y w : key_week (weekKey (of_Z y) (of_Z w)) = of_Z w.
Proof.
  unfold key_week. rewrite split_weekKey. cbn [piece nth_error].
  unfold parseInt. cbn [to_string]. apply parseInt_padStart2. now left.
Qed.

Lemma weekKey_inj y w y' w' :
  weekKey (of_Z y) (of_Z w) = weekKey (of_Z y') (of_Z w') -> y = y' /\ w = w'.
Proof.
  intros E. split; apply of_Z_inj.
  - now rewrite <- (key_year_weekKey y w), E, key_year_weekKey.
  - now rewrite <- (key_week_weekKey y w), E, key_week_weekKey.
Qed.

Lemma gtb_sub_of_Z a b : gtb (sub (of_Z a) (of_Z b)) zero = (b <? a).
Proof.
  unfold gtb, sub, of_Z, zero, neg, add, ltb, Qle_bool, inject_Z. cbn.
  destruct (Z.leb_spec ((a * 1 + - b * 1) * 1) 0), (Z.ltb_spec b a); cbn; lia.
Qed.

(** On week keys the comparison is the order of (year, week). *)
Lemma compareWeeks_weekKey y w y' w' :
  compareWeeks (weekKey (of_Z y) (of_Z w)) (weekKey (of_Z y') (of_Z w'))
  = if y =? y' then sub (of_Z w) (of_Z w') else sub (of_Z y) (of_Z y').
Proof.
  unfold compareWeeks. rewrite !split_weekKey. cbn [piece nth_error strict_eqb].
  unfold parseInt. cbn [to_string].
  rewrite !parseInt_string_of_Z, !parseInt_padStart2 by (now left).
  destruct (String.eqb_spec (string_of_Z y) (string_of_Z y')) as [E|E];
    destruct (Z.eqb_spec y y') as [E'|E']; cbn [negb]; try reflexivity.
  - apply string_of_Z_inj in E. contradiction.
  - subst. contradiction.
Qed.

Lemma precedes_weekKey y w y' w' :
  precedes compareWeeks (weekKey (of_Z y) (of_Z w)) (weekKey (of_Z y') (of_Z w'))
  <-> (y < y' \/ (y = y' /\ w <= w')).
Proof.
  unfold precedes. rewrite compareWeeks_weekKey.
  destruct (Z.eqb_spec y y'); rewrite gtb_sub_of_Z, Z.ltb_ge; lia.
Qed.

Lemma week_le_weekKey y w y' w' :
  week_le (weekKey (of_Z y) (of_Z w)) (weekKey (of_Z y') (of_Z w'))
  <-> (y < y' \/ (y = y' /\ w <= w')).
Proof.
  unfold week_le. rewrite !key_year_weekKey, !key_week_weekKey. split.
  - intros (ya & wa & yb & wb & H1 & H2 & H3 & H4 & H).
    apply of_Z_inj in H1, H2, H3, H4. subst. exact H.
  - intros H. now exists y, w, y', w'.
Qed.

(** The sorted week keys are in the order of (year, week). *)
Lemma sort_weeks_sorted l :
  Forall week_key l -> StronglySorted week_le (sort compareWeeks l).
Proof.
  intros Hl.
  assert (Hs : StronglySorted (precedes compareWeeks) (sort compareWeeks l)).
  { apply (ArrayFacts.sort_sorted compareWeeks week_key); [| |exact Hl].
    - intros a b (y & w & ->) (y' & w' & ->) H.
      apply precedes_weekKey.
      rewrite compareWeeks_weekKey in H.
      destruct (Z.eqb_spec y y'); rewrite gtb_sub_of_Z in H;
        apply Z.ltb_lt in H; lia.
    - intros a b c (y & w & ->) (y' & w' & ->) (y'' & w'' & ->).
      rewrite !precedes_weekKey. lia. }
  assert (Hk : Forall week_key (sort compareWeeks l)).
  { eapply Permutation_Forall; [symmetry; apply ArrayFacts.sort_perm|exact Hl]. }
  revert Hk. induction Hs as [|a l' Hs IH Ha]; intros Hk; constructor.
  - apply IH. now inversion Hk.
  - inversion Hk as [|? ? Hka Hkl]; subst.
    rewrite Forall_forall in *. intros b Hb.
    destruct Hka as (y & w & ->). destruct (Hkl b Hb) as (y' & w' & ->).
    apply week_le_weekKey, precedes_weekKey. now apply Ha.
Qed.


End RowFacts.

(** ** The aggregators of the component *)

Module DashboardFacts.
Import JS DateFns Row Spec Statements JSFacts ObjFacts ArrayFacts RowFacts Dashboard.

Lemma fold_left_invariant {A B : Type} (P : A -> Prop) (f : A -> B -> A) l init :
  P init -> (forall a b, P a -> P (f a b)) -> P (fold_left f l init).
Proof.
  intros Hi Hf. revert init Hi.
  induction l as [|b l IH]; intros init Hi; cbn; auto.
Qed.

Lemma fold_left_invariant_in {A B : Type} (P : A -> Prop) (Q : B -> Prop)
  (f : A -> B -> A) l init :
  P init -> Forall Q l -> (forall a b, P a -> Q b -> P (f a b)) ->
  P (fold_left f l init).
Proof.
  intros Hi Hl Hf. revert init Hi.
  induction Hl as [|b l Hb Hl IH]; intros init Hi; cbn; auto.
Qed.

Lemma Qnum_pos q : (0 < q)%Q -> 0 < Qnum q.
Proof. unfold Qlt. cbn. lia. Qed.

Lemma q_is_zero_pos q : (0 < q)%Q -> q_is_zero q = false.
Proof. intros H%Qnum_pos. unfold q_is_zero. lia. Qed.

Lemma Qle_bool_false q : (0 < q)%Q -> Qle_bool q 0 = false.
Proof.
  intros H. destruct (Qle_bool q 0) eqn:E; [|reflexivity].
  apply Qle_bool_iff in E. lra.
Qed.

Lemma not_le_zero_positive n : isNaN n = false -> leb n zero = false -> positive n.
Proof.
  destruct n as [|s|q]; cbn; try discriminate; intros _ H.
  - exact H.
  - destruct (Qlt_le_dec 0 q) as [|Hle]; [assumption|].
    apply Qle_bool_iff in Hle. congruence.
Qed.

Lemma positive_gtb n : positive n -> gtb n zero = true.
Proof.
  destruct n as [|s|q]; cbn; [tauto| |].
  - now intros ->.
  - intros H. now rewrite Qle_bool_false.
Qed.

Lemma positive_truthy n : positive n -> num_truthy n = true.
Proof.
  destruct n as [|s|q]; cbn; [tauto|reflexivity|].
  intros H. now rewrite q_is_zero_pos.
Qed.

Lemma positive_of_Z z : positive (of_Z z) <-> 0 < z.
Proof. unfold positive, of_Z, inject_Z, Qlt. cbn. lia. Qed.

Lemma gtb_of_Z z : gtb (of_Z z) zero = (0 <? z).
Proof.
  unfold gtb, of_Z, inject_Z, zero, ltb, Qle_bool. cbn.
  destruct (Z.leb_spec (z * 1) 0), (Z.ltb_spec 0 z); cbn; lia.
Qed.

Lemma add_positive a b : (a = zero \/ positive a) -> positive b -> positive (add a b).
Proof.
  intros [->|Ha] Hb.
  - destruct b as [|s|q]; cbn [add zero positive] in *; auto. lra.
  - destruct a as [|s|x], b as [|s'|y]; cbn [add positive] in *; subst;
      cbn [Bool.eqb positive]; auto; try tauto. lra.
Qed.

Lemma div_by_positive x n :
  positive n -> finite (div (Fin x) n).
Proof.
  destruct n as [|s|q]; cbn; [tauto| |].
  - intros _. now exists 0%Q.
  - intros H. rewrite q_is_zero_pos by assumption. now eexists.
Qed.

Lemma div_Fin q u : (0 < u)%Q -> div (Fin q) (Fin u) = Fin (q / u).
Proof. intros H. cbn. now rewrite q_is_zero_pos. Qed.

Lemma positive_integer_positive n : positive_integer n -> positive n.
Proof. intros (z & Hz & ->). now apply positive_of_Z. Qed.

Lemma parseInt_cases v radix :
  parseInt v radix = NaN \/ exists z, parseInt v radix = of_Z z.
Proof. apply parseInt_string_cases. Qed.

Section WithHost.
Context {host : Host}.

(** What [getWeekNumber] returns is a week key. *)
Lemma getWeekNumber_week_key v k : getWeekNumber v = Some k -> week_key k.
Proof.
  unfold getWeekNumber.
  destruct (parsedDate v) as [[t|]|]; cbn [isValid negb]; try discriminate.
  intros [= <-]. now exists (YearFromTime t), (isoWeekOfTime t).
Qed.

(** The units per case of the index are positive integers. *)
Lemma addProduct_positive productMap product :
  all_values positive_integer productMap ->
  all_values positive_integer (addProduct productMap product).
Proof.
  intros H. unfold addProduct.
  destruct (truthy (productName product)); cbn [andb]; [|exact H].
  destruct (parseInt_cases
              (or (or (or (field product "Units Per Case")
                          (field product "UnitsPerCase"))
                      (field product "Units")) (VStr "1")) (Some 10))
    as [E|[z E]]; unfold unitsPerCaseOf; rewrite E; cbn [isNaN negb andb];
    [exact H|].
  rewrite gtb_of_Z. destruct (Z.ltb_spec 0 z) as [Hz|]; [|exact H].
  apply assign_all_values; [|exact H]. now exists z.
Qed.

Lemma productMap_positive products :
  all_values positive_integer (processProductData products).
Proof.
  unfold processProductData.
  apply (fold_left_invariant (all_values positive_integer)); [constructor|].
  intros; now apply addProduct_positive.
Qed.

(** A row that is not skipped has passed every check; its cases are its
    quantity divided by the units per case of the index, or [NaN] when
    the product is read from [Object.prototype]. *)
Lemma weekAndCases_Some productMap product quantity date week cases :
  weekAndCases productMap product quantity date = Some (week, cases) ->
  truthy product = true /\ truthy date = true
  /\ isNaN quantity = false /\ leb quantity zero = false
  /\ getWeekNumber date = Some week
  /\ ((exists u, get productMap (to_string product) = Some u
                 /\ num_truthy u = true /\ cases = div quantity u)
      \/ (get productMap (to_string product) = None
          /\ inherited (to_string product) = true /\ cases = NaN)).
Proof.
  unfold weekAndCases, lookup.
  destruct (truthy product); cbn [negb orb]; [|discriminate].
  destruct (num_truthy quantity); cbn [negb orb]; [|discriminate].
  destruct (truthy date); cbn [negb orb]; [|discriminate].
  destruct (isNaN quantity) eqn:En; cbn [orb]; [discriminate|].
  destruct (leb quantity zero); [discriminate|].
  destruct (get productMap (to_string product)) as [u|].
  - cbn [found_truthy found_number].
    destruct (num_truthy u) eqn:Eu; cbn [negb]; [|discriminate].
    destruct (getWeekNumber date) as [k|]; [|discriminate].
    destruct (str_truthy k); cbn [negb]; [|discriminate].
    intros [= <- <-]. repeat split; auto. left. now exists u.
  - destruct (inherited (to_string product));
      cbn [found_truthy found_number negb]; [|discriminate].
    destruct (getWeekNumber date) as [k|]; [|discriminate].
    destruct (str_truthy k); cbn [negb]; [|discriminate].
    intros [= <- <-]. repeat split; auto. right. repeat split.
    now destruct quantity.
Qed.

(** A row that passes validation is converted, and to [q / u] cases. *)
Lemma weekAndCases_valid productMap product quantity date q u week :
  passes_validation productMap product quantity date q u week ->
  weekAndCases productMap product quantity date = Some (week, Fin (q / u)).
Proof.
  intros (Hp & -> & Hq & Hu & Hu0 & Hd & Hw).
  unfold weekAndCases, lookup. rewrite Hp, Hd, Hu, Hw.
  cbn [negb orb isNaN num_truthy leb zero found_truthy found_number].
  rewrite (q_is_zero_pos q Hq), (Qle_bool_false q Hq). cbn [negb orb].
  rewrite (q_is_zero_pos u Hu0). cbn [negb].
  destruct (getWeekNumber_week_key _ _ Hw) as (y & w & ->).
  rewrite weekKey_truthy. cbn [negb].
  now rewrite div_Fin.
Qed.

Lemma weekAndCases_sound productMap product quantity date week cases :
  all_values positive_integer productMap ->
  (quantity = NaN \/ exists z, quantity = of_Z z) ->
  weekAndCases productMap product quantity date = Some (week, cases) ->
  week_key week /\ cases_value cases.
Proof.
  intros Hm Hq H. apply weekAndCases_Some in H
    as (_ & _ & Hn & _ & Hw & [(u & Hu & _ & ->)|(_ & _ & ->)]).
  - split; [now apply (getWeekNumber_week_key date)|].
    destruct Hq as [->|[z ->]]; [discriminate|].
    right. apply div_by_positive, positive_integer_positive.
    exact (get_all_values _ _ _ _ Hm Hu).
  - split; [now apply (getWeekNumber_week_key date)|now left].
Qed.


(** *** What the aggregators maintain *)

Lemma week_totals_nil : week_totals [].
Proof. repeat split; constructor. Qed.

Lemma accumulate_week_totals o week cases :
  week_totals o -> week_key week -> cases_value cases ->
  week_totals (accumulate o week cases).
Proof.
  intros (Hk & Hv & Hn) Hw Hc. repeat split.
  - now apply accumulate_all_keys.
  - apply accumulate_all_values; [|assumption].
    apply add_cases_value; [now apply get_or_zero_finite|assumption].
  - now apply accumulate_NoDup.
Qed.

(** The three cases of [accumulate_in]. *)
Lemma accumulate_in_cases o store week cases :
  (inherited store = true /\ get o store = None
   /\ accumulate_in o store week cases = o)
  \/ accumulate_in o store week cases
     = set o store (accumulate (inner_of o store) week cases).
Proof.
  unfold accumulate_in, lookup, inner_of.
  destruct (get o store) as [i|]; [now right|].
  destruct (inherited store); [left|right]; auto.
Qed.

Lemma accumulate_in_plain o store week cases :
  inherited store = false ->
  accumulate_in o store week cases
  = set o store (accumulate (inner_of o store) week cases).
Proof.
  intros H. destruct (accumulate_in_cases o store week cases)
    as [(Hi & _)|E]; [congruence|exact E].
Qed.

Lemma accumulate_in_store_totals o store week cases :
  store_totals o -> cases_value cases ->
  store_totals (accumulate_in o store week cases).
Proof.
  intros (Hv & Hn) Hc.
  destruct (accumulate_in_cases o store week cases) as [(_ & _ & ->)| ->];
    [now split|].
  split; [|now apply set_NoDup].
  apply set_all_values; [|assumption].
  assert (Hi : all_values cases_value (inner_of o store)).
  { unfold inner_of. destruct (get o store) as [i|] eqn:E; [|constructor].
    exact (get_all_values _ _ _ _ Hv E). }
  apply accumulate_all_values; [|assumption].
  apply add_cases_value; [now apply get_or_zero_finite|assumption].
Qed.

Lemma orderQuantity_cases order :
  orderQuantity order = NaN \/ exists z, orderQuantity order = of_Z z.
Proof. apply parseInt_cases. Qed.

Lemma poQuantity_cases po :
  poQuantity po = NaN \/ exists z, poQuantity po = of_Z z.
Proof. apply parseInt_cases. Qed.

Lemma processSalesData_invariant salesOrders productMap :
  all_values positive_integer productMap ->
  week_totals (salesByWeek (processSalesData salesOrders productMap))
  /\ store_totals (salesByStoreAndWeek (processSalesData salesOrders productMap)).
Proof.
  intros Hm. unfold processSalesData.
  apply (fold_left_invariant
           (fun s => week_totals (salesByWeek s)
                     /\ store_totals (salesByStoreAndWeek s))).
  - split; [apply week_totals_nil|]. split; constructor.
  - intros acc order [Hw Hs]. unfold addSalesOrder.
    destruct (weekAndCases productMap (orderProduct order) (orderQuantity order)
                (orderDeliveryDate order)) as [[week cases]|] eqn:E; [|now split].
    apply weekAndCases_sound in E as [Hk Hc];
      [|assumption|apply orderQuantity_cases].
    cbn [salesByWeek salesByStoreAndWeek]. split.
    + now apply accumulate_week_totals.
    + now apply accumulate_in_store_totals.
Qed.

Lemma processPurchaseData_invariant purchaseOrders productMap :
  all_values positive_integer productMap ->
  week_totals (processPurchaseData purchaseOrders productMap).
Proof.
  intros Hm. unfold processPurchaseData.
  apply fold_left_invariant; [apply week_totals_nil|].
  intros acc po Hw. unfold addPurchaseOrder.
  destruct (weekAndCases productMap (poProduct po) (poQuantity po) (poDate po))
    as [[week cases]|] eqn:E; [|assumption].
  apply weekAndCases_sound in E as [Hk Hc]; [|assumption|apply poQuantity_cases].
  now apply accumulate_week_totals.
Qed.

Lemma processClockData_invariant clocks : week_hours (processClockData clocks).
Proof.
  unfold processClockData.
  apply fold_left_invariant; [repeat split; constructor|].
  intros acc clock (Hk & Hv & Hn). unfold addClock.
  destruct (truthy (clockDateIn clock)); cbn [negb orb]; [|now repeat split].
  destruct (isNaN (clockHours clock)) eqn:En; cbn [orb]; [now repeat split|].
  destruct (leb (clockHours clock) zero) eqn:El; [now repeat split|].
  destruct (getWeekNumber (clockDateIn clock)) as [week|] eqn:Ew; [|now repeat split].
  destruct (str_truthy week); cbn [negb]; [|now repeat split].
  repeat split.
  - apply accumulate_all_keys; [|assumption].
    now apply (getWeekNumber_week_key (clockDateIn clock)).
  - apply accumulate_all_values; [|assumption].
    apply add_positive; [|now apply not_le_zero_positive].
    unfold get_or_zero. destruct (get acc week) as [v|] eqn:Eg; [|now left].
    destruct (num_truthy v); [|now left].
    right. exact (get_all_values _ _ _ _ Hv Eg).
  - now apply accumulate_NoDup.
Qed.

(** *** Rows that meet no member of [Object.prototype] *)

Lemma reads_prototype_false {V : Type} (o : obj V) k :
  reads_prototype o k = false ->
  get o k = None -> inherited k = false.
Proof.
  unfold reads_prototype, lookup. intros H E. rewrite E in H.
  now destruct (inherited k).
Qed.

(** A row that is not skipped and reads its units per case on the index
    itself has passed validation, and its cases are a rational above
    zero. *)
Lemma weekAndCases_own productMap product quantity date week cases :
  all_values positive_integer productMap ->
  (quantity = NaN \/ exists z, quantity = of_Z z) ->
  reads_prototype productMap (to_string product) = false ->
  weekAndCases productMap product quantity date = Some (week, cases) ->
  exists q u,
    passes_validation productMap product quantity date q u week
    /\ cases = Fin (q / u) /\ (0 < q / u)%Q.
Proof.
  intros Hm Hq Hr H. apply weekAndCases_Some in H
    as (Hp & Hd & Hn & Hl & Hw & [(u & Hu & _ & ->)|(Hu & Hi & _)]).
  - destruct Hq as [->|[z ->]]; [discriminate|].
    destruct (get_all_values _ _ _ _ Hm Hu) as (zu & Hzu & ->).
    assert (Hz : (0 < inject_Z z)%Q) by exact (not_le_zero_positive _ Hn Hl).
    assert (Hzu' : (0 < inject_Z zu)%Q) by now apply (positive_of_Z zu).
    exists (inject_Z z), (inject_Z zu). split; [|split].
    + repeat split; assumption.
    + apply div_Fin. exact Hzu'.
    + apply Qlt_shift_div_l; [exact Hzu'|]. now rewrite Qmult_0_l.
  - rewrite (reads_prototype_false _ _ Hr Hu) in Hi. discriminate.
Qed.

Lemma accumulate_finite o week cases :
  all_values finite o -> finite cases ->
  all_values finite (accumulate o week cases).
Proof.
  intros Ho Hc. apply accumulate_all_values; [|assumption].
  apply add_finite; [|assumption].
  now apply get_or_zero_finite, finite_cases_value.
Qed.

Lemma accumulate_in_finite o store week cases :
  all_values (all_values finite) o -> finite cases ->
  all_values (all_values finite) (accumulate_in o store week cases).
Proof.
  intros Ho Hc.
  destruct (accumulate_in_cases o store week cases) as [(_ & _ & ->)| ->];
    [assumption|].
  apply set_all_values; [|assumption].
  apply accumulate_finite; [|assumption].
  unfold inner_of. destruct (get o store) as [i|] eqn:E; [|constructor].
  exact (get_all_values _ _ _ _ Ho E).
Qed.

Lemma processSalesData_finite salesOrders productMap :
  all_values positive_integer productMap ->
  own_products productMap orderProduct salesOrders ->
  all_values finite (salesByWeek (processSalesData salesOrders productMap))
  /\ all_values (all_values finite)
       (salesByStoreAndWeek (processSalesData salesOrders productMap)).
Proof.
  intros Hm Ho. unfold processSalesData.
  apply (fold_left_invariant_in
           (fun s => all_values finite (salesByWeek s)
                     /\ all_values (all_values finite) (salesByStoreAndWeek s))
           (fun row => reads_prototype productMap (to_string (orderProduct row))
                       = false));
    [split; constructor|exact Ho|].
  intros acc order [H1 H2] Hr. unfold addSalesOrder.
  destruct (weekAndCases productMap (orderProduct order) (orderQuantity order)
              (orderDeliveryDate order)) as [[week cases]|] eqn:E; [|now split].
  apply weekAndCases_own in E as (q & u & _ & -> & _);
    [|assumption|apply orderQuantity_cases|assumption].
  cbn [salesByWeek salesByStoreAndWeek]. split.
  - apply accumulate_finite; [assumption|now eexists].
  - apply accumulate_in_finite; [assumption|now eexists].
Qed.

End WithHost.
End DashboardFacts.

(** ** The composer of the component *)

Module ComposerFacts.
Import JS DateFns Row Spec Statements JSFacts ObjFacts ArrayFacts RowFacts.
Import Dashboard DashboardFacts.

(** *** Dictionaries filled key by key *)

Section FoldSet.
Context {V : Type} (f : string -> V).

Lemma fold_set_get l : forall init k,
  get (fold_left (fun o k => set o k (f k)) l init) k
  = if in_dec string_dec k l then Some (f k) else get init k.
Proof.
  induction l as [|a l IH]; intros init k; [reflexivity|].
  cbn [fold_left]. rewrite IH.
  destruct (in_dec string_dec k l) as [Hl|Hl];
    destruct (in_dec string_dec k (a :: l)) as [Hal|Hal]; try reflexivity.
  - exfalso. apply Hal. now right.
  - destruct Hal as [->|]; [apply get_set_same|contradiction].
  - apply get_set_other. intros ->. apply Hal. now left.
Qed.



Lemma fold_set_all_values (P : V -> Prop) l init :
  (forall k, In k l -> P (f k)) -> all_values P init ->
  all_values P (fold_left (fun o k => set o k (f k)) l init).
Proof.
  revert init. induction l as [|a l IH]; intros init Hf Hi; [exact Hi|].
  cbn [fold_left]. apply IH; [intros; apply Hf; now right|].
  apply set_all_values; [apply Hf; now left|exact Hi].
Qed.

(** Distinct new keys are created in the order of the list. *)
Lemma fold_set_fresh l : forall init,
  NoDup l -> (forall k, In k l -> ~ In k (map fst init)) ->
  fold_left (fun o k => set o k (f k)) l init
  = (init ++ map (fun k => (k, f k)) l)%list.
Proof.
  induction l as [|a l IH]; intros init Hn Hd; cbn [fold_left map].
  - now rewrite app_nil_r.
  - inversion Hn as [|? ? Ha Hn']; subst.
    rewrite set_new by (apply Hd; now left).
    rewrite IH; [now rewrite <- app_assoc|assumption|].
    intros k Hk. rewrite map_app, in_app_iff. cbn.
    intros [H|[<-|[]]]; [|contradiction].
    revert H. apply Hd. now right.
Qed.

End FoldSet.

(** *** Store totals *)

Lemma fold_add_finite l : forall init,
  finite init -> Forall finite l -> finite (fold_left add l init).
Proof.
  induction l as [|x l IH]; intros init Hi Hl; [exact Hi|].
  inversion Hl; subst. cbn [fold_left]. apply IH; [|assumption].
  now apply add_finite.
Qed.

Lemma sum_values_finite inner : all_values finite inner -> finite (sum_values inner).
Proof.
  intros H. apply fold_add_finite; [now exists 0%Q|]. now apply values_all.
Qed.

Lemma storeTotals_eq o :
  storeTotals o
  = fold_left (fun t store => set t store (sum_values (inner_of o store)))
      (keys o) [].
Proof. reflexivity. Qed.




Lemma storeTotals_finite o :
  all_values (all_values finite) o -> all_values finite (storeTotals o).
Proof.
  intros Hv. rewrite storeTotals_eq.
  apply fold_set_all_values; [|constructor].
  intros store _. apply sum_values_finite. unfold inner_of.
  destruct (get o store) as [inner|] eqn:E; [|constructor].
  exact (get_all_values _ _ _ _ Hv E).
Qed.

Lemma read_finite (t : obj num) store :
  all_values finite t -> In store (keys t) -> finite (read t store).
Proof.
  intros Hv Hin. apply (proj1 (In_keys t store)) in Hin.
  apply (proj1 (get_In_iff t store)) in Hin as [v E].
  unfold read. rewrite E. exact (get_all_values _ _ _ _ Hv E).
Qed.

Lemma gtb_sub_Fin x y : gtb (sub (Fin x) (Fin y)) zero = negb (Qle_bool x y).
Proof.
  unfold gtb, sub, neg, add, ltb, zero.
  destruct (Qle_bool (x + - y) 0) eqn:E1, (Qle_bool x y) eqn:E2; try reflexivity.
  - apply Qle_bool_iff in E1.
    assert (~ (x <= y)%Q) by (rewrite <- Qle_bool_iff; congruence). lra.
  - apply Qle_bool_iff in E2.
    assert (~ (x + - y <= 0)%Q) by (rewrite <- Qle_bool_iff; congruence). lra.
Qed.

Lemma precedes_compareStores t a b qa qb :
  read t a = Fin qa -> read t b = Fin qb ->
  (precedes (compareStores t) a b <-> (qb <= qa)%Q).
Proof.
  intros Ea Eb. unfold precedes, compareStores.
  rewrite Ea, Eb, gtb_sub_Fin, negb_false_iff. apply Qle_bool_iff.
Qed.

(** The sorted stores are in descending order of total; stores of equal
    total stay in the order of enumeration. *)
Lemma sort_stores_sorted t :
  all_values finite t ->
  StronglySorted (total_ge t) (sort (compareStores t) (keys t)).
Proof.
  intros Hv.
  pose (P := fun store => finite (read t store)).
  assert (HP : Forall P (keys t)).
  { apply Forall_forall. intros store. now apply read_finite. }
  assert (Hs : StronglySorted (precedes (compareStores t))
                 (sort (compareStores t) (keys t))).
  { apply (sort_sorted (compareStores t) P); [| |exact HP].
    - intros a b [qa Ea] [qb Eb] H.
      apply (precedes_compareStores t b a qb qa Eb Ea).
      unfold compareStores in H. rewrite Ea, Eb, gtb_sub_Fin in H.
      apply negb_true_iff in H.
      assert (~ (qb <= qa)%Q) by (rewrite <- Qle_bool_iff; congruence). lra.
    - intros a b c [qa Ea] [qb Eb] [qc Ec].
      rewrite (precedes_compareStores t a b qa qb Ea Eb),
        (precedes_compareStores t b c qb qc Eb Ec),
        (precedes_compareStores t a c qa qc Ea Ec). lra. }
  assert (Hk : Forall P (sort (compareStores t) (keys t))).
  { eapply Permutation_Forall; [symmetry; apply sort_perm|exact HP]. }
  revert Hk. induction Hs as [|a l Hs IH Ha]; intros Hk; constructor.
  - apply IH. now inversion Hk.
  - inversion Hk as [|? ? [qa Ea] Hkl]; subst.
    rewrite Forall_forall in *. intros b Hb.
    destruct (Hkl b Hb) as [qb Eb]. exists qa, qb. repeat split; auto.
    apply (precedes_compareStores t a b qa qb Ea Eb). now apply Ha.
Qed.


(** *** The fields of the result *)

Section WithHost.
Context {host : Host}.

Lemma calculateMetrics_Returned products salesOrders purchaseOrders clocks m :
  calculateMetrics products salesOrders purchaseOrders clocks = Returned m ->
  let sw := salesTotals products salesOrders in
  let pw := purchaseTotals products purchaseOrders in
  let lh := laborTotals clocks in
  let tot := storeTotals (storeWeekTotals products salesOrders) in
  weeks m = allWeeksOf sw pw lh
  /\ casesPerLaborHour m = values (buildCasesPerLaborHour sw pw lh (weeks m))
  /\ salesAndPOByWeek m
     = map (formatWeek sw pw lh (buildCasesPerLaborHour sw pw lh (weeks m)))
         (weeks m)
  /\ allStores m = sort (compareStores tot) (keys tot)
  /\ topStoresByWeek m
     = map (fun store => {| store := store; total := get tot store |})
         (firstn 10 (allStores m))
  /\ allStoreData m
     = buildAllStoreData (storeWeekTotals products salesOrders) (weeks m)
         (allStores m).
Proof.
  unfold calculateMetrics.
  destruct (List.length (keys (processProductData products)) =? 0)%nat;
    [discriminate|].
  destruct (List.length _ =? 0)%nat; [discriminate|].
  intros [= <-]. cbn [weeks casesPerLaborHour salesAndPOByWeek allStores
                       topStoresByWeek allStoreData].
  repeat split.
Qed.

Lemma aggregates_invariant products salesOrders purchaseOrders clocks :
  week_totals (salesTotals products salesOrders)
  /\ store_totals (storeWeekTotals products salesOrders)
  /\ week_totals (purchaseTotals products purchaseOrders)
  /\ week_hours (laborTotals clocks).
Proof.
  pose proof (productMap_positive products) as Hm.
  destruct (processSalesData_invariant salesOrders _ Hm) as [H1 H2].
  repeat split; try apply H1; try apply H2;
    try apply (processPurchaseData_invariant purchaseOrders _ Hm);
    apply processClockData_invariant.
Qed.

(** *** The weeks *)

Lemma allWeeksOf_In sw pw lh k :
  In k (allWeeksOf sw pw lh) <-> In k (keys sw) \/ In k (keys pw) \/ In k (keys lh).
Proof.
  unfold allWeeksOf. rewrite sort_In, uniq_In, !in_app_iff. tauto.
Qed.

Lemma allWeeksOf_NoDup sw pw lh : NoDup (allWeeksOf sw pw lh).
Proof. apply sort_NoDup, uniq_NoDup. Qed.

Lemma all_keys_In (P : string -> Prop) (o : obj num) k :
  all_keys P o -> In k (keys o) -> P k.
Proof.
  intros H Hin. apply (proj1 (In_keys o k)) in Hin.
  apply in_map_iff in Hin as (p & <- & Hp).
  unfold all_keys in H. rewrite Forall_forall in H. now apply H.
Qed.

Lemma allWeeksOf_week_keys sw pw lh :
  all_keys week_key sw -> all_keys week_key pw -> all_keys week_key lh ->
  Forall week_key (allWeeksOf sw pw lh).
Proof.
  intros H1 H2 H3. apply Forall_forall. intros k Hk.
  apply allWeeksOf_In in Hk as [Hk|[Hk|Hk]];
    [ exact (all_keys_In week_key sw k H1 Hk)
    | exact (all_keys_In week_key pw k H2 Hk)
    | exact (all_keys_In week_key lh k H3 Hk) ].
Qed.

Lemma allWeeksOf_sorted sw pw lh :
  all_keys week_key sw -> all_keys week_key pw -> all_keys week_key lh ->
  StronglySorted week_le (allWeeksOf sw pw lh).
Proof.
  intros H1 H2 H3. apply sort_weeks_sorted.
  apply Forall_forall. intros k Hk. apply (proj1 (uniq_In _ k)) in Hk.
  rewrite !in_app_iff in Hk.
  destruct Hk as [Hk|[Hk|Hk]];
    [ exact (all_keys_In week_key sw k H1 Hk)
    | exact (all_keys_In week_key pw k H2 Hk)
    | exact (all_keys_In week_key lh k H3 Hk) ].
Qed.

(** One entry per week, in the order of the weeks. *)
Lemma buildCasesPerLaborHour_entries sw pw lh allWeeks :
  NoDup allWeeks -> Forall week_key allWeeks ->
  values (buildCasesPerLaborHour sw pw lh allWeeks)
  = map (metricsOfWeek sw pw lh) allWeeks.
Proof.
  intros Hn Hk. unfold buildCasesPerLaborHour, values.
  rewrite (fold_set_fresh (metricsOfWeek sw pw lh)) by (auto; intros; cbn; tauto).
  cbn [app]. rewrite own_entries_plain.
  - rewrite map_map. reflexivity.
  - apply Forall_map. cbn [fst].
    eapply Forall_impl; [|exact Hk].
    intros k (y & w & ->). apply weekKey_not_index.
Qed.

Lemma buildCasesPerLaborHour_get sw pw lh allWeeks week :
  In week allWeeks ->
  get (buildCasesPerLaborHour sw pw lh allWeeks) week
  = Some (metricsOfWeek sw pw lh week).
Proof.
  intros Hin. unfold buildCasesPerLaborHour.
  rewrite (fold_set_get (metricsOfWeek sw pw lh)).
  now destruct (in_dec string_dec week allWeeks).
Qed.

(** *** The efficiency of a week *)

Lemma metricsOfWeek_rule sw pw lh week :
  all_values cases_value sw -> all_values cases_value pw ->
  all_values positive lh ->
  efficiency_rule (metricsOfWeek sw pw lh week).
Proof.
  intros Hs Hp Hl. unfold efficiency_rule, metricsOfWeek.
  cbn [laborHours totalCasesPerLaborHour receivedCases shippedCases].
  assert (Hh : get_or_zero lh week = zero \/ positive (get_or_zero lh week)).
  { unfold get_or_zero. destruct (get lh week) as [v|] eqn:E; [|now left].
    destruct (num_truthy v); [|now left].
    right. exact (get_all_values _ _ _ _ Hl E). }
  destruct (add_finite _ _ (get_or_zero_finite pw week Hp)
              (get_or_zero_finite sw week Hs)) as [x Hx].
  destruct Hh as [Hz|Hpos].
  - rewrite Hz. change (gtb zero zero) with false. cbv iota.
    repeat split; auto; [discriminate|now exists 0%Q].
  - rewrite (positive_gtb _ Hpos). repeat split; auto.
    + intros Hz. rewrite Hz in Hpos. cbn in Hpos. lra.
    + rewrite Hx. now apply div_by_positive.
Qed.

End WithHost.

(** *** The series by store and week *)






End ComposerFacts.

(** * The week key normaliser *)

Import JS DateFns Row Spec Statements.
Import JSFacts ObjFacts ArrayFacts RowFacts DashboardFacts ComposerFacts.

(** C1 (defect of the code).  The key of a date takes the ISO week number
    together with the calendar year, not the ISO week-numbering year: for
    30 December 2024, which lies in week 1 of the week-numbering year 2025,
    [getWeekNumber] returns "2024-W01" in both variants.  That is the key
    of 1 January 2024, so the two days fall in one bucket, and the key
    sorts before that of June 2024. *)
Theorem week_key_takes_calendar_year :
  Dashboard.getWeekNumber (host := reference_host) (VStr "2024-12-30")
  = Some "2024-W01"
  /\ DashboardPlain.getWeekNumber (host := reference_host) (VStr "2024-12-30")
     = "2024-W01"
  /\ option_map isoWeekOfTime (parseISO_date "2024-12-30") = Some 1
  /\ option_map getISOWeekYear (parseISO_date "2024-12-30") = Some 2025
  /\ Dashboard.getWeekNumber (host := reference_host) (VStr "2024-01-01")
     = Some "2024-W01"
  /\ sort compareWeeks ["2024-W23"; "2024-W01"] = ["2024-W01"; "2024-W23"].
Proof. vm_compute. repeat split. Qed.

(** Whatever the host, the key is written from the calendar year and the
    ISO week of the date settled on. *)
Lemma getWeekNumber_key {host : Host} (dateStr : value) (k : string) :
  Dashboard.getWeekNumber dateStr = Some k ->
  exists t, Dashboard.parsedDate dateStr = Some (Some t)
            /\ k = weekKey (of_Z (YearFromTime t)) (of_Z (isoWeekOfTime t)).
Proof.
  unfold Dashboard.getWeekNumber.
  destruct (Dashboard.parsedDate dateStr) as [[t|]|];
    cbn [isValid negb]; try discriminate.
  intros [= <-]. now exists t.
Qed.

(** C2 (defect of the code).  The first arrangement tried is never turned
    down for its month or day: [new Date(year, month, day)] carries a month
    above 12 and a day above the month's length over into the following
    months.  For "13/45/2024" the month-day-year reading gives 14 February
    2025, and for "15/03/2024" it gives 3 March 2025, where the
    day-month-year reading, never reached, is 15 March 2024. *)
Theorem rolled_over_date_accepted :
  parseISO_date "13/45/2024" = None
  /\ Dashboard.parsedDate (host := reference_host) (VStr "13/45/2024")
     = Some (parseISO_date "2025-02-14")
  /\ Dashboard.getWeekNumber (host := reference_host) (VStr "13/45/2024")
     = Some "2025-W07"
  /\ Dashboard.parsedDate (host := reference_host) (VStr "15/03/2024")
     = Some (parseISO_date "2025-03-03")
  /\ Dashboard.getWeekNumber (host := reference_host) (VStr "15/03/2024")
     = Some "2025-W10"
  /\ Dashboard.getWeekNumber (host := reference_host) (VStr "2024-03-15")
     = Some "2024-W11".
Proof. vm_compute. repeat split. Qed.

(** The first arrangement is a valid date as soon as the three pieces are
    numbers and the day they carry over to is in the range of time
    values: the other two arrangements are tried only outside that. *)
Lemma first_arrangement_valid (year month date : Q) :
  let yi := truncate year in
  let yr := if (0 <=? yi) && (yi <=? 99) then 1900 + yi else yi in
  Z.abs (MakeDay yr (truncate month) (truncate date) * msPerDay) <= maxTime ->
  isValid (Date_ymd (Fin year) (Fin month) (Fin date)) = true.
Proof.
  cbv zeta. intros H. unfold Date_ymd, TimeClip.
  apply Z.leb_le in H. now rewrite H.
Qed.

(** C8 (defect of the code, plain variant).  In the plain variant a date
    string that does not parse is not signalled: [getWeekNumber] returns
    the string "NaN-WNaN", the test against 'Unknown' lets it through, and
    the row is added to a bucket of that name.  The variant with the error
    boundary returns [null] for the same string and skips the row. *)
Theorem plain_variant_buckets_unparsed_date :
  DashboardPlain.getWeekNumber (host := reference_host) (VStr "unknown")
  = "NaN-WNaN"
  /\ DashboardPlain.weeks
       (DashboardPlain.calculateMetrics (host := reference_host)
          [widget 10] [saleTo "Acme" 100 "unknown"] [] [])
     = ["NaN-WNaN"]
  /\ Dashboard.getWeekNumber (host := reference_host) (VStr "unknown") = None
  /\ Dashboard.processSalesData (host := reference_host)
       [saleTo "Acme" 100 "unknown"] (Dashboard.processProductData [widget 10])
     = {| Dashboard.salesByWeek := []; Dashboard.salesByStoreAndWeek := [] |}.
Proof. vm_compute. repeat split. Qed.

(** In the variant with the error boundary, a row whose date cannot be
    parsed changes no aggregate. *)
Lemma unparsed_date_skipped {host : Host} (productMap : obj num)
  (acc : Dashboard.sales) (totals : obj num) (row : record) :
  (Dashboard.getWeekNumber (Dashboard.orderDeliveryDate row) = None ->
   Dashboard.addSalesOrder productMap acc row = acc)
  /\ (Dashboard.getWeekNumber (Dashboard.poDate row) = None ->
      Dashboard.addPurchaseOrder productMap totals row = totals)
  /\ (Dashboard.getWeekNumber (Dashboard.clockDateIn row) = None ->
      Dashboard.addClock totals row = totals).
Proof.
  repeat split; intros E.
  - unfold Dashboard.addSalesOrder.
    destruct (Dashboard.weekAndCases _ _ _ _) as [[week cases]|] eqn:Ew;
      [|reflexivity].
    apply weekAndCases_Some in Ew as (_ & _ & _ & _ & Hw & _). congruence.
  - unfold Dashboard.addPurchaseOrder.
    destruct (Dashboard.weekAndCases _ _ _ _) as [[week cases]|] eqn:Ew;
      [|reflexivity].
    apply weekAndCases_Some in Ew as (_ & _ & _ & _ & Hw & _). congruence.
  - unfold Dashboard.addClock. rewrite E.
    now destruct (_ || _ || _).
Qed.

(** * The aggregators *)

Section Aggregators.
Context {host : Host}.

Lemma valid_row_contributes (src : source) (productMap totals : obj num)
  (stores : obj (obj num)) (row : record) (q u : Q) (week : string) :
  passes_validation productMap (rowProduct src row) (rowQuantity src row)
    (rowDate src row) q u week ->
  get (weekTotalsAfter src productMap totals stores row) week
  = Some (add (get_or_zero totals week) (Fin (q / u)))
  /\ forall k, k <> week ->
       get (weekTotalsAfter src productMap totals stores row) k = get totals k.
Proof.
  intros H. apply weekAndCases_valid in H.
  destruct src; unfold weekTotalsAfter, Dashboard.addSalesOrder,
    Dashboard.addPurchaseOrder; cbn [rowProduct rowQuantity rowDate] in H;
    rewrite H; cbn [Dashboard.salesByWeek];
    (split; [apply accumulate_get_same|]);
    intros k Hk; apply accumulate_get_other; congruence.
Qed.

(** C6, as the code has it.  The quantity of a sales or purchase row is
    read with [parseInt(..., 10)]: what counts is the integer [n] at the
    head of its writing.  A row that is accepted (its product is an own
    key of the index with [u] units per case, [n] is above zero, and its
    date normalises to [week]) adds exactly [n / u] cases to the bucket of
    its week, as a rational: the bucket becomes its former value, or 0
    when the week is new, plus [n / u]; no other bucket of the week totals
    changes.  A quantity that is an integer (below 10^21, which is
    written without an exponent) is taken whole. *)
Theorem cases_contributed (src : source) (productMap totals : obj num)
  (stores : obj (obj num)) (row : record) (n u : Z) (week : string) :
  accepted productMap src row n u week ->
  get (weekTotalsAfter src productMap totals stores row) week
  = Some (add (get_or_zero totals week) (Fin (inject_Z n / inject_Z u)))
  /\ (forall k, k <> week ->
        get (weekTotalsAfter src productMap totals stores row) k = get totals k)
  /\ (forall z, Z.abs z < 10 ^ 21 ->
                rowQuantityField src row = VNum (of_Z z) -> n = z).
Proof.
  intros (Hp & Hq & Hn & Hu & Hu0 & Hd & Hw).
  assert (Hv : passes_validation productMap (rowProduct src row)
                 (rowQuantity src row) (rowDate src row)
                 (inject_Z n) (inject_Z u) week).
  { assert (Er : rowQuantity src row
                 = parseInt (rowQuantityField src row) (Some 10))
      by now destruct src.
    rewrite Er, Hq. repeat split; try assumption.
    - now apply (positive_of_Z n).
    - now apply (positive_of_Z u). }
  destruct (valid_row_contributes src productMap totals stores row _ _ week Hv)
    as [H1 H2].
  split; [exact H1|]. split; [exact H2|].
  intros z _ Ez. rewrite Ez in Hq. unfold parseInt in Hq. cbn [to_string] in Hq.
  rewrite num_to_string_of_Z, parseInt_string_of_Z in Hq by now right.
  symmetry. now apply of_Z_inj.
Qed.

(** C10.  A sales row that passes validation and has no value in any of
    the fields Customer, Store and Client is not skipped: its cases go to
    the week bucket and to the bucket of its week under the store name
    "Unknown", which becomes a store of the totals by store and week. *)
Theorem sale_without_store_goes_to_Unknown (productMap : obj num)
  (acc : Dashboard.sales) (order : record) (q u : Q) (week : string) :
  store_absent order ->
  passes_validation productMap (Dashboard.orderProduct order)
    (Dashboard.orderQuantity order) (Dashboard.orderDeliveryDate order) q u week ->
  let acc' := Dashboard.addSalesOrder productMap acc order in
  get (Dashboard.salesByWeek acc') week
  = Some (add (get_or_zero (Dashboard.salesByWeek acc) week) (Fin (q / u)))
  /\ get (inner_of (Dashboard.salesByStoreAndWeek acc') "Unknown") week
     = Some (add (storeWeekCases (Dashboard.salesByStoreAndWeek acc) "Unknown" week)
               (Fin (q / u)))
  /\ In "Unknown" (keys (Dashboard.salesByStoreAndWeek acc')).
Proof.
  intros (Hc & Hs & Hl) H. apply weekAndCases_valid in H. cbv zeta.
  assert (Ec : to_string (Dashboard.orderCustomer order) = "Unknown").
  { unfold Dashboard.orderCustomer, or. now rewrite Hc, Hs, Hl. }
  unfold Dashboard.addSalesOrder. rewrite H, Ec.
  cbn [Dashboard.salesByWeek Dashboard.salesByStoreAndWeek].
  split; [apply accumulate_get_same|].
  rewrite accumulate_in_plain by reflexivity.
  unfold inner_of. rewrite get_set_same. split.
  - rewrite accumulate_get_same. unfold storeWeekCases.
    now destruct (get (Dashboard.salesByStoreAndWeek acc) "Unknown").
  - apply In_keys, In_set_fst. now left.
Qed.

(** The same holds of the plain variant, which reads the store from the
    field Customer alone. *)
Lemma plain_sale_without_store_goes_to_Unknown (productMap : obj value)
  (acc : DashboardPlain.sales) (order : record) (week : string) (cases : num) :
  truthy (field order "Customer") = false ->
  DashboardPlain.weekAndCases productMap (field order "Product")
    (or (field order "Quantity") (VNum zero)) (field order "Delivery Date")
  = Some (week, cases) ->
  let acc' := DashboardPlain.addSalesOrder productMap acc order in
  get (inner_of (DashboardPlain.salesByStoreAndWeek acc') "Unknown") week
  = Some (add (storeWeekCases (DashboardPlain.salesByStoreAndWeek acc) "Unknown" week)
            cases)
  /\ In "Unknown" (keys (DashboardPlain.salesByStoreAndWeek acc')).
Proof.
  intros Hc H. cbv zeta.
  assert (Ec : to_string (or (field order "Customer") (VStr "Unknown")) = "Unknown").
  { unfold or. now rewrite Hc. }
  unfold DashboardPlain.addSalesOrder. rewrite H, Ec.
  cbn [DashboardPlain.salesByStoreAndWeek].
  rewrite accumulate_in_plain by reflexivity.
  unfold inner_of. rewrite get_set_same. split.
  - rewrite accumulate_get_same. unfold storeWeekCases.
    now destruct (get (DashboardPlain.salesByStoreAndWeek acc) "Unknown").
  - apply In_keys, In_set_fst. now left.
Qed.

End Aggregators.

(** * The product index *)

Section ProductIndex.

Lemma indexable_iff (product : record) :
  indexable product
  <-> truthy (Dashboard.productName product)
      && negb (isNaN (Dashboard.unitsPerCaseOf product))
      && gtb (Dashboard.unitsPerCaseOf product) zero = true.
Proof.
  unfold indexable, positive_integer.
  destruct (truthy (Dashboard.productName product)); cbn [andb];
    [|split; [intros []|]; discriminate].
  destruct (parseInt_cases
              (or (or (or (field product "Units Per Case")
                          (field product "UnitsPerCase"))
                      (field product "Units")) (VStr "1")) (Some 10))
    as [E|[z E]]; unfold Dashboard.unitsPerCaseOf; rewrite E.
  - split; [intros [_ (z & _ & Hz)]|]; discriminate.
  - change (isNaN (of_Z z)) with false. cbn [negb andb].
    rewrite gtb_of_Z, Z.ltb_lt. split.
    + intros [_ (z' & Hz & Ez)]. apply of_Z_inj in Ez. now subst.
    + intros Hz. split; [reflexivity|]. now exists z.
Qed.

Lemma addProduct_indexable (productMap : obj num) (product : record) :
  indexable product ->
  Dashboard.addProduct productMap product
  = assign productMap (to_string (Dashboard.productName product))
      (Dashboard.unitsPerCaseOf product).
Proof.
  intros H%indexable_iff. unfold Dashboard.addProduct. now rewrite H.
Qed.

Lemma addProduct_skipped (productMap : obj num) (product : record) :
  ~ indexable product -> Dashboard.addProduct productMap product = productMap.
Proof.
  intros H. unfold Dashboard.addProduct.
  destruct (_ && _ && _) eqn:E; [|reflexivity].
  exfalso. now apply H, indexable_iff.
Qed.

Lemma indexable_dec (product : record) : indexable product \/ ~ indexable product.
Proof.
  rewrite indexable_iff. destruct (_ && _ && _); [now left|right; discriminate].
Qed.

(** The own keys of a dictionary filled by assignments. *)
Lemma assigned_keys {R V : Type} (accept : R -> bool) (name : R -> string)
  (val : R -> V) (rows : list R) : forall (init : obj V) k,
  (exists v,
      get (fold_left (fun o r => if accept r then assign o (name r) (val r) else o)
             rows init) k = Some v)
  <-> (exists v, get init k = Some v)
      \/ exists r, In r rows /\ accept r = true /\ name r = k /\ k <> "__proto__".
Proof.
  induction rows as [|r rows IH]; intros init k; cbn [fold_left].
  - split; [auto|]. intros [H|(r & [] & _)]. exact H.
  - rewrite IH. destruct (accept r) eqn:Ea.
    + rewrite <- !get_In_iff, In_assign_fst. split.
      * intros [[[-> Hk]|H]|(r' & Hin & H)];
          [right; exists r|now left|right; exists r']; cbn; tauto.
      * intros [H|(r' & [<-|Hin] & Hi & <- & Hk)];
          [left; now right|left; left; now split|right; now exists r'].
    + split.
      * intros [H|(r' & Hin & H)]; [now left|right; exists r'; cbn; tauto].
      * intros [H|(r' & [<-|Hin] & Hi & E)];
          [now left|congruence|right; now exists r'].
Qed.

Lemma index_membership (products : list record) (k : string) :
  (exists u, get (Dashboard.processProductData products) k = Some u)
  <-> exists product,
        In product products /\ indexable product
        /\ to_string (Dashboard.productName product) = k /\ k <> "__proto__".
Proof.
  pose proof (assigned_keys
                (fun p => truthy (Dashboard.productName p)
                          && negb (isNaN (Dashboard.unitsPerCaseOf p))
                          && gtb (Dashboard.unitsPerCaseOf p) zero)
                (fun p => to_string (Dashboard.productName p))
                Dashboard.unitsPerCaseOf products [] k) as H.
  unfold Dashboard.processProductData.
  change (fold_left Dashboard.addProduct products [])
    with (fold_left
            (fun o p =>
               if truthy (Dashboard.productName p)
                  && negb (isNaN (Dashboard.unitsPerCaseOf p))
                  && gtb (Dashboard.unitsPerCaseOf p) zero
               then assign o (to_string (Dashboard.productName p))
                      (Dashboard.unitsPerCaseOf p)
               else o) products []).
  rewrite H. split.
  - intros [[u Hu]|(p & Hin & Ha & Hk)]; [discriminate|].
    exists p. split; [exact Hin|]. split; [now apply indexable_iff|exact Hk].
  - intros (p & Hin & Hp & Hk). right. exists p.
    split; [exact Hin|]. split; [now apply indexable_iff|exact Hk].
Qed.



End ProductIndex.

(** * The composer *)

Section Composer.
Context {host : Host}.

(** In the variant with the error boundary the weeks of the result are
    the union of the weeks of the three aggregates, each once, in the
    order of (year, week), and the two weekly series have one entry per
    week in that order. *)
Lemma weeks_sorted_union (products salesOrders purchaseOrders clocks : list record)
  (m : Dashboard.metrics) :
  Dashboard.calculateMetrics products salesOrders purchaseOrders clocks
  = Returned m ->
  NoDup (Dashboard.weeks m)
  /\ (forall k, In k (Dashboard.weeks m)
                <-> In k (keys (salesTotals products salesOrders))
                    \/ In k (keys (purchaseTotals products purchaseOrders))
                    \/ In k (keys (laborTotals clocks)))
  /\ StronglySorted week_le (Dashboard.weeks m)
  /\ map Dashboard.week (Dashboard.casesPerLaborHour m) = Dashboard.weeks m
  /\ map Dashboard.wd_week (Dashboard.salesAndPOByWeek m) = Dashboard.weeks m.
Proof.
  intros H. apply calculateMetrics_Returned in H as (Hw & Hc & Hf & _).
  cbv zeta in *.
  destruct (aggregates_invariant products salesOrders purchaseOrders clocks)
    as ((Ks & _ & _) & _ & (Kp & _ & _) & (Kl & _ & _)).
  assert (Hn : NoDup (Dashboard.weeks m)) by (rewrite Hw; apply allWeeksOf_NoDup).
  assert (Hk : Forall week_key (Dashboard.weeks m))
    by (rewrite Hw; now apply allWeeksOf_week_keys).
  repeat split.
  - exact Hn.
  - rewrite Hw. apply allWeeksOf_In.
  - rewrite Hw. apply allWeeksOf_In.
  - rewrite Hw. now apply allWeeksOf_sorted.
  - rewrite Hc, buildCasesPerLaborHour_entries, map_map by assumption.
    apply map_id.
  - rewrite Hf, map_map. apply map_id.
Qed.

(** C3 (defect of the code, plain variant).  The plain variant takes the
    weeks from the sales and purchase totals alone: with a sale in week 2
    and hours clocked in week 3 of 2024, its weeks are week 2 only, and
    the week that has labor data alone is missing from its output.  The
    variant with the error boundary gives both weeks. *)
Theorem plain_variant_drops_labor_only_week :
  DashboardPlain.weeks
    (DashboardPlain.calculateMetrics (host := reference_host)
       [widget 10] [saleTo "Acme" 100 "2024-01-08"] [] [clockIn "2024-01-15" 5])
  = ["2024-W02"]
  /\ keys (Dashboard.processClockData (host := reference_host)
             [clockIn "2024-01-15" 5])
     = ["2024-W03"]
  /\ exists m,
       Dashboard.calculateMetrics (host := reference_host)
         [widget 10] [saleTo "Acme" 100 "2024-01-08"] [] [clockIn "2024-01-15" 5]
       = Returned m
       /\ Dashboard.weeks m = ["2024-W02"; "2024-W03"].
Proof.
  split; [now vm_compute|]. split; [now vm_compute|].
  eexists. split; [vm_compute; reflexivity|reflexivity].
Qed.

(** C9.  Every week entry of the result obeys the efficiency rule: with
    labor hours above zero the ratio is (received + shipped) / hours; with
    labor hours equal to 0 the ratio is 0 and nothing is divided; one of
    the two is the case; and the ratio is a rational, neither an infinity
    nor [NaN]. *)
Theorem efficiency_guarded (products salesOrders purchaseOrders clocks : list record)
  (m : Dashboard.metrics) :
  Dashboard.calculateMetrics products salesOrders purchaseOrders clocks
  = Returned m ->
  Forall efficiency_rule (Dashboard.casesPerLaborHour m).
Proof.
  intros H. apply calculateMetrics_Returned in H as (_ & Hc & _).
  cbv zeta in Hc. rewrite Hc.
  destruct (aggregates_invariant products salesOrders purchaseOrders clocks)
    as ((_ & Vs & _) & _ & (_ & Vp & _) & (_ & Vl & _)).
  apply values_all. unfold Dashboard.buildCasesPerLaborHour.
  apply fold_set_all_values; [|constructor].
  intros week _. now apply metricsOfWeek_rule.
Qed.

End Composer.

(** * Stores *)

Section Stores.
Context {host : Host}.




End Stores.

(** * The statements at sample tables *)

Section Samples.
#[local] Existing Instance reference_host.

(** A quantity of 7.5 units at 10 units per case adds 7 / 10 of a case,
    not 7.5 / 10, and a quantity of 0.5 units is skipped, although both
    are numbers above zero on a product of the index with a date. *)
Lemma fractional_quantity_truncated :
  passes_validation dozen (VStr "Widget") (Fin (15 # 2)) (VStr "2024-01-08")
    (15 # 2) 12 "2024-W02"
  /\ rowQuantityField SalesOrders (fractionalSale (15 # 2) "2024-01-08")
     = VNum (Fin (15 # 2))
  /\ get (weekTotalsAfter SalesOrders dozen [] []
            (fractionalSale (15 # 2) "2024-01-08")) "2024-W02"
     = Some (add zero (Fin (7 / 12)))
  /\ ~ (7 / 12 == (15 # 2) / 12)%Q
  /\ weekTotalsAfter SalesOrders dozen [] [] (fractionalSale (1 # 2) "2024-01-08")
     = [].
Proof.
  split; [repeat split; vm_compute; reflexivity|].
  split; [reflexivity|]. split; [vm_compute; reflexivity|].
  split; [intros H; vm_compute in H; discriminate|].
  vm_compute. reflexivity.
Qed.

(** 36 units of a product of 12 units per case, delivered on Monday
    8 January 2024, add exactly 36 / 12 = 3 cases to week 2 of 2024. *)
Lemma cases_contributed_sample :
  accepted dozen SalesOrders (saleTo "Acme" 36 "2024-01-08") 36 12 "2024-W02"
  /\ get (weekTotalsAfter SalesOrders dozen [] [] (saleTo "Acme" 36 "2024-01-08"))
       "2024-W02"
     = Some (add zero (Fin (inject_Z 36 / inject_Z 12)))
  /\ (inject_Z 36 / inject_Z 12 == 3)%Q.
Proof.
  assert (H : accepted dozen SalesOrders (saleTo "Acme" 36 "2024-01-08")
                36 12 "2024-W02").
  { repeat split; vm_compute; reflexivity. }
  split; [exact H|]. split; [|vm_compute; reflexivity].
  exact (proj1 (cases_contributed SalesOrders dozen [] []
                  (saleTo "Acme" 36 "2024-01-08") 36 12 "2024-W02" H)).
Defined.

(** A sale of 36 units without a store, on the same day, goes to the store
    "Unknown". *)
Lemma sale_without_store_sample :
  store_absent (anonymousSale 36 "2024-01-08")
  /\ In "Unknown"
       (keys (Dashboard.salesByStoreAndWeek
                (Dashboard.addSalesOrder dozen
                   {| Dashboard.salesByWeek := [];
                      Dashboard.salesByStoreAndWeek := [] |}
                   (anonymousSale 36 "2024-01-08")))).
Proof.
  assert (Ha : store_absent (anonymousSale 36 "2024-01-08")).
  { repeat split; vm_compute; reflexivity. }
  assert (H : passes_validation dozen
                (Dashboard.orderProduct (anonymousSale 36 "2024-01-08"))
                (Dashboard.orderQuantity (anonymousSale 36 "2024-01-08"))
                (Dashboard.orderDeliveryDate (anonymousSale 36 "2024-01-08"))
                36 12 "2024-W02").
  { repeat split; vm_compute; reflexivity. }
  split; [exact Ha|].
  exact (proj2 (proj2 (sale_without_store_goes_to_Unknown dozen
                         {| Dashboard.salesByWeek := [];
                            Dashboard.salesByStoreAndWeek := [] |}
                         (anonymousSale 36 "2024-01-08") 36 12 "2024-W02" Ha H))).
Defined.

(** A week with 5 received cases and no labor hours has efficiency 0. *)
Lemma efficiency_guarded_sample :
  exists m,
    Dashboard.calculateMetrics [widget 10] [] [purchase 50 "2024-01-08"] []
    = Returned m
    /\ Forall efficiency_rule (Dashboard.casesPerLaborHour m)
    /\ map (fun e => (Dashboard.week e, Dashboard.laborHours e,
                      Dashboard.totalCasesPerLaborHour e))
         (Dashboard.casesPerLaborHour m)
       = [("2024-W02", zero, zero)]
    /\ Forall (fun e => exists r, Dashboard.receivedCases e = Fin r /\ (r == 5)%Q)
         (Dashboard.casesPerLaborHour m).
Proof.
  eexists. split; [vm_compute; reflexivity|]. split.
  - apply (efficiency_guarded [widget 10] [] [purchase 50 "2024-01-08"] []).
    vm_compute. reflexivity.
  - split; [reflexivity|]. repeat constructor. eexists. split; [reflexivity|].
    vm_compute. reflexivity.
Defined.







End Samples.

(** * Further properties of the aggregation *)

(** ** Buckets as sums of contributions *)

Module CoverageFacts.
Import Coverage.

Lemma value_or_zero_get o k : value_or_zero (get o k) = get_or_zero o k.
Proof. reflexivity. Qed.

Lemma value_or_zero_positive bucket :
  (forall v, bucket = Some v -> positive v) ->
  value_or_zero bucket = zero \/ positive (value_or_zero bucket).
Proof.
  intros H. destruct bucket as [v|]; [|now left]. cbn.
  destruct (num_truthy v); [right; now apply H|now left].
Qed.

Lemma fold_add_positive cs : forall init,
  positive init -> Forall positive cs -> positive (fold_left add cs init).
Proof.
  induction cs as [|c cs IH]; intros init Hi Hc; [exact Hi|].
  inversion Hc; subst. cbn [fold_left]. apply IH; [|assumption].
  apply add_positive; [now right|assumption].
Qed.

(** A state that is read at one bucket, and rows that each add a positive
    amount to that bucket or leave it as it is; [ok] tells the rows of
    which this is known. *)
Section Accumulation.
Context {T R : Type} (step : T -> R -> T) (look : T -> option num)
  (share : R -> list num) (ok : R -> Prop).
Hypothesis share_positive : forall r, ok r -> Forall positive (share r).
Hypothesis share_single : forall r, (List.length (share r) <= 1)%nat.
Hypothesis look_step : forall t r,
  ok r ->
  look (step t r)
  = match share r with
    | [] => look t
    | c :: _ => Some (add (value_or_zero (look t)) c)
    end.

Lemma accumulation_positive rows : Forall ok rows -> forall t,
  (forall v, look t = Some v -> positive v) ->
  forall v, look (fold_left step rows t) = Some v -> positive v.
Proof.
  induction 1 as [|r rows Hr Hrows IH]; intros t Ht; [exact Ht|].
  cbn [fold_left]. apply IH. intros v. rewrite (look_step _ _ Hr).
  pose proof (share_positive r Hr) as Hp.
  destruct (share r) as [|c cs]; [apply Ht|].
  intros [= <-]. inversion Hp; subst.
  apply add_positive; [now apply value_or_zero_positive|assumption].
Qed.

Lemma accumulation_sum rows : Forall ok rows -> forall t,
  (forall v, look t = Some v -> positive v) ->
  look (fold_left step rows t)
  = match flat_map share rows with
    | [] => look t
    | cs => Some (fold_left add cs (value_or_zero (look t)))
    end.
Proof.
  induction 1 as [|r rows Hr Hrows IH]; intros t Ht; [reflexivity|].
  cbn [fold_left flat_map].
  assert (Ht' : forall v, look (step t r) = Some v -> positive v).
  { apply (accumulation_positive [r] (Forall_cons r Hr (Forall_nil ok)) t Ht). }
  rewrite (IH _ Ht'), (look_step _ _ Hr).
  pose proof (share_positive r Hr) as Hp. pose proof (share_single r) as Hs.
  destruct (share r) as [|c [|c' cs]]; cbn [app List.length] in *; [reflexivity| |lia].
  inversion Hp; subst.
  assert (Hc : value_or_zero (Some (add (value_or_zero (look t)) c))
               = add (value_or_zero (look t)) c).
  { cbn [value_or_zero]. rewrite positive_truthy; [reflexivity|].
    apply add_positive; [now apply value_or_zero_positive|assumption]. }
  rewrite Hc. now destruct (flat_map share rows).
Qed.

End Accumulation.

Lemma weekShare_single week c : (List.length (weekShare week c) <= 1)%nat.
Proof.
  destruct c as [[w x]|]; cbn; [|lia]. destruct (String.eqb w week); cbn; lia.
Qed.

Lemma weekShare_positive week c :
  (forall w x, c = Some (w, x) -> positive x) -> Forall positive (weekShare week c).
Proof.
  intros H. destruct c as [[w x]|]; cbn; [|constructor].
  destruct (String.eqb w week); repeat constructor. now apply (H w).
Qed.

(** A row's contribution and the step of the aggregator. *)
Lemma look_accumulate o week c :
  get (match c with Some (w, x) => accumulate o w x | None => o end) week
  = match weekShare week c with
    | [] => get o week
    | x :: _ => Some (add (value_or_zero (get o week)) x)
    end.
Proof.
  destruct c as [[w x]|]; cbn [weekShare]; [|reflexivity].
  destruct (String.eqb_spec w week) as [->|Hw].
  - apply accumulate_get_same.
  - now apply accumulate_get_other.
Qed.

Section WithHost.
Context {host : Host}.

Lemma addClock_contribution o clock :
  Dashboard.addClock o clock
  = match clockContribution clock with
    | Some (w, x) => accumulate o w x
    | None => o
    end.
Proof.
  unfold Dashboard.addClock, clockContribution.
  destruct (_ || _ || _); [reflexivity|].
  destruct (Dashboard.getWeekNumber _) as [week|]; [|reflexivity].
  now destruct (negb (str_truthy week)).
Qed.

(** The cases of a row that reads its units per case on the index itself
    are a rational above zero. *)
Lemma weekAndCases_positive productMap product quantity date week cases :
  all_values positive_integer productMap ->
  (quantity = NaN \/ exists z, quantity = of_Z z) ->
  reads_prototype productMap (to_string product) = false ->
  Dashboard.weekAndCases productMap product quantity date = Some (week, cases) ->
  exists q, cases = Fin q /\ (0 < q)%Q.
Proof.
  intros Hm Hq Hr H.
  destruct (weekAndCases_own _ _ _ _ _ _ Hm Hq Hr H) as (q & u & _ & -> & Hp).
  now eexists.
Qed.

Lemma salesContribution_positive productMap order week cases :
  all_values positive_integer productMap ->
  reads_prototype productMap (to_string (Dashboard.orderProduct order)) = false ->
  salesContribution productMap order = Some (week, cases) -> positive cases.
Proof.
  intros Hm Hr H.
  destruct (weekAndCases_positive _ _ _ _ _ _ Hm (orderQuantity_cases order) Hr H)
    as (q & -> & Hq).
  exact Hq.
Qed.

Lemma purchaseContribution_positive productMap po week cases :
  all_values positive_integer productMap ->
  reads_prototype productMap (to_string (Dashboard.poProduct po)) = false ->
  purchaseContribution productMap po = Some (week, cases) -> positive cases.
Proof.
  intros Hm Hr H.
  destruct (weekAndCases_positive _ _ _ _ _ _ Hm (poQuantity_cases po) Hr H)
    as (q & -> & Hq).
  exact Hq.
Qed.

Lemma clockContribution_positive clock week hours :
  clockContribution clock = Some (week, hours) -> positive hours.
Proof.
  unfold clockContribution.
  destruct (truthy _); cbn [negb orb]; [|discriminate].
  destruct (isNaN _) eqn:En; cbn [orb]; [discriminate|].
  destruct (leb _ zero) eqn:El; [discriminate|].
  destruct (Dashboard.getWeekNumber _) as [w|]; [|discriminate].
  destruct (negb (str_truthy w)); [discriminate|].
  intros [= <- <-]. now apply not_le_zero_positive.
Qed.

End WithHost.

End CoverageFacts.

(** ** What the aggregates hold *)

Import Coverage CoverageFacts.

Section Buckets.
Context {host : Host}.

Lemma positive_rational_add o k x :
  all_values positive_rational o -> positive_rational x ->
  positive_rational (add (get_or_zero o k) x).
Proof.
  intros Ho (q & -> & Hq). unfold get_or_zero.
  destruct (get o k) as [v|] eqn:E.
  - destruct (get_all_values _ _ _ _ Ho E) as (y & -> & Hy).
    cbn [num_truthy]. rewrite (q_is_zero_pos y Hy). cbn [negb add].
    eexists. split; [reflexivity|lra].
  - cbn [add zero]. eexists. split; [reflexivity|lra].
Qed.

Lemma accumulate_positive_rational o week cases :
  all_values positive_rational o -> positive_rational cases ->
  all_values positive_rational (accumulate o week cases).
Proof.
  intros Ho Hc. apply accumulate_all_values; [|exact Ho].
  now apply positive_rational_add.
Qed.

Lemma accumulate_in_positive_rational o store week cases :
  all_values (all_values positive_rational) o -> positive_rational cases ->
  all_values (all_values positive_rational) (accumulate_in o store week cases).
Proof.
  intros Ho Hc.
  destruct (accumulate_in_cases o store week cases) as [(_ & _ & ->)| ->];
    [exact Ho|].
  apply set_all_values; [|exact Ho].
  apply accumulate_positive_rational; [|exact Hc].
  unfold inner_of. destruct (get o store) as [i|] eqn:E; [|constructor].
  exact (get_all_values _ _ _ _ Ho E).
Qed.

(** X1.  When no sales or purchase row meets a member of
    [Object.prototype], no aggregate holds a bucket that is zero,
    negative or not a number: every week total of sales and of purchases
    and every total of a store in a week is a rational above zero, and
    every total of labor hours is positive.  So a week or a store is a key
    only when a row was added to it, and the test
    [if (!bucket) bucket = 0] never resets a total. *)
Theorem buckets_are_positive (products salesOrders purchaseOrders clocks : list record) :
  ordinary_rows (Dashboard.processProductData products) salesOrders
    purchaseOrders ->
  all_values positive_rational (salesTotals products salesOrders)
  /\ all_values (all_values positive_rational) (storeWeekTotals products salesOrders)
  /\ all_values positive_rational (purchaseTotals products purchaseOrders)
  /\ all_values positive (laborTotals clocks).
Proof.
  intros (Hos & _ & Hop).
  pose proof (productMap_positive products) as Hm.
  assert (Hs : all_values positive_rational (salesTotals products salesOrders)
               /\ all_values (all_values positive_rational)
                    (storeWeekTotals products salesOrders)).
  { unfold salesTotals, storeWeekTotals, Dashboard.processSalesData.
    apply (fold_left_invariant_in
             (fun s => all_values positive_rational (Dashboard.salesByWeek s)
                       /\ all_values (all_values positive_rational)
                            (Dashboard.salesByStoreAndWeek s))
             (fun row =>
                reads_prototype (Dashboard.processProductData products)
                  (to_string (Dashboard.orderProduct row)) = false));
      [split; constructor|exact Hos|].
    intros acc order [H1 H2] Hr. unfold Dashboard.addSalesOrder.
    destruct (Dashboard.weekAndCases _ _ _ _) as [[week cases]|] eqn:E;
      [|now split].
    apply weekAndCases_positive in E;
      [|assumption|apply orderQuantity_cases|assumption].
    cbn [Dashboard.salesByWeek Dashboard.salesByStoreAndWeek]. split.
    + now apply accumulate_positive_rational.
    + now apply accumulate_in_positive_rational. }
  destruct Hs as [H1 H2]. repeat split; try assumption.
  - unfold purchaseTotals, Dashboard.processPurchaseData.
    apply (fold_left_invariant_in (all_values positive_rational)
             (fun row =>
                reads_prototype (Dashboard.processProductData products)
                  (to_string (Dashboard.poProduct row)) = false));
      [constructor|exact Hop|].
    intros acc po H Hr. unfold Dashboard.addPurchaseOrder.
    destruct (Dashboard.weekAndCases _ _ _ _) as [[week cases]|] eqn:E;
      [|assumption].
    apply weekAndCases_positive in E;
      [|assumption|apply poQuantity_cases|assumption].
    now apply accumulate_positive_rational.
  - apply processClockData_invariant.
Qed.

Lemma sales_bucket_sum (productMap : obj num) (salesOrders : list record)
  (week : string) :
  all_values positive_integer productMap ->
  own_products productMap Dashboard.orderProduct salesOrders ->
  get (Dashboard.salesByWeek (Dashboard.processSalesData salesOrders productMap))
    week
  = sum_or_absent
      (flat_map (fun r => weekShare week (salesContribution productMap r))
         salesOrders).
Proof.
  intros Hm Ho. unfold Dashboard.processSalesData.
  refine (eq_trans (accumulation_sum (Dashboard.addSalesOrder productMap)
           (fun s => get (Dashboard.salesByWeek s) week)
           (fun r => weekShare week (salesContribution productMap r))
           (fun r => reads_prototype productMap
                       (to_string (Dashboard.orderProduct r)) = false)
           _ _ _ salesOrders Ho _ _) _).
  - intros r Hr. apply weekShare_positive. intros w x.
    now apply salesContribution_positive.
  - intros r. apply weekShare_single.
  - intros t r _. unfold Dashboard.addSalesOrder.
    fold (salesContribution productMap r).
    rewrite <- look_accumulate.
    now destruct (salesContribution productMap r) as [[w x]|].
  - discriminate.
  - now destruct (flat_map _ _).
Qed.

Lemma store_bucket_sum (productMap : obj num) (salesOrders : list record)
  (store week : string) :
  all_values positive_integer productMap ->
  own_products productMap Dashboard.orderProduct salesOrders ->
  own_customers salesOrders ->
  get (inner_of (Dashboard.salesByStoreAndWeek
                   (Dashboard.processSalesData salesOrders productMap)) store)
    week
  = sum_or_absent (flat_map (storeWeekShare productMap store week) salesOrders).
Proof.
  intros Hm Ho Hc. unfold Dashboard.processSalesData.
  assert (Hok : Forall
                  (fun r =>
                     reads_prototype productMap
                       (to_string (Dashboard.orderProduct r)) = false
                     /\ inherited (to_string (Dashboard.orderCustomer r)) = false)
                  salesOrders).
  { unfold own_products, own_customers in *. rewrite Forall_forall in *.
    intros r Hin. split; [now apply Ho|now apply Hc]. }
  refine (eq_trans (accumulation_sum (Dashboard.addSalesOrder productMap)
           (fun s => get (inner_of (Dashboard.salesByStoreAndWeek s) store) week)
           (storeWeekShare productMap store week)
           _ _ _ _ salesOrders Hok _ _) _).
  - intros r [Hr _]. unfold storeWeekShare.
    destruct (String.eqb _ store); [|constructor].
    apply weekShare_positive. intros w x. now apply salesContribution_positive.
  - intros r. unfold storeWeekShare. destruct (String.eqb _ store); [|cbn; lia].
    apply weekShare_single.
  - intros t r [_ Hr]. unfold Dashboard.addSalesOrder, storeWeekShare.
    fold (salesContribution productMap r).
    destruct (salesContribution productMap r) as [[w x]|];
      [|now destruct (String.eqb _ store)].
    cbn [Dashboard.salesByStoreAndWeek].
    rewrite (accumulate_in_plain _ _ _ _ Hr).
    destruct (String.eqb_spec (to_string (Dashboard.orderCustomer r)) store)
      as [->|Hs].
    + unfold inner_of at 1. rewrite get_set_same.
      apply (look_accumulate _ week (Some (w, x))).
    + unfold inner_of at 1. now rewrite get_set_other.
  - discriminate.
  - now destruct (flat_map _ _).
Qed.

Lemma purchase_bucket_sum (productMap : obj num) (purchaseOrders : list record)
  (week : string) :
  all_values positive_integer productMap ->
  own_products productMap Dashboard.poProduct purchaseOrders ->
  get (Dashboard.processPurchaseData purchaseOrders productMap) week
  = sum_or_absent
      (flat_map (fun r => weekShare week (purchaseContribution productMap r))
         purchaseOrders).
Proof.
  intros Hm Ho. unfold Dashboard.processPurchaseData.
  refine (eq_trans (accumulation_sum (Dashboard.addPurchaseOrder productMap)
           (fun o => get o week)
           (fun r => weekShare week (purchaseContribution productMap r))
           (fun r => reads_prototype productMap
                       (to_string (Dashboard.poProduct r)) = false)
           _ _ _ purchaseOrders Ho _ _) _).
  - intros r Hr. apply weekShare_positive. intros w x.
    now apply purchaseContribution_positive.
  - intros r. apply weekShare_single.
  - intros t r _. unfold Dashboard.addPurchaseOrder.
    fold (purchaseContribution productMap r).
    rewrite <- look_accumulate.
    now destruct (purchaseContribution productMap r) as [[w x]|].
  - discriminate.
  - now destruct (flat_map _ _).
Qed.

Lemma labor_bucket_sum (clocks : list record) (week : string) :
  get (Dashboard.processClockData clocks) week
  = sum_or_absent
      (flat_map (fun r => weekShare week (clockContribution r)) clocks).
Proof.
  unfold Dashboard.processClockData.
  refine (eq_trans (accumulation_sum Dashboard.addClock (fun o => get o week)
           (fun r => weekShare week (clockContribution r)) (fun _ => True)
           _ _ _ clocks _ _ _) _).
  - intros r _. apply weekShare_positive. intros w x.
    apply clockContribution_positive.
  - intros r. apply weekShare_single.
  - intros t r _. rewrite addClock_contribution. apply look_accumulate.
  - apply Forall_forall. intros; exact I.
  - discriminate.
  - now destruct (flat_map _ _).
Qed.

(** X2.  When no sales or purchase row meets a member of
    [Object.prototype], each bucket is the sum, from 0 and in the order of
    the rows, of what the accepted rows of its week add: the cases of the
    sales rows of the week, the cases of the sales rows of the week and
    the store, the cases of the purchase rows of the week, the hours of
    the clock rows of the week.  A week, or a store in a week, without
    such a row has no bucket. *)
Theorem buckets_are_sums (products salesOrders purchaseOrders clocks : list record)
  (week store : string) :
  let productMap := Dashboard.processProductData products in
  ordinary_rows productMap salesOrders purchaseOrders ->
  get (salesTotals products salesOrders) week
  = sum_or_absent
      (flat_map (fun r => weekShare week (salesContribution productMap r))
         salesOrders)
  /\ get (inner_of (storeWeekTotals products salesOrders) store) week
     = sum_or_absent (flat_map (storeWeekShare productMap store week) salesOrders)
  /\ get (purchaseTotals products purchaseOrders) week
     = sum_or_absent
         (flat_map (fun r => weekShare week (purchaseContribution productMap r))
            purchaseOrders)
  /\ get (laborTotals clocks) week
     = sum_or_absent
         (flat_map (fun r => weekShare week (clockContribution r)) clocks).
Proof.
  cbv zeta. intros (Hos & Hc & Hop).
  pose proof (productMap_positive products) as Hm.
  repeat split.
  - now apply sales_bucket_sum.
  - now apply store_bucket_sum.
  - now apply purchase_bucket_sum.
  - apply labor_bucket_sum.
Qed.

End Buckets.

(** ** The week key *)

Section WeekKeys.
Context {host : Host}.

Lemma split_chars_length (s : string) :
  List.length (split_chars dash_or_slash s) = S (separators s).
Proof.
  induction s as [|c s IH]; [reflexivity|].
  cbn [split_chars separators]. destruct (dash_or_slash c).
  - cbn [List.length]. now rewrite IH.
  - destruct (split_chars dash_or_slash s); [discriminate|exact IH].
Qed.

(** X3.  A key the normaliser returns reads back as the date it was made
    from: the split on [-W] and the [parseInt] the sort uses give the
    calendar year and the ISO week of that date.  The key is not empty and
    is not an array index, so [Object.keys] lists it in insertion order. *)
Theorem week_key_reads_back (dateStr : value) (k : string) :
  Dashboard.getWeekNumber dateStr = Some k ->
  exists t,
    Dashboard.parsedDate dateStr = Some (Some t)
    /\ key_year k = of_Z (YearFromTime t)
    /\ key_week k = of_Z (isoWeekOfTime t)
    /\ str_truthy k = true
    /\ array_index k = None.
Proof.
  intros H. destruct (getWeekNumber_key dateStr k H) as (t & Ht & ->).
  exists t. split; [exact Ht|].
  split; [apply key_year_weekKey|]. split; [apply key_week_weekKey|].
  split; [apply weekKey_truthy|apply weekKey_not_index].
Qed.

(** X4.  On two keys the normaliser returned, the comparison of the sort
    is positive exactly when the first key's (calendar year, ISO week) is
    after the second's, and two dates get the same key exactly when they
    agree on both. *)
Theorem week_keys_compare_by_year_then_week (a b : value) (ka kb : string) :
  Dashboard.getWeekNumber a = Some ka ->
  Dashboard.getWeekNumber b = Some kb ->
  exists ta tb,
    Dashboard.parsedDate a = Some (Some ta)
    /\ Dashboard.parsedDate b = Some (Some tb)
    /\ (gtb (compareWeeks ka kb) zero = true
        <-> YearFromTime tb < YearFromTime ta
            \/ (YearFromTime ta = YearFromTime tb
                /\ isoWeekOfTime tb < isoWeekOfTime ta))
    /\ (ka = kb
        <-> YearFromTime ta = YearFromTime tb
            /\ isoWeekOfTime ta = isoWeekOfTime tb).
Proof.
  intros Ha Hb.
  destruct (getWeekNumber_key a ka Ha) as (ta & Hta & ->).
  destruct (getWeekNumber_key b kb Hb) as (tb & Htb & ->).
  exists ta, tb. split; [exact Hta|]. split; [exact Htb|]. split.
  - rewrite compareWeeks_weekKey.
    destruct (Z.eqb_spec (YearFromTime ta) (YearFromTime tb)) as [E|E];
      rewrite gtb_sub_of_Z, Z.ltb_lt; lia.
  - split.
    + apply weekKey_inj.
    + now intros [-> ->].
Qed.

(** X5.  A text that [parseISO] rejects and that does not hold exactly two
    of the separators [-] and [/] has no week key: the normaliser returns
    [null]. *)
Theorem week_key_needs_three_pieces (s : string) :
  isValid (parseISO s) = false ->
  separators s <> 2%nat ->
  Dashboard.getWeekNumber (VStr s) = None.
Proof.
  intros Hv Hn. unfold Dashboard.getWeekNumber, Dashboard.parsedDate.
  rewrite Hv. cbn [negb].
  pose proof (split_chars_length s) as Hl.
  destruct (split_chars dash_or_slash s) as [|p0 [|p1 [|p2 [|p3 l]]]];
    try (now rewrite Hv).
  cbn [List.length] in Hl. congruence.
Qed.

End WeekKeys.

(** ** The index and the rows it admits *)

Section IndexAndRows.
Context {host : Host}.

(** X6.  The index gives a name other than ["__proto__"] the units per
    case of the last catalog row that could be indexed under it: rows that
    could not be indexed do not hide an earlier one, a later row that
    could replaces it.  The units found are a positive integer.  The name
    ["__proto__"] is never an own key of the index. *)
Theorem index_keeps_last_row (products : list record) (k : string) (u : num) :
  (get (Dashboard.processProductData products) k = Some u
   <-> k <> "__proto__"
       /\ exists before p after,
            products = (before ++ p :: after)%list
            /\ indexable p
            /\ to_string (Dashboard.productName p) = k
            /\ Dashboard.unitsPerCaseOf p = u
            /\ forall p', In p' after -> indexable p' ->
                          to_string (Dashboard.productName p') <> k)
  /\ (get (Dashboard.processProductData products) k = Some u ->
      positive_integer u)
  /\ get (Dashboard.processProductData products) "__proto__" = None.
Proof.
  assert (Hproto : get (Dashboard.processProductData products) "__proto__" = None).
  { destruct (get _ "__proto__") as [v|] eqn:E; [|reflexivity].
    assert (H : exists v, get (Dashboard.processProductData products)
                            "__proto__" = Some v) by now exists v.
    apply (proj1 (index_membership products "__proto__")) in H.
    destruct H as (p & _ & _ & _ & H). now destruct H. }
  split; [|split; [|exact Hproto]].
  2:{ intros H. exact (get_all_values _ _ _ _ (productMap_positive products) H). }
  clear Hproto. unfold Dashboard.processProductData.
  induction products as [|x l IH] using rev_ind.
  - split; [discriminate|].
    intros (_ & before & p & after & E & _). now destruct before.
  - rewrite fold_left_app. cbn [fold_left].
    assert (Hlast : forall before p after,
               (l ++ [x])%list = (before ++ p :: after)%list ->
               (after = [] /\ l = before /\ x = p)
               \/ exists after', after = (after' ++ [x])%list
                                 /\ l = (before ++ p :: after')%list).
    { intros before p after E.
      destruct after as [|a after _] using rev_ind.
      - left. apply app_inj_tail in E. now destruct E.
      - right. exists after.
        change (before ++ p :: after ++ [a])%list
          with (before ++ (p :: after) ++ [a])%list in E.
        rewrite app_assoc in E. apply app_inj_tail in E.
        destruct E as [-> ->]. now split. }
    set (index := fold_left Dashboard.addProduct l []) in *.
    assert (Hkept :
              get (Dashboard.addProduct index x) k = get index k ->
              (indexable x -> to_string (Dashboard.productName x) = k ->
               k = "__proto__") ->
              get (Dashboard.addProduct index x) k = Some u
              <-> k <> "__proto__"
                  /\ exists before p after,
                       (l ++ [x])%list = (before ++ p :: after)%list
                       /\ indexable p
                       /\ to_string (Dashboard.productName p) = k
                       /\ Dashboard.unitsPerCaseOf p = u
                       /\ forall p', In p' after -> indexable p' ->
                                     to_string (Dashboard.productName p') <> k).
    { intros Hsame Hx. rewrite Hsame, IH. split.
      - intros (Hk & before & p & after & -> & Hp & Hn & Hu & Hafter).
        split; [exact Hk|]. exists before, p, (after ++ [x])%list.
        split; [now rewrite <- app_assoc|]. split; [assumption|].
        split; [assumption|]. split; [assumption|].
        intros p' Hin Hp' Hn'. apply in_app_or in Hin.
        destruct Hin as [Hin|[<-|[]]]; [now apply (Hafter p')|].
        now apply Hk, Hx.
      - intros (Hk & before & p & after & E & Hp & Hn & Hu & Hafter).
        split; [exact Hk|].
        destruct (Hlast _ _ _ E) as [(_ & _ & ->)|(after' & -> & ->)];
          [now destruct Hk; apply Hx|].
        exists before, p, after'. split; [reflexivity|].
        split; [assumption|]. split; [assumption|]. split; [assumption|].
        intros p' Hin. apply Hafter, in_or_app. now left. }
    destruct (indexable_dec x) as [Hx|Hx].
    + destruct (string_dec (to_string (Dashboard.productName x)) k) as [Ek|Ek].
      * destruct (string_dec k "__proto__") as [Ep|Ep].
        -- apply Hkept; [|auto].
           rewrite (addProduct_indexable _ _ Hx), Ek, Ep. reflexivity.
        -- rewrite (addProduct_indexable _ _ Hx), Ek. unfold assign.
           rewrite (proj2 (String.eqb_neq k "__proto__") Ep), get_set_same.
           split.
           ++ intros [= <-]. split; [exact Ep|]. exists l, x, [].
              split; [reflexivity|]. split; [assumption|].
              split; [assumption|]. split; [reflexivity|]. intros p' [].
           ++ intros (_ & before & p & after & E & Hp & Hn & Hu & Hafter).
              destruct (Hlast _ _ _ E) as [(_ & _ & ->)|(after' & -> & _)].
              ** now rewrite Hu.
              ** exfalso. apply (Hafter x); [|assumption..].
                 apply in_or_app. right. now left.
      * apply Hkept; [|congruence].
        rewrite (addProduct_indexable _ _ Hx). unfold assign.
        destruct (String.eqb _ "__proto__"); [reflexivity|].
        now apply get_set_other.
    + apply Hkept; [|contradiction].
      now rewrite (addProduct_skipped _ _ Hx).
Qed.

(** X7.  A sales or purchase row that does not pass validation, and
    whose product is not read from [Object.prototype], changes nothing:
    the week totals, and for a sales row the totals by store, stay as
    they were. *)
Theorem unvalidated_row_changes_nothing (src : source) (products : list record)
  (totals : obj num) (stores : obj (obj num)) (row : record) :
  (forall q u week,
     ~ passes_validation (Dashboard.processProductData products)
         (rowProduct src row) (rowQuantity src row) (rowDate src row) q u week) ->
  reads_prototype (Dashboard.processProductData products)
    (to_string (rowProduct src row)) = false ->
  match src with
  | SalesOrders =>
      Dashboard.addSalesOrder (Dashboard.processProductData products)
        {| Dashboard.salesByWeek := totals;
           Dashboard.salesByStoreAndWeek := stores |} row
      = {| Dashboard.salesByWeek := totals;
           Dashboard.salesByStoreAndWeek := stores |}
  | PurchaseOrders =>
      Dashboard.addPurchaseOrder (Dashboard.processProductData products)
        totals row
      = totals
  end.
Proof.
  intros H Hr. pose proof (productMap_positive products) as Hm.
  destruct src; cbn [rowProduct rowQuantity rowDate] in H, Hr.
  - unfold Dashboard.addSalesOrder.
    destruct (Dashboard.weekAndCases _ _ _ _) as [[week cases]|] eqn:E;
      [|reflexivity].
    apply weekAndCases_own in E as (q & u & E & _);
      [|assumption|apply orderQuantity_cases|assumption].
    now destruct (H q u week).
  - unfold Dashboard.addPurchaseOrder.
    destruct (Dashboard.weekAndCases _ _ _ _) as [[week cases]|] eqn:E;
      [|reflexivity].
    apply weekAndCases_own in E as (q & u & E & _);
      [|assumption|apply poQuantity_cases|assumption].
    now destruct (H q u week).
Qed.

(** X20.  A row whose product is not an own key of the index but is the
    name of a member of [Object.prototype] is not skipped: the member is
    truthy, the division gives [NaN], and the row adds [NaN] to the bucket
    of its week.  The bucket then holds [NaN], and the next row of the
    week restarts it from 0. *)
Theorem prototype_member_counts_as_product (productMap : obj num)
  (product : value) (quantity : num) (date : value) (week : string)
  (totals : obj num) (cases : num) :
  truthy product = true ->
  positive quantity ->
  truthy date = true ->
  Dashboard.getWeekNumber date = Some week ->
  reads_prototype productMap (to_string product) = true ->
  Dashboard.weekAndCases productMap product quantity date = Some (week, NaN)
  /\ get (accumulate totals week NaN) week = Some NaN
  /\ get (accumulate (accumulate totals week NaN) week cases) week
     = Some (add zero cases).
Proof.
  intros Hp Hq Hd Hw Hr.
  assert (Hf : lookup productMap (to_string product) = Inherited).
  { unfold reads_prototype in Hr.
    now destruct (lookup productMap (to_string product)). }
  split; [|split].
  - unfold Dashboard.weekAndCases. rewrite Hp, Hd, Hw, Hf.
    rewrite (positive_truthy _ Hq).
    assert (Hn : isNaN quantity = false) by now destruct quantity.
    assert (Hl : leb quantity zero = false).
    { pose proof (positive_gtb _ Hq) as Hg. unfold gtb in Hg.
      destruct quantity as [|[|]|q]; try easy. cbn in Hq |- *.
      now apply Qle_bool_false. }
    rewrite Hn, Hl. cbn [negb orb found_truthy found_number].
    destruct (getWeekNumber_week_key _ _ Hw) as (y & w & ->).
    rewrite weekKey_truthy. cbn [negb]. now destruct quantity.
  - rewrite accumulate_get_same. now destruct (get_or_zero totals week).
  - rewrite accumulate_get_same. unfold get_or_zero at 1.
    rewrite accumulate_get_same.
    now destruct (get_or_zero totals week).
Qed.

(** X21.  A sale whose store is named after a member of
    [Object.prototype] is counted in the week total, but the store never
    becomes a key of the totals by store: the member is truthy, so no
    property is created for it. *)
Theorem store_named_after_member_is_not_recorded (productMap : obj num)
  (acc : Dashboard.sales) (order : record) (q u : Q) (week : string) :
  passes_validation productMap (Dashboard.orderProduct order)
    (Dashboard.orderQuantity order) (Dashboard.orderDeliveryDate order) q u week ->
  inherited (to_string (Dashboard.orderCustomer order)) = true ->
  get (Dashboard.salesByStoreAndWeek acc)
    (to_string (Dashboard.orderCustomer order)) = None ->
  let acc' := Dashboard.addSalesOrder productMap acc order in
  get (Dashboard.salesByWeek acc') week
  = Some (add (get_or_zero (Dashboard.salesByWeek acc) week) (Fin (q / u)))
  /\ Dashboard.salesByStoreAndWeek acc' = Dashboard.salesByStoreAndWeek acc.
Proof.
  intros H Hi Hg. apply weekAndCases_valid in H. cbv zeta.
  unfold Dashboard.addSalesOrder. rewrite H.
  cbn [Dashboard.salesByWeek Dashboard.salesByStoreAndWeek].
  split; [apply accumulate_get_same|].
  unfold accumulate_in, lookup. now rewrite Hg, Hi.
Qed.

End IndexAndRows.

(** ** What the composer returns *)

Section Outcome.
Context {host : Host}.

Lemma keys_nil_iff {V : Type} (o : obj V) :
  keys o = [] <-> forall k, get o k = None.
Proof.
  split.
  - intros E k. apply get_None_iff. rewrite <- In_keys, E. intros [].
  - intros H. destruct (keys o) as [|k l] eqn:E; [reflexivity|].
    assert (Hin : In k (keys o)) by (rewrite E; now left).
    apply (proj1 (In_keys o k)) in Hin.
    apply (proj1 (get_In_iff o k)) in Hin. destruct Hin as [v Hv].
    now rewrite H in Hv.
Qed.

(** The weeks of an aggregate are the weeks of the rows that are not
    skipped. *)
Lemma accumulated_keys {R : Type} (contribution : R -> option (string * num))
  (rows : list R) : forall (init : obj num) k,
  In k (map fst
          (fold_left
             (fun o r => match contribution r with
                         | Some (w, x) => accumulate o w x
                         | None => o
                         end) rows init))
  <-> In k (map fst init)
      \/ exists r x, In r rows /\ contribution r = Some (k, x).
Proof.
  induction rows as [|r rows IH]; intros init k; cbn [fold_left].
  - split; [auto|]. intros [H|(r & x & [] & _)]. exact H.
  - rewrite IH. destruct (contribution r) as [[w x]|] eqn:E.
    + rewrite accumulate_fst. split.
      * intros [[->|H]|(r' & x' & Hin & H)].
        -- right. exists r, x. split; [now left|exact E].
        -- now left.
        -- right. exists r', x'. split; [now right|exact H].
      * intros [H|(r' & x' & [<-|Hin] & H)].
        -- left. now right.
        -- left. left. congruence.
        -- right. now exists r', x'.
    + split.
      * intros [H|(r' & x' & Hin & H)]; [now left|].
        right. exists r', x'. split; [now right|exact H].
      * intros [H|(r' & x' & [<-|Hin] & H)]; [now left|congruence|].
        right. now exists r', x'.
Qed.

Lemma salesByWeek_fold (productMap : obj num) (salesOrders : list record) :
  forall acc,
    Dashboard.salesByWeek
      (fold_left (Dashboard.addSalesOrder productMap) salesOrders acc)
    = fold_left
        (fun o r => match salesContribution productMap r with
                    | Some (w, x) => accumulate o w x
                    | None => o
                    end)
        salesOrders (Dashboard.salesByWeek acc).
Proof.
  induction salesOrders as [|r rows IH]; intros acc; [reflexivity|].
  cbn [fold_left]. rewrite IH. f_equal.
  unfold Dashboard.addSalesOrder. fold (salesContribution productMap r).
  now destruct (salesContribution productMap r) as [[w x]|].
Qed.

Lemma totals_empty_iff {R : Type} (contribution : R -> option (string * num))
  (rows : list R) :
  keys (fold_left
          (fun o r => match contribution r with
                      | Some (w, x) => accumulate o w x
                      | None => o
                      end) rows [])
  = []
  <-> forall r, In r rows -> contribution r = None.
Proof.
  rewrite keys_nil_iff. split.
  - intros E r Hin. destruct (contribution r) as [[w x]|] eqn:Ec; [|reflexivity].
    specialize (E w). apply get_None_iff in E. destruct E.
    apply accumulated_keys. right. now exists r, x.
  - intros E k. apply get_None_iff. intros Hin.
    apply accumulated_keys in Hin. destruct Hin as [[]|(r & x & Hin & Hc)].
    rewrite (E r Hin) in Hc. discriminate.
Qed.

Lemma index_empty_iff (products : list record) :
  keys (Dashboard.processProductData products) = []
  <-> forall p, In p products -> indexable p ->
                to_string (Dashboard.productName p) = "__proto__".
Proof.
  rewrite keys_nil_iff. split.
  - intros E p Hin Hp.
    destruct (string_dec (to_string (Dashboard.productName p)) "__proto__")
      as [Hk|Hk]; [exact Hk|].
    assert (H : exists u,
               get (Dashboard.processProductData products)
                 (to_string (Dashboard.productName p)) = Some u).
    { apply index_membership. now exists p. }
    destruct H as [u Hu]. now rewrite E in Hu.
  - intros H k. destruct (get _ k) as [u|] eqn:E; [|reflexivity].
    assert (Hex : exists u, get (Dashboard.processProductData products) k = Some u)
      by now exists u.
    apply (proj1 (index_membership products k)) in Hex.
    destruct Hex as (p & Hin & Hp & Hn & Hk).
    destruct Hk. rewrite <- Hn. now apply H.
Qed.

Lemma allWeeks_empty_iff (products salesOrders purchaseOrders clocks : list record) :
  Dashboard.allWeeksOf (salesTotals products salesOrders)
    (purchaseTotals products purchaseOrders) (laborTotals clocks) = []
  <-> no_row_counts (Dashboard.processProductData products)
        salesOrders purchaseOrders clocks.
Proof.
  assert (Hs : keys (salesTotals products salesOrders) = []
               <-> forall r, In r salesOrders ->
                             salesContribution
                               (Dashboard.processProductData products) r = None).
  { unfold salesTotals, Dashboard.processSalesData. rewrite salesByWeek_fold.
    apply totals_empty_iff. }
  assert (Hp : keys (purchaseTotals products purchaseOrders) = []
               <-> forall r, In r purchaseOrders ->
                             purchaseContribution
                               (Dashboard.processProductData products) r = None).
  { apply (totals_empty_iff
             (purchaseContribution (Dashboard.processProductData products))). }
  assert (Hl : keys (laborTotals clocks) = []
               <-> forall r, In r clocks -> clockContribution r = None).
  { unfold laborTotals, Dashboard.processClockData.
    rewrite <- (totals_empty_iff clockContribution clocks).
    assert (E : forall rows init,
               fold_left Dashboard.addClock rows init
               = fold_left
                   (fun o r => match clockContribution r with
                               | Some (w, x) => accumulate o w x
                               | None => o
                               end) rows init).
    { induction rows as [|r rows IH]; intros init; [reflexivity|].
      cbn [fold_left]. now rewrite IH, addClock_contribution. }
    now rewrite E. }
  unfold no_row_counts. rewrite <- Hs, <- Hp, <- Hl. split.
  - intros E.
    assert (H : forall k, ~ In k (keys (salesTotals products salesOrders))
                          /\ ~ In k (keys (purchaseTotals products purchaseOrders))
                          /\ ~ In k (keys (laborTotals clocks))).
    { intros k. pose proof (allWeeksOf_In (salesTotals products salesOrders)
                              (purchaseTotals products purchaseOrders)
                              (laborTotals clocks) k) as Hk.
      rewrite E in Hk. cbn [In] in Hk. tauto. }
    assert (Hnil : forall l : list string, (forall k, ~ In k l) -> l = []).
    { intros [|a l] Hn; [reflexivity|]. destruct (Hn a). now left. }
    repeat split; apply Hnil; intros k; apply (H k).
  - intros (E1 & E2 & E3).
    destruct (Dashboard.allWeeksOf _ _ _) as [|k l] eqn:E; [reflexivity|].
    assert (Hin : In k (Dashboard.allWeeksOf (salesTotals products salesOrders)
                          (purchaseTotals products purchaseOrders)
                          (laborTotals clocks))) by (rewrite E; now left).
    apply allWeeksOf_In in Hin. rewrite E1, E2, E3 in Hin. cbn [In] in Hin. tauto.
Qed.

Lemma some_or_no_row_counts (productMap : obj num)
  (salesOrders purchaseOrders clocks : list record) :
  (some_row_counts productMap salesOrders purchaseOrders clocks
   -> ~ no_row_counts productMap salesOrders purchaseOrders clocks)
  /\ (no_row_counts productMap salesOrders purchaseOrders clocks
      \/ some_row_counts productMap salesOrders purchaseOrders clocks).
Proof.
  assert (Hdec : forall (R : Type) (f : R -> option (string * num)) rows,
             (forall r, In r rows -> f r = None)
             \/ exists r, In r rows /\ f r <> None).
  { intros R f rows. induction rows as [|a rows [IH|(r & Hin & Hr)]].
    - left. intros r [].
    - destruct (f a) eqn:E.
      + right. exists a. split; [now left|]. now rewrite E.
      + left. intros r [<-|Hin]; [exact E|now apply IH].
    - right. exists r. split; [now right|exact Hr]. }
  split.
  - intros [(r & Hin & Hr)|[(r & Hin & Hr)|(r & Hin & Hr)]] (H1 & H2 & H3);
      apply Hr; auto.
  - unfold no_row_counts, some_row_counts.
    destruct (Hdec _ (salesContribution productMap) salesOrders) as [H1|H1];
      [|now right; left].
    destruct (Hdec _ (purchaseContribution productMap) purchaseOrders) as [H2|H2];
      [|now right; right; left].
    destruct (Hdec _ clockContribution clocks) as [H3|H3];
      [|now right; right; right].
    now left.
Qed.

(** X8.  For sales rows that name no store after a member of
    [Object.prototype], the composer fails in two cases only.  It throws
    'No valid products found' exactly when no catalog row can be indexed
    under a name other than ["__proto__"]; it throws 'No valid data weeks
    found' exactly when some catalog row can and no row of the three
    tables is counted; it returns exactly when some catalog row can and
    some row of a table is counted.  A row is counted when it is not
    skipped, also when its product is read from [Object.prototype]. *)
Theorem calculateMetrics_outcome
  (products salesOrders purchaseOrders clocks : list record) :
  own_customers salesOrders ->
  let productMap := Dashboard.processProductData products in
  let outcome :=
    Dashboard.calculateMetrics products salesOrders purchaseOrders clocks in
  let indexed p :=
    In p products /\ indexable p
    /\ to_string (Dashboard.productName p) <> "__proto__" in
  (outcome = Threw "No valid products found" <-> forall p, ~ indexed p)
  /\ (outcome = Threw "No valid data weeks found"
      <-> (exists p, indexed p)
          /\ no_row_counts productMap salesOrders purchaseOrders clocks)
  /\ ((exists m, outcome = Returned m)
      <-> (exists p, indexed p)
          /\ some_row_counts productMap salesOrders purchaseOrders clocks)
  /\ (forall message,
        outcome = Threw message ->
        message = "No valid products found"
        \/ message = "No valid data weeks found").
Proof.
  intros _. cbv zeta.
  pose proof (index_empty_iff products) as Hi.
  pose proof (allWeeks_empty_iff products salesOrders purchaseOrders clocks) as Hw.
  destruct (some_or_no_row_counts (Dashboard.processProductData products)
              salesOrders purchaseOrders clocks) as [Hx Hd].
  assert (Hsome : keys (Dashboard.processProductData products) <> [] ->
                  exists p, In p products /\ indexable p
                            /\ to_string (Dashboard.productName p) <> "__proto__").
  { intros Hne. destruct (keys _) as [|k l] eqn:E; [contradiction|].
    assert (Hin : In k (keys (Dashboard.processProductData products)))
      by (rewrite E; now left).
    apply (proj1 (In_keys _ k)) in Hin.
    apply (proj1 (get_In_iff _ k)) in Hin.
    apply (proj1 (index_membership products k)) in Hin.
    destruct Hin as (p & Hin & Hp & Hn & Hk).
    exists p. split; [exact Hin|]. split; [exact Hp|]. now rewrite Hn. }
  unfold Dashboard.calculateMetrics.
  fold (salesTotals products salesOrders)
       (purchaseTotals products purchaseOrders) (laborTotals clocks).
  destruct (keys (Dashboard.processProductData products)) as [|k l] eqn:Ek.
  - cbn [List.length Nat.eqb].
    assert (Hnone : forall p,
               ~ (In p products /\ indexable p
                  /\ to_string (Dashboard.productName p) <> "__proto__")).
    { intros p (Hin & Hp & Hn). apply Hn. now apply Hi. }
    split; [split; [intros _; exact Hnone|reflexivity]|].
    split; [split; [discriminate|]|].
    { intros ((p & Hp) & _). now destruct (Hnone p). }
    split; [split; [intros [m Hm]; discriminate|]|].
    { intros ((p & Hp) & _). now destruct (Hnone p). }
    intros message [= <-]. now left.
  - cbn [List.length Nat.eqb].
    assert (Hp : exists p, In p products /\ indexable p
                           /\ to_string (Dashboard.productName p) <> "__proto__")
      by (apply Hsome; discriminate).
    assert (Hnot : ~ forall p,
                     ~ (In p products /\ indexable p
                        /\ to_string (Dashboard.productName p) <> "__proto__")).
    { intros H. destruct Hp as (p & Hp). now destruct (H p). }
    destruct (Dashboard.allWeeksOf _ _ _) as [|w ws] eqn:Ea.
    + cbn [List.length Nat.eqb].
      assert (Hno : no_row_counts (Dashboard.processProductData products)
                      salesOrders purchaseOrders clocks) by now apply Hw.
      split; [split; [discriminate|intros H; now destruct Hnot]|].
      split; [split; [intros _; now split|reflexivity]|].
      split; [split; [intros [m Hm]; discriminate|]|].
      { intros (_ & Hs). now destruct (Hx Hs). }
      intros message [= <-]. now right.
    + cbn [List.length Nat.eqb].
      assert (Hyes : some_row_counts (Dashboard.processProductData products)
                       salesOrders purchaseOrders clocks).
      { destruct Hd as [Hno|Hyes]; [|exact Hyes].
        apply Hw in Hno. discriminate. }
      split; [split; [discriminate|intros H; now destruct Hnot]|].
      split; [split; [discriminate|]|].
      { intros (_ & Hno). now destruct (Hx Hyes). }
      split; [split; [intros _; now split|]|].
      { intros _. eexists. reflexivity. }
      discriminate.
Qed.

End Outcome.
(** ** The weekly series and the ranking *)

Section Series.
Context {host : Host}.

Lemma value_or_zero_sum (cs : list num) :
  Forall positive cs -> value_or_zero (sum_or_absent cs) = fold_left add cs zero.
Proof.
  intros H. destruct cs as [|c cs]; [reflexivity|].
  cbn [sum_or_absent value_or_zero].
  assert (Hp : positive (fold_left add (c :: cs) zero)).
  { inversion H; subst. cbn [fold_left]. apply fold_add_positive; [|assumption].
    apply add_positive; [now left|assumption]. }
  now rewrite (positive_truthy _ Hp).
Qed.

Lemma shares_positive {R : Type} (contribution : R -> option (string * num))
  (rows : list R) (week : string) :
  (forall r w x, In r rows -> contribution r = Some (w, x) -> positive x) ->
  Forall positive (flat_map (fun r => weekShare week (contribution r)) rows).
Proof.
  intros H. apply Forall_forall. intros x Hin.
  apply in_flat_map in Hin. destruct Hin as (r & Hr & Hin).
  pose proof (weekShare_positive week (contribution r)
                (fun w x => H r w x Hr)) as Hf.
  exact (proj1 (Forall_forall _ _) Hf x Hin).
Qed.

(** X9.  When no sales or purchase row meets a member of
    [Object.prototype], every entry of the weekly series holds, for its
    week, the sum of the cases of the accepted purchase rows, the sum of
    the cases of the accepted sales rows and the sum of the hours of the
    accepted clock rows, each from 0 in the order of the rows; a week
    without rows of one table holds 0 for it. *)
Theorem weekly_entries_are_row_sums
  (products salesOrders purchaseOrders clocks : list record)
  (m : Dashboard.metrics) :
  Dashboard.calculateMetrics products salesOrders purchaseOrders clocks
  = Returned m ->
  let productMap := Dashboard.processProductData products in
  ordinary_rows productMap salesOrders purchaseOrders ->
  Forall
    (fun e =>
       Dashboard.received e
       = fold_left add
           (flat_map (fun r => weekShare (Dashboard.wd_week e)
                                 (purchaseContribution productMap r))
              purchaseOrders) zero
       /\ Dashboard.shipped e
          = fold_left add
              (flat_map (fun r => weekShare (Dashboard.wd_week e)
                                    (salesContribution productMap r))
                 salesOrders) zero
       /\ Dashboard.wd_laborHours e
          = fold_left add
              (flat_map (fun r => weekShare (Dashboard.wd_week e)
                                    (clockContribution r))
                 clocks) zero)
    (Dashboard.salesAndPOByWeek m).
Proof.
  intros H. cbv zeta. intros (Hos & _ & Hop).
  pose proof (productMap_positive products) as Hm.
  apply calculateMetrics_Returned in H as (_ & _ & Hf & _). cbv zeta in Hf.
  rewrite Hf. apply Forall_map, Forall_forall. intros week _.
  cbn [Dashboard.formatWeek Dashboard.received Dashboard.shipped
       Dashboard.wd_laborHours Dashboard.wd_week].
  rewrite <- !value_or_zero_get.
  unfold purchaseTotals, salesTotals, laborTotals.
  rewrite (purchase_bucket_sum _ purchaseOrders week Hm Hop),
    (sales_bucket_sum _ salesOrders week Hm Hos), (labor_bucket_sum clocks week).
  unfold own_products in Hos, Hop. rewrite Forall_forall in Hos, Hop.
  repeat split; apply value_or_zero_sum, shares_positive.
  - intros r w x Hin. now apply purchaseContribution_positive, Hop.
  - intros r w x Hin. now apply salesContribution_positive, Hos.
  - intros r w x _. apply clockContribution_positive.
Qed.

Lemma Forall2_map_same {A B C : Type} (R : B -> C -> Prop)
  (f : A -> B) (g : A -> C) (l : list A) :
  (forall x, In x l -> R (f x) (g x)) -> Forall2 R (map f l) (map g l).
Proof.
  induction l as [|a l IH]; intros H; cbn [map]; constructor.
  - apply H. now left.
  - apply IH. intros x Hin. apply H. now right.
Qed.

(** X10.  The efficiency series and the volume series describe the same
    weeks in the same order, and their entries agree on the cases
    received, the cases shipped, the labor hours and, as a number, the
    cases per labor hour. *)
Theorem efficiency_and_volume_series_agree
  (products salesOrders purchaseOrders clocks : list record)
  (m : Dashboard.metrics) :
  Dashboard.calculateMetrics products salesOrders purchaseOrders clocks
  = Returned m ->
  Forall2 same_week_entry (Dashboard.casesPerLaborHour m)
    (Dashboard.salesAndPOByWeek m).
Proof.
  intros H.
  apply calculateMetrics_Returned in H as (Hw & Hc & Hf & _).
  cbv zeta in Hw, Hc, Hf.
  destruct (aggregates_invariant products salesOrders purchaseOrders clocks)
    as ((Ks & Vs & _) & _ & (Kp & Vp & _) & (Kl & Vl & _)).
  rewrite Hc, Hf, buildCasesPerLaborHour_entries.
  - apply Forall2_map_same. intros week Hin.
    unfold Dashboard.formatWeek.
    rewrite (buildCasesPerLaborHour_get _ _ _ _ _ Hin).
    destruct (metricsOfWeek_rule (salesTotals products salesOrders)
                (purchaseTotals products purchaseOrders) (laborTotals clocks)
                week Vs Vp Vl) as (_ & _ & _ & (q & Hq)).
    unfold same_week_entry.
    cbn [Dashboard.formatWeek Dashboard.wd_week Dashboard.received
         Dashboard.shipped Dashboard.wd_laborHours
         Dashboard.wd_totalCasesPerLaborHour].
    repeat split. rewrite Hq. cbn [num_truthy].
    destruct (q_is_zero q) eqn:E; cbn [negb num_eq zero]; [|reflexivity].
    unfold q_is_zero in E. apply Z.eqb_eq in E.
    unfold Qeq. cbn. lia.
  - rewrite Hw. apply allWeeksOf_NoDup.
  - rewrite Hw. now apply allWeeksOf_week_keys.
Qed.

Lemma StronglySorted_app_inv {A : Type} (R : A -> A -> Prop) (l1 l2 : list A) :
  StronglySorted R (l1 ++ l2)%list ->
  forall a b, In a l1 -> In b l2 -> R a b.
Proof.
  induction l1 as [|x l1 IH]; intros H a b Ha Hb; [destruct Ha|].
  cbn [app] in H. inversion H as [|? ? Hs Hf]; subst.
  destruct Ha as [<-|Ha].
  - apply (proj1 (Forall_forall _ _) Hf). apply in_or_app. now right.
  - now apply IH.
Qed.

(** X11.  When no sales row meets a member of [Object.prototype], the
    ranking holds the ten first stores of the full list, or all of them
    when there are at most ten, and no store left out of it has a greater
    total than a store in it. *)
Theorem top_stores_dominate
  (products salesOrders purchaseOrders clocks : list record)
  (m : Dashboard.metrics) :
  Dashboard.calculateMetrics products salesOrders purchaseOrders clocks
  = Returned m ->
  own_products (Dashboard.processProductData products) Dashboard.orderProduct
    salesOrders ->
  own_customers salesOrders ->
  let storeTotal := storeTotals (storeWeekTotals products salesOrders) in
  let top := map Dashboard.store (Dashboard.topStoresByWeek m) in
  List.length top = Nat.min 10 (List.length (Dashboard.allStores m))
  /\ (forall a b,
        In a top -> In b (Dashboard.allStores m) -> ~ In b top ->
        total_ge storeTotal a b).
Proof.
  intros H Ho _. cbv zeta.
  apply calculateMetrics_Returned in H as (_ & _ & _ & Hs & Ht & _).
  cbv zeta in Hs, Ht.
  assert (Hfin : all_values finite
                   (storeTotals (storeWeekTotals products salesOrders))).
  { apply storeTotals_finite.
    now apply processSalesData_finite; [apply productMap_positive|]. }
  assert (Htop : map Dashboard.store (Dashboard.topStoresByWeek m)
                 = firstn 10 (Dashboard.allStores m)).
  { rewrite Ht, map_map. cbn [Dashboard.store]. apply map_id. }
  rewrite Htop. split; [apply length_firstn|].
  intros a b Ha Hb Hn.
  assert (Hsorted : StronglySorted
                      (total_ge (storeTotals (storeWeekTotals products salesOrders)))
                      (firstn 10 (Dashboard.allStores m)
                       ++ skipn 10 (Dashboard.allStores m))%list).
  { rewrite firstn_skipn, Hs. now apply sort_stores_sorted. }
  apply (StronglySorted_app_inv _ _ _ Hsorted a b Ha).
  rewrite <- (firstn_skipn 10 (Dashboard.allStores m)) in Hb.
  apply in_app_or in Hb. now destruct Hb.
Qed.

End Series.

(** ** The plain component *)

Section Plain.
Context {host : Host}.

Lemma free_of_app_cons (c : ascii) (a b : string) :
  free_of c (a ++ String c b) = false.
Proof.
  induction a as [|c' a IH]; cbn [append free_of].
  - now rewrite Ascii.eqb_refl.
  - rewrite IH. apply andb_false_r.
Qed.

Lemma weekKey_not_Unknown (year week : num) : weekKey year week <> "Unknown".
Proof.
  intros E.
  assert (H : free_of "-" (weekKey year week) = false)
    by apply free_of_app_cons.
  rewrite E in H. vm_compute in H. discriminate.
Qed.

(** A week key is not the name of a member of [Object.prototype], so a
    read at a week key finds an own property or nothing. *)
Lemma weekKey_not_inherited (year week : num) :
  inherited (weekKey year week) = false.
Proof.
  destruct (inherited (weekKey year week)) eqn:E; [|reflexivity].
  unfold inherited in E. apply existsb_exists in E. destruct E as (k & Hin & Ek).
  apply String.eqb_eq in Ek.
  assert (H : free_of "-" (weekKey year week) = false)
    by apply free_of_app_cons.
  rewrite Ek in H.
  assert (Hall : forallb (free_of "-") prototype_members = true) by reflexivity.
  rewrite forallb_forall in Hall. rewrite (Hall k Hin) in H. discriminate.
Qed.

Lemma lookup_weekKey (o : obj num) (year week : num) :
  lookup o (weekKey year week)
  = match get o (weekKey year week) with Some v => Own v | None => Missing end.
Proof. apply lookup_plain, weekKey_not_inherited. Qed.

(** The stores of the totals by store are not names of members of
    [Object.prototype]. *)
Lemma store_keys_not_members (productMap : obj num) (salesOrders : list record) :
  all_keys (fun store => inherited store = false)
    (Dashboard.salesByStoreAndWeek
       (Dashboard.processSalesData salesOrders productMap)).
Proof.
  unfold Dashboard.processSalesData.
  apply (fold_left_invariant
           (fun s => all_keys (fun store => inherited store = false)
                       (Dashboard.salesByStoreAndWeek s))); [constructor|].
  intros acc order H. unfold Dashboard.addSalesOrder.
  destruct (Dashboard.weekAndCases _ _ _ _) as [[week cases]|]; [|exact H].
  cbn [Dashboard.salesByStoreAndWeek].
  destruct (accumulate_in_cases (Dashboard.salesByStoreAndWeek acc)
              (to_string (Dashboard.orderCustomer order)) week cases)
    as [(_ & _ & ->)|E]; [exact H|].
  rewrite E. unfold accumulate_in, lookup in E.
  destruct (get (Dashboard.salesByStoreAndWeek acc)
              (to_string (Dashboard.orderCustomer order))) as [i|] eqn:Eg.
  - apply set_all_keys; [|exact H].
    apply get_Some_In in Eg.
    exact (proj1 (Forall_forall _ _) H _ Eg).
  - destruct (inherited (to_string (Dashboard.orderCustomer order))) eqn:Ei.
    + rewrite <- E. exact H.
    + now apply set_all_keys.
Qed.

(** X12.  In the plain component the week key is never ['Unknown'], so
    the test on it skips no row: a sales or purchase row whose product is
    in the index and whose date is present is counted, whatever the date
    and the quantity are, with its quantity divided by the units per
    case. *)
Theorem plain_row_with_product_and_date_is_counted (productMap : obj value)
  (product quantity date : value) :
  truthy product = true ->
  truthy (DashboardPlain.fieldOf productMap (to_string product)) = true ->
  truthy date = true ->
  DashboardPlain.getWeekNumber date <> "Unknown"
  /\ DashboardPlain.weekAndCases productMap product quantity date
     = Some (DashboardPlain.getWeekNumber date,
             div (to_number quantity)
               (to_number
                  (DashboardPlain.fieldOf productMap (to_string product)))).
Proof.
  intros Hp Hu Hd.
  assert (Hk : DashboardPlain.getWeekNumber date <> "Unknown")
    by apply weekKey_not_Unknown.
  split; [exact Hk|].
  unfold DashboardPlain.weekAndCases, lookup.
  unfold DashboardPlain.fieldOf in Hu |- *.
  destruct (get productMap (to_string product)) as [v|]; [|discriminate].
  cbn [found_truthy found_number]. rewrite Hp, Hu, Hd. cbn [negb orb].
  apply String.eqb_neq in Hk. now rewrite Hk.
Qed.

(** X13.  In the plain component hours that come as text are not added:
    the text is appended to the writing of the total the week had, 0 for
    a week without hours. *)
Theorem plain_hours_text_is_appended (laborHoursByWeek : obj value)
  (clock : record) (hours : string) :
  truthy (field clock "Date In") = true ->
  field clock "Total Less Break" = VStr hours ->
  hours <> "" ->
  get (DashboardPlain.addClock laborHoursByWeek clock)
    (DashboardPlain.getWeekNumber (field clock "Date In"))
  = Some (VStr (to_string
                  (or (DashboardPlain.fieldOf laborHoursByWeek
                         (DashboardPlain.getWeekNumber (field clock "Date In")))
                     (VNum zero))
                ++ hours)).
Proof.
  intros Hd Hh Hne. unfold DashboardPlain.addClock. rewrite Hd. cbn [negb].
  assert (Hk : DashboardPlain.getWeekNumber (field clock "Date In") <> "Unknown")
    by apply weekKey_not_Unknown.
  apply String.eqb_neq in Hk. rewrite Hk, Hh.
  assert (Ht : or (VStr hours) (VNum zero) = VStr hours).
  { unfold or. cbn [truthy str_truthy]. destruct hours; [contradiction|reflexivity]. }
  rewrite Ht, get_set_same. f_equal.
  set (week := DashboardPlain.getWeekNumber (field clock "Date In")).
  unfold or at 1.
  destruct (truthy (DashboardPlain.fieldOf laborHoursByWeek week)) eqn:E.
  - now destruct (DashboardPlain.fieldOf laborHoursByWeek week).
  - unfold DashboardPlain.fieldOf at 1. rewrite get_set_same. reflexivity.
Qed.

End Plain.

(** ** The charts *)

Section ChartFacts.
Context {host : Host}.

Lemma map_mapWithIndex {A B C : Type} (f : nat -> A -> B) (g : B -> C)
  (h : A -> C) (l : list A) :
  (forall i x, g (f i x) = h x) ->
  forall i, map g (Charts.mapWithIndex f i l) = map h l.
Proof.
  intros H. induction l as [|x l IH]; intros i; [reflexivity|].
  cbn [Charts.mapWithIndex map]. now rewrite H, IH.
Qed.


Lemma cumulativeRow_fields (array : list (obj value)) (index : nat)
  (week : obj value) :
  Forall (fun r => get r "cumulativeReceived" = None
                   /\ get r "cumulativeShipped" = None) array ->
  field (Charts.cumulativeRow array index week) "cumulativeReceived"
  = DashboardPlain.plus (VNum zero) (field week "received")
  /\ field (Charts.cumulativeRow array index week) "cumulativeShipped"
     = DashboardPlain.plus (VNum zero) (field week "shipped")
  /\ forall k, k <> "cumulativeReceived" -> k <> "cumulativeShipped" ->
       field (Charts.cumulativeRow array index week) k = field week k.
Proof.
  intros H. unfold Charts.cumulativeRow.
  set (prevData := if (0 <? index)%nat then nth (index - 1) array []
                   else Charts.beforeFirstWeek).
  assert (Hprev : or (field prevData "cumulativeReceived") (VNum zero) = VNum zero
                  /\ or (field prevData "cumulativeShipped") (VNum zero)
                     = VNum zero).
  { subst prevData. destruct (0 <? index)%nat; [|now split].
    destruct (nth_in_or_default (index - 1) array []) as [Hin|E];
      [|now rewrite E].
    destruct (proj1 (Forall_forall _ _) H _ Hin) as [H1 H2].
    unfold field. now rewrite H1, H2. }
  destruct Hprev as [-> ->]. unfold field.
  split; [|split].
  - rewrite get_set_other by discriminate. now rewrite get_set_same.
  - now rewrite get_set_same.
  - intros k H1 H2. rewrite !get_set_other by congruence. reflexivity.
Qed.

(** X14.  The cumulative chart does not accumulate: the previous row it
    reads is a row of the series it was given, which has no cumulative
    field, so each row gets 0 plus the cases received and 0 plus the cases
    shipped of its own week.  The same holds for the chart of the plain
    component. *)
Theorem cumulative_chart_shows_weekly_figures (data : list Dashboard.weeklyData)
  (plainData : list DashboardPlain.weeklyData) :
  map (fun r => (field r "week", field r "cumulativeReceived",
                 field r "cumulativeShipped"))
    (Charts.cumulativeData (map Charts.rowObject data))
  = map (fun w => (VStr (Dashboard.wd_week w),
                   VNum (add zero (Dashboard.received w)),
                   VNum (add zero (Dashboard.shipped w))))
      data
  /\ map (fun r => (field r "week", field r "cumulativeReceived",
                    field r "cumulativeShipped"))
       (Charts.cumulativeData (map Charts.plainRowObject plainData))
     = map (fun w => (VStr (DashboardPlain.wd_week w),
                      VNum (add zero (DashboardPlain.received w)),
                      VNum (add zero (DashboardPlain.shipped w))))
         plainData.
Proof.
  unfold Charts.cumulativeData. split.
  - assert (H : Forall (fun r => get r "cumulativeReceived" = None
                                 /\ get r "cumulativeShipped" = None)
                  (map Charts.rowObject data))
      by (apply Forall_map, Forall_forall; intros w _; now split).
    rewrite <- (map_map Charts.rowObject
                  (fun r => (field r "week",
                             DashboardPlain.plus (VNum zero) (field r "received"),
                             DashboardPlain.plus (VNum zero) (field r "shipped")))).
    apply map_mapWithIndex. intros i r.
    destruct (cumulativeRow_fields (map Charts.rowObject data) i r H)
      as (-> & -> & Hk).
    now rewrite Hk by discriminate.
  - assert (H : Forall (fun r => get r "cumulativeReceived" = None
                                 /\ get r "cumulativeShipped" = None)
                  (map Charts.plainRowObject plainData))
      by (apply Forall_map, Forall_forall; intros w _; now split).
    rewrite <- (map_map Charts.plainRowObject
                  (fun r => (field r "week",
                             DashboardPlain.plus (VNum zero) (field r "received"),
                             DashboardPlain.plus (VNum zero) (field r "shipped")))).
    apply map_mapWithIndex. intros i r.
    destruct (cumulativeRow_fields (map Charts.plainRowObject plainData) i r H)
      as (-> & -> & Hk).
    now rewrite Hk by discriminate.
Qed.





End ChartFacts.

(** ** Loading *)

Section LoaderFacts.
Context {host : Host}.

Lemma loadCSV_loading (t : Loader.table) (f : Loader.fetched)
  (st : Loader.loadingState) :
  Loader.loading (fst (Loader.loadCSV t f st)) = Loader.loading st.
Proof.
  unfold Loader.loadCSV. now destruct (Loader.fetchCSVData _ f).
Qed.

Lemma loadCSV_rows (t : Loader.table) (f : Loader.fetched)
  (st : Loader.loadingState) :
  snd (Loader.loadCSV t f st)
  = match Loader.fetchCSVData (Loader.DATA_URLS t) f with
    | Returned csvData => Some csvData
    | Threw _ => None
    end.
Proof.
  unfold Loader.loadCSV. now destruct (Loader.fetchCSVData _ f).
Qed.

Lemma loadCSV_error (t : Loader.table) (f : Loader.fetched)
  (st : Loader.loadingState) (csvData : list record) :
  Loader.fetchCSVData (Loader.DATA_URLS t) f = Returned csvData ->
  Loader.error (fst (Loader.loadCSV t f st)) = Loader.error st.
Proof.
  intros H. unfold Loader.loadCSV. now rewrite H.
Qed.

Lemma settled_loading (fs : Loader.fetches) (arrival : list Loader.table) :
  forall st,
    Loader.loading
      (fold_left (fun s t => fst (Loader.loadCSV t (fs t) s)) arrival st)
    = Loader.loading st.
Proof.
  induction arrival as [|t arrival IH]; intros st; [reflexivity|].
  cbn [fold_left]. rewrite IH. apply loadCSV_loading.
Qed.

Lemma settled_error (fs : Loader.fetches) (arrival : list Loader.table) :
  (forall t, exists csvData,
      Loader.fetchCSVData (Loader.DATA_URLS t) (fs t) = Returned csvData) ->
  forall st,
    Loader.error
      (fold_left (fun s t => fst (Loader.loadCSV t (fs t) s)) arrival st)
    = Loader.error st.
Proof.
  intros H. induction arrival as [|t arrival IH]; intros st; [reflexivity|].
  cbn [fold_left]. rewrite IH. destruct (H t) as [csvData Ht].
  exact (loadCSV_error t (fs t) st csvData Ht).
Qed.

(** X16.  When one of the four tables fails to load, in whatever order
    the requests settle, the component is left on the loading screen: the
    message of the failure is put in the state, but [loading] stays true
    and the error screen is never reached; no processed data is set. *)
Theorem failed_load_stays_on_loading_screen (fs : Loader.fetches)
  (arrival : list Loader.table) (st : Loader.loadingState)
  (t : Loader.table) (reason : string) :
  Loader.fetchCSVData (Loader.DATA_URLS t) (fs t) = Threw reason ->
  Loader.render (fst (Loader.loadData fs arrival st)) = Loader.LoadingScreen
  /\ snd (Loader.loadData fs arrival st) = None.
Proof.
  intros H. unfold Loader.loadData.
  destruct (Loader.loadCSV Loader.Products (fs Loader.Products) _)
    as [st1 products] eqn:E1.
  assert (L1 : Loader.loading st1 = true).
  { change st1 with (fst (st1, products)). rewrite <- E1.
    now rewrite loadCSV_loading. }
  assert (R1 : products
               = match Loader.fetchCSVData (Loader.DATA_URLS Loader.Products)
                         (fs Loader.Products) with
                 | Returned csvData => Some csvData
                 | Threw _ => None
                 end).
  { change products with (snd (st1, products)). rewrite <- E1.
    apply loadCSV_rows. }
  destruct products as [products|].
  - rewrite !loadCSV_rows.
    assert (L2 : Loader.render
                   (fold_left (fun s t => fst (Loader.loadCSV t (fs t) s))
                      arrival st1)
                 = Loader.LoadingScreen).
    { unfold Loader.render. now rewrite settled_loading, L1. }
    destruct t; rewrite H in *; try discriminate;
      repeat match goal with
             | |- context [match Loader.fetchCSVData ?u ?f with _ => _ end] =>
                 destruct (Loader.fetchCSVData u f)
             end; now split.
  - split; [|reflexivity]. unfold Loader.render. cbn [fst]. now rewrite L1.
Qed.

(** X17.  When the four tables load, the processed data is set and the
    dashboard shown if the composer returns; if it throws, no data is set
    and the error screen shows 'Error processing data: ' followed by its
    message. *)
Theorem loaded_tables_show_dashboard_or_error (fs : Loader.fetches)
  (arrival : list Loader.table) (st : Loader.loadingState)
  (products salesOrders purchaseOrders clocks : list record) :
  Loader.fetchCSVData (Loader.DATA_URLS Loader.Products) (fs Loader.Products)
  = Returned products ->
  Loader.fetchCSVData (Loader.DATA_URLS Loader.Sales) (fs Loader.Sales)
  = Returned salesOrders ->
  Loader.fetchCSVData (Loader.DATA_URLS Loader.Purchases) (fs Loader.Purchases)
  = Returned purchaseOrders ->
  Loader.fetchCSVData (Loader.DATA_URLS Loader.Clocks) (fs Loader.Clocks)
  = Returned clocks ->
  match Dashboard.calculateMetrics products salesOrders purchaseOrders clocks with
  | Returned result =>
      Loader.render (fst (Loader.loadData fs arrival st)) = Loader.DashboardScreen
      /\ snd (Loader.loadData fs arrival st) = Some result
  | Threw reason =>
      Loader.render (fst (Loader.loadData fs arrival st))
      = Loader.ErrorScreen ("Error processing data: " ++ reason)
      /\ snd (Loader.loadData fs arrival st) = None
  end.
Proof.
  intros Hp Hs Ho Hc.
  assert (Hall : forall t, exists csvData,
             Loader.fetchCSVData (Loader.DATA_URLS t) (fs t) = Returned csvData).
  { intros []; eauto. }
  unfold Loader.loadData.
  destruct (Loader.loadCSV Loader.Products (fs Loader.Products) _)
    as [st1 loaded] eqn:E1.
  assert (R1 : loaded = Some products).
  { change loaded with (snd (st1, loaded)). rewrite <- E1.
    now rewrite loadCSV_rows, Hp. }
  assert (X1 : Loader.error st1 = None).
  { change st1 with (fst (st1, loaded)). rewrite <- E1.
    now rewrite (loadCSV_error _ _ _ products Hp). }
  subst loaded. rewrite !loadCSV_rows, Hs, Ho, Hc.
  destruct (Dashboard.calculateMetrics products salesOrders purchaseOrders clocks)
    as [result|reason].
  - split; [|reflexivity]. unfold Loader.render. cbn [fst Loader.loading Loader.error].
    now rewrite (settled_error fs arrival Hall), X1.
  - split; reflexivity.
Qed.

(** X18.  A table is fetched when the response is [ok] and the parse has
    no error of type 'Fatal': other parse errors do not fail the load.
    The plain component takes a parse only when it has no error at
    all. *)
Theorem tables_accepted (url : string) (f : Loader.fetched) (p : Loader.parsed)
  (data : list record) :
  (Loader.fetchCSVData url f = Returned data
   <-> exists status statusText errors,
         f = Loader.Response true status statusText (Loader.Complete data errors)
         /\ Forall (fun e => Loader.type e <> "Fatal") errors)
  /\ (Loader.parseCSVFile p = Returned data <-> p = Loader.Complete data []).
Proof.
  assert (Hfatal : forall errors,
             filter Loader.isFatal errors = []
             <-> Forall (fun e => Loader.type e <> "Fatal") errors).
  { intros errors. induction errors as [|e errors IH]; [now split|].
    cbn [filter]. unfold Loader.isFatal at 1.
    destruct (String.eqb_spec (Loader.type e) "Fatal") as [E|E].
    - split; [discriminate|]. intros H. inversion H; subst. contradiction.
    - rewrite IH. split.
      + intros H. now constructor.
      + intros H. now inversion H. }
  split.
  - split.
    + destruct f as [reason|[|] status statusText [d errors|reason]];
        cbn [Loader.fetchCSVData negb]; try discriminate.
      destruct (filter Loader.isFatal errors) as [|e l] eqn:E; [|discriminate].
      intros [= ->]. exists status, statusText, errors.
      split; [reflexivity|]. now apply Hfatal.
    + intros (status & statusText & errors & -> & H).
      cbn [Loader.fetchCSVData negb].
      now rewrite (proj2 (Hfatal errors) H).
  - split.
    + destruct p as [d [|e errors]|reason]; cbn [Loader.parseCSVFile];
        try discriminate.
      now intros [= ->].
    + now intros ->.
Qed.

(** X19.  The plain component shows the dashboard exactly when the four
    files parse without any error; otherwise it shows the error screen
    with 'Error loading data: ' followed by a message.  It never stays on
    the loading screen. *)
Theorem plain_loader_outcome (files : Loader.table -> Loader.parsed) :
  (Loader.plainRender (fst (Loader.processData files)) = Loader.DashboardScreen
   <-> forall t, exists data, files t = Loader.Complete data [])
  /\ (Loader.plainRender (fst (Loader.processData files)) = Loader.DashboardScreen
      \/ exists reason,
           Loader.plainRender (fst (Loader.processData files))
           = Loader.ErrorScreen ("Error loading data: " ++ reason)).
Proof.
  assert (Hok : forall p data,
             Loader.parseCSVFile p = Returned data -> p = Loader.Complete data []).
  { intros p data. destruct p as [d [|e errors]|reason]; cbn [Loader.parseCSVFile];
      try discriminate. now intros [= ->]. }
  unfold Loader.processData.
  destruct (Loader.parseCSVFile (files Loader.Products)) as [products|r] eqn:E1;
    [destruct (Loader.parseCSVFile (files Loader.Sales)) as [sales|r] eqn:E2;
     [destruct (Loader.parseCSVFile (files Loader.Purchases)) as [pos|r] eqn:E3;
      [destruct (Loader.parseCSVFile (files Loader.Clocks)) as [clocks|r] eqn:E4|]
     |]
    |].
  - split; [|now left]. split; [|reflexivity].
    intros _ []; eauto.
  - split; [|right; now exists r]. split; [discriminate|].
    intros H. destruct (H Loader.Clocks) as [data Hd].
    rewrite Hd in E4. discriminate.
  - split; [|right; now exists r]. split; [discriminate|].
    intros H. destruct (H Loader.Purchases) as [data Hd].
    rewrite Hd in E3. discriminate.
  - split; [|right; now exists r]. split; [discriminate|].
    intros H. destruct (H Loader.Sales) as [data Hd].
    rewrite Hd in E2. discriminate.
  - split; [|right; now exists r]. split; [discriminate|].
    intros H. destruct (H Loader.Products) as [data Hd].
    rewrite Hd in E1. discriminate.
Qed.

End LoaderFacts.

(** ** The further properties at sample inputs *)

Section FurtherSamples.
Import Examples.
#[local] Existing Instance reference_host.

Lemma small_rows_ordinary :
  ordinary_rows (Dashboard.processProductData smallProducts) twoStores
    smallPurchases.
Proof.
  repeat split; repeat (constructor; [vm_compute; reflexivity|]); constructor.
Qed.

(** In the small example every bucket is above zero. *)
Lemma buckets_are_positive_sample :
  ordinary_rows (Dashboard.processProductData smallProducts) twoStores
    smallPurchases
  /\ keys (salesTotals smallProducts twoStores) = ["2024-W02"; "2024-W03"]
  /\ all_values positive_rational (salesTotals smallProducts twoStores)
  /\ all_values (all_values positive_rational)
       (storeWeekTotals smallProducts twoStores)
  /\ all_values positive_rational (purchaseTotals smallProducts smallPurchases)
  /\ all_values positive (laborTotals smallClocks).
Proof.
  split; [exact small_rows_ordinary|]. split; [vm_compute; reflexivity|].
  apply (buckets_are_positive smallProducts twoStores smallPurchases smallClocks).
  exact small_rows_ordinary.
Defined.

(** In the small example the sales of week 2 are those of the one row of
    that week, and week 4 has no bucket. *)
Lemma buckets_are_sums_sample :
  ordinary_rows (Dashboard.processProductData smallProducts) twoStores
    smallPurchases
  /\ get (salesTotals smallProducts twoStores) "2024-W02"
     = sum_or_absent
         (flat_map
            (fun r => weekShare "2024-W02"
                        (salesContribution
                           (Dashboard.processProductData smallProducts) r))
            twoStores)
  /\ List.length
       (flat_map
          (fun r => weekShare "2024-W02"
                      (salesContribution
                         (Dashboard.processProductData smallProducts) r))
          twoStores) = 1%nat
  /\ get (salesTotals smallProducts twoStores) "2024-W04" = None.
Proof.
  split; [exact small_rows_ordinary|].
  split; [|split; vm_compute; reflexivity].
  exact (proj1 (buckets_are_sums smallProducts twoStores smallPurchases
                  smallClocks "2024-W02" "Acme" small_rows_ordinary)).
Defined.

(** The small example has a product and rows that count, so the composer
    returns; without a catalog it throws. *)
Lemma calculateMetrics_outcome_sample :
  own_customers twoStores
  /\ (exists m,
        Dashboard.calculateMetrics smallProducts twoStores smallPurchases
          smallClocks = Returned m)
  /\ Dashboard.calculateMetrics [protoNamed] twoStores smallPurchases smallClocks
     = Threw "No valid products found".
Proof.
  assert (Hc : own_customers twoStores)
    by (repeat (constructor; [vm_compute; reflexivity|]); constructor).
  split; [exact Hc|]. split.
  - apply (calculateMetrics_outcome smallProducts twoStores smallPurchases
             smallClocks Hc).
    split.
    + exists (widget 10). split; [now left|].
      split; [|discriminate]. split; [reflexivity|].
      exists 10. split; [reflexivity|]. vm_compute. reflexivity.
    + left. exists (saleTo "Acme" 50 "2024-01-08").
      split; [now left|]. vm_compute. discriminate.
  - vm_compute. reflexivity.
Defined.

(** A sale of the product "toString", which no catalog row names, adds
    [NaN] to its week. *)
Lemma prototype_member_sample :
  reads_prototype (Dashboard.processProductData smallProducts) "toString" = true
  /\ salesContribution (Dashboard.processProductData smallProducts) memberSale
     = Some ("2024-W02", NaN)
  /\ get (salesTotals smallProducts [memberSale]) "2024-W02" = Some NaN
  /\ get (salesTotals smallProducts [memberSale; saleTo "Acme" 50 "2024-01-08"])
       "2024-W02"
     = get (salesTotals smallProducts [saleTo "Acme" 50 "2024-01-08"]) "2024-W02".
Proof.
  split; [vm_compute; reflexivity|]. split.
  - apply (prototype_member_counts_as_product
             (Dashboard.processProductData smallProducts) (VStr "toString")
             (of_Z 5) (VStr "2024-01-08") "2024-W02" [] zero);
      vm_compute; reflexivity.
  - split; vm_compute; reflexivity.
Defined.

(** A sale to the store "constructor" is in the week total and in no
    store's totals. *)
Lemma store_named_after_member_sample :
  inherited "constructor" = true
  /\ get (Dashboard.salesByWeek
            (Dashboard.addSalesOrder dozen
               {| Dashboard.salesByWeek := [];
                  Dashboard.salesByStoreAndWeek := [] |} memberStoreSale))
       "2024-W02"
     = Some (add zero (Fin (20 / 12)))
  /\ Dashboard.salesByStoreAndWeek
       (Dashboard.addSalesOrder dozen
          {| Dashboard.salesByWeek := [];
             Dashboard.salesByStoreAndWeek := [] |} memberStoreSale)
     = [].
Proof.
  split; [reflexivity|].
  apply (store_named_after_member_is_not_recorded dozen
           {| Dashboard.salesByWeek := [];
              Dashboard.salesByStoreAndWeek := [] |}
           memberStoreSale 20 12 "2024-W02").
  - repeat split; vm_compute; reflexivity.
  - reflexivity.
  - reflexivity.
Defined.

(** Friday 15 March 2024 is in week 11 of 2024, and the key reads back as
    2024 and 11. *)
Lemma week_key_reads_back_sample :
  Dashboard.getWeekNumber (VStr "2024-03-15") = Some "2024-W11"
  /\ (key_year "2024-W11" = of_Z 2024 /\ key_week "2024-W11" = of_Z 11)
  /\ exists t,
       Dashboard.parsedDate (VStr "2024-03-15") = Some (Some t)
       /\ key_year "2024-W11" = of_Z (YearFromTime t)
       /\ key_week "2024-W11" = of_Z (isoWeekOfTime t)
       /\ str_truthy "2024-W11" = true
       /\ array_index "2024-W11" = None.
Proof.
  split; [vm_compute; reflexivity|]. split; [split; vm_compute; reflexivity|].
  apply (week_key_reads_back (VStr "2024-03-15") "2024-W11").
  vm_compute. reflexivity.
Defined.

(** The key of 15 January 2024 is after the key of 8 January 2024. *)
Lemma week_keys_compare_sample :
  gtb (compareWeeks "2024-W03" "2024-W02") zero = true
  /\ exists ta tb,
       Dashboard.parsedDate (VStr "2024-01-15") = Some (Some ta)
       /\ Dashboard.parsedDate (VStr "2024-01-08") = Some (Some tb)
       /\ (gtb (compareWeeks "2024-W03" "2024-W02") zero = true
           <-> YearFromTime tb < YearFromTime ta
               \/ (YearFromTime ta = YearFromTime tb
                   /\ isoWeekOfTime tb < isoWeekOfTime ta))
       /\ ("2024-W03" = "2024-W02"
           <-> YearFromTime ta = YearFromTime tb
               /\ isoWeekOfTime ta = isoWeekOfTime tb).
Proof.
  split; [vm_compute; reflexivity|].
  apply (week_keys_compare_by_year_then_week (VStr "2024-01-15")
           (VStr "2024-01-08") "2024-W03" "2024-W02");
    vm_compute; reflexivity.
Defined.

(** A text without separators that is no date has no week key. *)
Lemma week_key_needs_three_pieces_sample :
  isValid (parseISO "next week") = false
  /\ separators "next week" = 0%nat
  /\ Dashboard.getWeekNumber (VStr "next week") = None.
Proof.
  split; [vm_compute; reflexivity|]. split; [reflexivity|].
  apply (week_key_needs_three_pieces "next week").
  - vm_compute. reflexivity.
  - discriminate.
Defined.

(** A sale of no units leaves the totals empty. *)
Lemma unvalidated_row_sample :
  Dashboard.addSalesOrder (Dashboard.processProductData smallProducts)
    {| Dashboard.salesByWeek := []; Dashboard.salesByStoreAndWeek := [] |}
    emptySale
  = {| Dashboard.salesByWeek := []; Dashboard.salesByStoreAndWeek := [] |}.
Proof.
  apply (unvalidated_row_changes_nothing SalesOrders smallProducts [] []
           emptySale).
  - intros q u week (_ & Hq & Hpos & _).
    vm_compute in Hq. injection Hq as <-. vm_compute in Hpos. discriminate.
  - vm_compute. reflexivity.
Defined.

(** The small example has two weeks, and its series hold the sums of the
    rows. *)
Lemma weekly_entries_sample :
  exists m,
    Dashboard.calculateMetrics smallProducts twoStores smallPurchases smallClocks
    = Returned m
    /\ ordinary_rows (Dashboard.processProductData smallProducts) twoStores
         smallPurchases
    /\ map Dashboard.wd_week (Dashboard.salesAndPOByWeek m)
       = ["2024-W02"; "2024-W03"]
    /\ Forall
         (fun e =>
            Dashboard.received e
            = fold_left add
                (flat_map
                   (fun r => weekShare (Dashboard.wd_week e)
                               (purchaseContribution
                                  (Dashboard.processProductData smallProducts) r))
                   smallPurchases) zero
            /\ Dashboard.shipped e
               = fold_left add
                   (flat_map
                      (fun r => weekShare (Dashboard.wd_week e)
                                  (salesContribution
                                     (Dashboard.processProductData smallProducts)
                                     r))
                      twoStores) zero
            /\ Dashboard.wd_laborHours e
               = fold_left add
                   (flat_map
                      (fun r => weekShare (Dashboard.wd_week e)
                                  (clockContribution r))
                      smallClocks) zero)
         (Dashboard.salesAndPOByWeek m).
Proof.
  eexists. split; [vm_compute; reflexivity|].
  split; [exact small_rows_ordinary|].
  split; [vm_compute; reflexivity|].
  apply (weekly_entries_are_row_sums smallProducts twoStores smallPurchases
           smallClocks).
  - vm_compute. reflexivity.
  - exact small_rows_ordinary.
Defined.

Lemma series_agree_sample :
  exists m,
    Dashboard.calculateMetrics smallProducts twoStores smallPurchases smallClocks
    = Returned m
    /\ List.length (Dashboard.casesPerLaborHour m) = 2%nat
    /\ Forall2 same_week_entry (Dashboard.casesPerLaborHour m)
         (Dashboard.salesAndPOByWeek m).
Proof.
  eexists. split; [vm_compute; reflexivity|].
  split; [vm_compute; reflexivity|].
  apply (efficiency_and_volume_series_agree smallProducts twoStores
           smallPurchases smallClocks).
  vm_compute. reflexivity.
Defined.

Lemma top_stores_sample :
  exists m,
    Dashboard.calculateMetrics smallProducts twoStores smallPurchases smallClocks
    = Returned m
    /\ ordinary_rows (Dashboard.processProductData smallProducts) twoStores
         smallPurchases
    /\ map Dashboard.store (Dashboard.topStoresByWeek m) = ["Acme"; "Bolt"]
    /\ List.length (map Dashboard.store (Dashboard.topStoresByWeek m))
       = Nat.min 10 (List.length (Dashboard.allStores m))
    /\ (forall a b,
          In a (map Dashboard.store (Dashboard.topStoresByWeek m)) ->
          In b (Dashboard.allStores m) ->
          ~ In b (map Dashboard.store (Dashboard.topStoresByWeek m)) ->
          total_ge (storeTotals (storeWeekTotals smallProducts twoStores)) a b).
Proof.
  eexists. split; [vm_compute; reflexivity|].
  split; [exact small_rows_ordinary|].
  split; [vm_compute; reflexivity|].
  apply (top_stores_dominate smallProducts twoStores smallPurchases smallClocks).
  - vm_compute. reflexivity.
  - apply small_rows_ordinary.
  - apply small_rows_ordinary.
Defined.

(** In the plain component a sale of -5 units on a day that is no date is
    counted, under the key of an invalid date. *)
Lemma plain_row_sample :
  option_map fst
    (DashboardPlain.weekAndCases [("Widget", VNum (of_Z 10))] (VStr "Widget")
       (VNum (of_Z (-5))) (VStr "someday"))
  = Some "NaN-WNaN".
Proof.
  destruct (plain_row_with_product_and_date_is_counted
              [("Widget", VNum (of_Z 10))] (VStr "Widget") (VNum (of_Z (-5)))
              (VStr "someday") eq_refl eq_refl eq_refl) as [_ E].
  rewrite E. vm_compute. reflexivity.
Defined.

(** Hours written 8:30 give the total 08:30 in the plain component. *)
Lemma plain_hours_sample :
  get (DashboardPlain.addClock [] textHours) "2024-W02" = Some (VStr "08:30")
  /\ get (DashboardPlain.addClock [] textHours)
       (DashboardPlain.getWeekNumber (field textHours "Date In"))
     = Some (VStr (to_string
                     (or (DashboardPlain.fieldOf []
                            (DashboardPlain.getWeekNumber
                               (field textHours "Date In")))
                        (VNum zero))
                   ++ "8:30")).
Proof.
  split; [vm_compute; reflexivity|].
  apply (plain_hours_text_is_appended [] textHours "8:30").
  - reflexivity.
  - reflexivity.
  - discriminate.
Defined.


(** With the sales table missing, the message is in the state and the
    loading screen stays. *)
Lemma failed_load_sample :
  Loader.error
    (fst (Loader.loadData salesMissing
            [Loader.Clocks; Loader.Sales; Loader.Purchases] Loader.initialState))
  = Some "Error loading salesOrders data: Failed to fetch /data/SalesOrder.csv: 404 Not Found"
  /\ Loader.render
       (fst (Loader.loadData salesMissing
               [Loader.Clocks; Loader.Sales; Loader.Purchases]
               Loader.initialState))
     = Loader.LoadingScreen
  /\ snd (Loader.loadData salesMissing
            [Loader.Clocks; Loader.Sales; Loader.Purchases] Loader.initialState)
     = None.
Proof.
  split; [vm_compute; reflexivity|].
  apply (failed_load_stays_on_loading_screen salesMissing
           [Loader.Clocks; Loader.Sales; Loader.Purchases] Loader.initialState
           Loader.Sales
           "Failed to fetch /data/SalesOrder.csv: 404 Not Found").
  reflexivity.
Defined.

(** With the four tables fetched, the dashboard is shown. *)
Lemma loaded_tables_sample :
  Loader.render
    (fst (Loader.loadData allLoaded
            [Loader.Purchases; Loader.Clocks; Loader.Sales] Loader.initialState))
  = Loader.DashboardScreen.
Proof.
  pose proof (loaded_tables_show_dashboard_or_error allLoaded
                [Loader.Purchases; Loader.Clocks; Loader.Sales]
                Loader.initialState smallProducts twoStores smallPurchases
                smallClocks eq_refl eq_refl eq_refl eq_refl) as H.
  destruct (Dashboard.calculateMetrics smallProducts twoStores smallPurchases
              smallClocks) as [m|reason] eqn:E.
  - exact (proj1 H).
  - vm_compute in E. discriminate.
Defined.

End FurtherSamples.
